(** * Automatic topology generator: a shallow embedding of
      [parse_topology_tool.py] and the properties of its pipeline

    The development follows the script stage by stage: the Python string
    primitives the parser relies on, the part of the [ipaddress] module that
    [IPv4Network(..., strict=False)] exercises, the configuration constants,
    the config parser, the router-link matcher, the access-LAN inferrer, the
    layer assigner, the load annotator, and the renderer up to its plotting
    calls (the graph, the positions and the node styles).  Python integers
    are [Z]; [None] is [option]'s [None]; a raised exception is the [Raise]
    branch of [result]; the module-level random generator is an explicit
    state threaded through the load annotator.  The config loader (directory
    listing) and the plotting calls are input and output only and are left
    out. *)

From Stdlib Require Import ZArith Ascii String Bool Lia.
From stdpp Require Import base option list gmap strings fin_maps pretty sorting.

Open Scope string_scope.
Open Scope Z_scope.
Open Scope list_scope.

(** ** Exceptions and fallible results *)

Inductive exn : Type :=
| AddressValueError
| NetmaskValueError
| ValueError
| IndexError
| KeyError.

Inductive result (A : Type) : Type :=
| Ok (a : A)
| Raise (e : exn).
Arguments Ok {A} a.
Arguments Raise {A} e.

Definition rbind {A B : Type} (r : result A) (k : A -> result B) : result B :=
  match r with
  | Ok a => k a
  | Raise e => Raise e
  end.

Notation "'let*' x ':=' r 'in' k" := (rbind r (fun x => k))
  (at level 10, x pattern, r at level 100, k at level 200).

Definition is_Ok {A : Type} (r : result A) : bool :=
  match r with Ok _ => true | Raise _ => false end.

(** [mapM]-style traversal: the first exception wins, as in a Python loop. *)
Fixpoint rmap {A B : Type} (f : A -> result B) (l : list A) : result (list B) :=
  match l with
  | [] => Ok []
  | x :: l' =>
      let* y := f x in
      let* ys := rmap f l' in
      Ok (y :: ys)
  end.

(** ** Python string primitives

    Strings are sequences of code points below 256 (ASCII and Latin-1),
    which is what [ascii] holds. *)

Module PyStr.

Definition code (c : ascii) : N := N_of_ascii c.

(** [str.isspace] on one character, for code points below 256. *)
Definition isspace (c : ascii) : bool :=
  let n := code c in
  ((9 <=? n) && (n <=? 13) || (28 <=? n) && (n <=? 32)
   || (n =? 133) || (n =? 160))%N.

(** ASCII decimal digit. *)
Definition isdigit (c : ascii) : bool :=
  let n := code c in ((48 <=? n) && (n <=? 57))%N.

Definition digit_val (c : ascii) : Z := Z.of_N (code c) - 48.

Definition is_empty (s : string) : bool :=
  match s with EmptyString => true | String _ _ => false end.

Fixpoint lstrip (s : string) : string :=
  match s with
  | EmptyString => EmptyString
  | String c s' => if isspace c then lstrip s' else s
  end.

Fixpoint rstrip (s : string) : string :=
  match s with
  | EmptyString => EmptyString
  | String c s' =>
      let r := rstrip s' in
      if isspace c && is_empty r then EmptyString else String c r
  end.

(** [s.strip()] *)
Definition strip (s : string) : string := rstrip (lstrip s).

(** [s.startswith(p)] *)
Fixpoint startswith (p s : string) : bool :=
  match p, s with
  | EmptyString, _ => true
  | String a p', String b s' => if Ascii.eqb a b then startswith p' s' else false
  | String _ _, EmptyString => false
  end.

(** [s.split()]: maximal runs of non-whitespace characters. *)
Fixpoint split_go (cur : string) (s : string) : list string :=
  match s with
  | EmptyString => if is_empty cur then [] else [cur]
  | String c s' =>
      if isspace c
      then (if is_empty cur then split_go EmptyString s'
            else cur :: split_go EmptyString s')
      else split_go (cur +:+ String c EmptyString) s'
  end.

Definition split (s : string) : list string := split_go EmptyString s.

(** The first run of non-whitespace characters and what follows it. *)
Fixpoint break_ws (s : string) : string * string :=
  match s with
  | EmptyString => (EmptyString, EmptyString)
  | String c s' =>
      if isspace c then (EmptyString, s)
      else let '(tok, rest) := break_ws s' in (String c tok, rest)
  end.

(** [s.split(maxsplit=1)]: the first word, then the remainder with its
    leading whitespace removed (trailing whitespace is kept). *)
Definition split_max1 (s : string) : list string :=
  let s1 := lstrip s in
  if is_empty s1 then []
  else
    let '(tok, rest) := break_ws s1 in
    let rest' := lstrip rest in
    if is_empty rest' then [tok] else [tok; rest'].

(** [s.split(sep)] for a one-character separator: always at least one piece. *)
Fixpoint split_char_go (sep : ascii) (cur : string) (s : string) : list string :=
  match s with
  | EmptyString => [cur]
  | String c s' =>
      if Ascii.eqb c sep then cur :: split_char_go sep EmptyString s'
      else split_char_go sep (cur +:+ String c EmptyString) s'
  end.

Definition split_char (sep : ascii) (s : string) : list string :=
  split_char_go sep EmptyString s.

(** [s.replace(a, b)] for one-character [a] and [b]. *)
Fixpoint replace_char (a b : ascii) (s : string) : string :=
  match s with
  | EmptyString => EmptyString
  | String c s' => String (if Ascii.eqb c a then b else c) (replace_char a b s')
  end.

(** [s.isascii() and s.isdigit()]; the empty string is not a digit string. *)
Fixpoint all_digits (s : string) : bool :=
  match s with
  | EmptyString => true
  | String c s' => isdigit c && all_digits s'
  end.

Definition is_ascii_digits (s : string) : bool :=
  negb (is_empty s) && all_digits s.

(** Value of a string of decimal digits. *)
Fixpoint digits_value (acc : Z) (s : string) : Z :=
  match s with
  | EmptyString => acc
  | String c s' => digits_value (10 * acc + digit_val c) s'
  end.

(** Digits of an [int] literal: single underscores may separate digits.
    [need] holds when the next character has to be a digit. *)
Fixpoint int_digits (acc : Z) (need : bool) (s : string) : option Z :=
  match s with
  | EmptyString => if need then None else Some acc
  | String c s' =>
      if isdigit c then int_digits (10 * acc + digit_val c) false s'
      else if Ascii.eqb c "_" && negb need then int_digits acc true s'
      else None
  end.

(** The number of digits of a literal, underscores apart. *)
Fixpoint count_digits (s : string) : Z :=
  match s with
  | EmptyString => 0
  | String c s' => (if isdigit c then 1 else 0) + count_digits s'
  end.

(** The default of [sys.int_max_str_digits] (interpreters from 3.11 on). *)
Definition MAX_STR_DIGITS : Z := 4300.

(** The literal after the sign: more digits than the limit is a
    [ValueError], as a malformed literal is. *)
Definition int_body (s : string) : option Z :=
  if MAX_STR_DIGITS <? count_digits s then None else int_digits 0 true s.

(** [int(s)] in base 10; [None] stands for [ValueError]. *)
Definition int (s : string) : option Z :=
  match strip s with
  | String "+" s' => int_body s'
  | String "-" s' => Z.opp <$> int_body s'
  | s' => int_body s'
  end.

(** Lines of a text file opened in text mode with universal newlines:
    ["\n"], ["\r\n"] and ["\r"] all end a line.  The terminator itself is
    dropped here; the parser strips every line before looking at it. *)
Definition LF : ascii := ascii_of_N 10.
Definition CR : ascii := ascii_of_N 13.

Fixpoint lines_go (cur : string) (s : string) : list string :=
  match s with
  | EmptyString => if is_empty cur then [] else [cur]
  | String c s' =>
      if Ascii.eqb c LF then cur :: lines_go EmptyString s'
      else if Ascii.eqb c CR then
        match s' with
        | String c' s'' =>
            if Ascii.eqb c' LF then cur :: lines_go EmptyString s''
            else cur :: lines_go EmptyString s'
        | EmptyString => [cur]
        end
      else lines_go (cur +:+ String c EmptyString) s'
  end.

Definition lines (text : string) : list string := lines_go EmptyString text.

(** Truthiness of an optional string: [None] and [""] are false. *)
Definition truthy (o : option string) : bool :=
  match o with
  | Some s => negb (is_empty s)
  | None => false
  end.

(** What an f-string prints for a value that is a string or [None]. *)
Definition format (o : option string) : string :=
  match o with
  | Some s => s
  | None => "None"
  end.

End PyStr.

(** ** The [ipaddress] module, as far as [IPv4Network(s, strict=False)] goes

    The script builds every subnet with
    [ipaddress.IPv4Network(f'{ip}/{mask}', strict=False)], compares two
    networks with [==] and uses [str(net)] as a dictionary key.  The
    definitions below follow the library's own helpers
    ([_parse_octet], [_ip_int_from_string], [_prefix_from_prefix_string],
    [_prefix_from_ip_string], [_make_netmask]). *)

Module IPv4.

Definition ALL_ONES : Z := 4294967295.
Definition max_prefixlen : Z := 32.

(** [_parse_octet]: one to three ASCII digits, no leading zero, at most 255. *)
Definition parse_octet (s : string) : option Z :=
  if PyStr.is_empty s then None
  else if negb (PyStr.all_digits s) then None
  else if (3 <? String.length s)%nat then None
  else if negb (String.eqb s "0") && PyStr.startswith "0" s then None
  else
    let v := PyStr.digits_value 0 s in
    if 255 <? v then None else Some v.

(** [int.from_bytes(octets, 'big')] *)
Definition from_bytes (octets : list Z) : Z :=
  fold_left (fun acc o => Z.lor (Z.shiftl acc 8) o) octets 0.

(** [_ip_int_from_string] *)
Definition ip_int_from_string (s : string) : option Z :=
  if PyStr.is_empty s then None
  else
    let octets := PyStr.split_char "." s in
    if negb (length octets =? 4)%nat then None
    else from_bytes <$> mapM parse_octet octets.

(** [_prefix_from_prefix_string] *)
Definition prefix_from_prefix_string (s : string) : option Z :=
  if negb (PyStr.is_ascii_digits s) then None
  else
    let p := PyStr.digits_value 0 s in
    if (0 <=? p) && (p <=? max_prefixlen) then Some p else None.

(** [_count_righthand_zero_bits number bits] *)
Fixpoint count_zero_bits (fuel : nat) (number : Z) : Z :=
  match fuel with
  | O => 0
  | S fuel' =>
      if Z.testbit number 0 then 0
      else 1 + count_zero_bits fuel' (Z.shiftr number 1)
  end.

Definition count_righthand_zero_bits (number bits : Z) : Z :=
  if number =? 0 then bits
  else Z.min bits (count_zero_bits (Z.to_nat bits) number).

(** [_prefix_from_ip_int]: a run of ones followed by a run of zeroes. *)
Definition prefix_from_ip_int (ip_int : Z) : option Z :=
  let trailing_zeroes := count_righthand_zero_bits ip_int max_prefixlen in
  let prefixlen := max_prefixlen - trailing_zeroes in
  let leading_ones := Z.shiftr ip_int trailing_zeroes in
  let all_ones := Z.shiftl 1 prefixlen - 1 in
  if leading_ones =? all_ones then Some prefixlen else None.

(** [_prefix_from_ip_string]: a dotted netmask, or else a dotted hostmask. *)
Definition prefix_from_ip_string (s : string) : option Z :=
  match ip_int_from_string s with
  | None => None
  | Some ip_int =>
      match prefix_from_ip_int ip_int with
      | Some p => Some p
      | None => prefix_from_ip_int (Z.lxor ip_int ALL_ONES)
      end
  end.

(** [_ip_int_from_prefix] *)
Definition ip_int_from_prefix (prefixlen : Z) : Z :=
  Z.lxor ALL_ONES (Z.shiftr ALL_ONES prefixlen).

(** [_make_netmask] on a string: the netmask as an integer, and the prefix
    length. *)
Definition make_netmask (s : string) : option (Z * Z) :=
  let prefixlen :=
    match prefix_from_prefix_string s with
    | Some p => Some p
    | None => prefix_from_ip_string s
    end in
  (fun p => (ip_int_from_prefix p, p)) <$> prefixlen.

(** An [IPv4Network] object: its network address and netmask as integers,
    and its prefix length. *)
Record Network : Type := mkNetwork {
  network_address : Z;
  netmask : Z;
  prefixlen : Z
}.

(** [IPv4Network(address, strict=False)] for a string [address].  More than
    one slash, or a bad address part, is an [AddressValueError]; a bad mask
    part is a [NetmaskValueError].  Without a slash the prefix length is 32. *)
Definition IPv4Network (address : string) : result Network :=
  match PyStr.split_char "/" address with
  | [addr] =>
      match ip_int_from_string addr with
      | None => Raise AddressValueError
      | Some packed =>
          Ok (mkNetwork packed ALL_ONES max_prefixlen)
      end
  | [addr; mask] =>
      match ip_int_from_string addr with
      | None => Raise AddressValueError
      | Some packed =>
          match make_netmask mask with
          | None => Raise NetmaskValueError
          | Some (nm, p) => Ok (mkNetwork (Z.land packed nm) nm p)
          end
      end
  | _ => Raise AddressValueError
  end.

(** [net_a == net_b]: same network address and same netmask. *)
Definition eqb (a b : Network) : bool :=
  (network_address a =? network_address b) && (netmask a =? netmask b).

(** [str(IPv4Address(n))]: the four bytes, most significant first. *)
Definition address_str (n : Z) : string :=
  pretty (Z.land (Z.shiftr n 24) 255) +:+ "." +:+
  pretty (Z.land (Z.shiftr n 16) 255) +:+ "." +:+
  pretty (Z.land (Z.shiftr n 8) 255) +:+ "." +:+
  pretty (Z.land n 255).

(** [str(net)] *)
Definition str (net : Network) : string :=
  address_str (network_address net) +:+ "/" +:+ pretty (prefixlen net).

End IPv4.

(** ** Configuration constants

    The script reads its options from module-level names; here they are one
    record, passed to every stage that reads one of them. *)

Record Profile : Type := mkProfile { peak : Z; avg : Z }.

Record Config : Type := mkConfig {
  LOAD_MODE : string;
  TRAFFIC_MIN : Z;
  TRAFFIC_MAX : Z;
  FIXED_LOAD : Z;
  RANDOM_SEED : option Z;
  DEFAULT_ROUTER_IF_BW : Z;
  DEFAULT_ENDPOINT_LINK_BW : Z;
  ENDPOINTS_PER_LAN : Z;
  (** a dict in insertion order: its items, with distinct keys *)
  APP_PROFILES : list (string * Profile);
  USE_PEAK : bool
}.

(** The values written in the script. *)
Definition script_config : Config := {|
  LOAD_MODE := "apps";
  TRAFFIC_MIN := 2000;
  TRAFFIC_MAX := 15000;
  FIXED_LOAD := 8000;
  RANDOM_SEED := None;
  DEFAULT_ROUTER_IF_BW := 10000;
  DEFAULT_ENDPOINT_LINK_BW := 1000;
  ENDPOINTS_PER_LAN := 2;
  APP_PROFILES :=
    [ ("Web Browsing", mkProfile 2000 500);
      ("Video Streaming", mkProfile 8000 5000);
      ("VoIP", mkProfile 512 256);
      ("File Transfer", mkProfile 9000 6000);
      ("Cloud Backup", mkProfile 7000 4000) ];
  USE_PEAK := true
|}.

(** ** Data model: routers and their interfaces *)

Record Interface : Type := mkInterface {
  iface_name : string;
  iface_ip : option string;
  iface_mask : option string;
  iface_bandwidth : option Z
}.

(** A node name is a string, or [None] for a router whose config has no
    hostname line. *)
Definition node : Type := option string.

Record Router : Type := mkRouter {
  hostname : node;
  interfaces : list Interface
}.

(** A link [(A, B, bw)]. *)
Definition link : Type := (node * node * Z)%type.

#[global] Instance Interface_eq_dec : EqDecision Interface.
Proof. solve_decision. Defined.

(** ** Step 1: [parse_config] *)

(** The loop state: [data["hostname"]], [data["interfaces"]], [current]. *)
Record ParseState : Type := mkParseState {
  ps_hostname : option string;
  ps_interfaces : list Interface;
  ps_current : option Interface
}.

(** [{"name": n, "ip": None, "mask": None, "bandwidth": None}] *)
Definition fresh_interface (n : string) : Interface :=
  mkInterface n None None None.

(** One iteration of [for raw in f]. *)
Definition parse_line (st : ParseState) (raw : string) : ParseState :=
  let line := PyStr.strip raw in
  if PyStr.is_empty line then st
  else if PyStr.startswith "hostname" line then
    match PyStr.split line with
    | _ :: h :: _ => mkParseState (Some h) (ps_interfaces st) (ps_current st)
    | _ => st
    end
  else if PyStr.startswith "interface" line then
    let ifaces :=
      match ps_current st with
      | Some c => ps_interfaces st ++ [c]
      | None => ps_interfaces st
      end in
    match PyStr.split_max1 line with
    | [_; n] => mkParseState (ps_hostname st) ifaces (Some (fresh_interface n))
    | _ => mkParseState (ps_hostname st) ifaces (Some (fresh_interface "UNKNOWN"))
    end
  else if PyStr.startswith "ip address" line && bool_decide (is_Some (ps_current st)) then
    match ps_current st, PyStr.split line with
    | Some c, _ :: _ :: a :: m :: _ =>
        mkParseState (ps_hostname st) (ps_interfaces st)
          (Some (mkInterface (iface_name c) (Some a) (Some m) (iface_bandwidth c)))
    | _, _ => st
    end
  else if PyStr.startswith "bandwidth" line && bool_decide (is_Some (ps_current st)) then
    match ps_current st, PyStr.split line with
    | Some c, _ :: b :: _ =>
        match PyStr.int b with
        | Some v =>
            mkParseState (ps_hostname st) (ps_interfaces st)
              (Some (mkInterface (iface_name c) (iface_ip c) (iface_mask c) (Some v)))
        | None => st
        end
    | _, _ => st
    end
  else st.

(** After the loop: [if current: data["interfaces"].append(current)]. *)
Definition parse_finish (st : ParseState) : Router :=
  mkRouter (ps_hostname st)
    match ps_current st with
    | Some c => ps_interfaces st ++ [c]
    | None => ps_interfaces st
    end.

Definition parse_lines (raws : list string) : Router :=
  parse_finish (fold_left parse_line raws (mkParseState None [] None)).

(** [parse_config], on the text of the file. *)
Definition parse_config (text : string) : Router :=
  parse_lines (PyStr.lines text).

Definition NL : string := String PyStr.LF EmptyString.

Definition sample_R1 : string :=
  "hostname R1" +:+ NL +:+
  "!" +:+ NL +:+
  "interface FastEthernet0/0" +:+ NL +:+
  " ip address 10.0.0.1 255.255.255.252" +:+ NL +:+
  "interface FastEthernet0/1" +:+ NL +:+
  " bandwidth 512" +:+ NL +:+
  " ip address 192.168.1.1 255.255.255.0" +:+ NL.

(** ** Python's [or] on optional integers

    [x or y] yields [x] when [x] is truthy and [y] otherwise; [None] and [0]
    are both falsy. *)

Definition truthy_int (o : option Z) : bool :=
  match o with
  | Some v => negb (v =? 0)
  | None => false
  end.

Definition py_or (a b : option Z) : option Z :=
  if truthy_int a then a else b.

(** [x or d] where [d] is an integer constant: the result is an integer. *)
Definition or_default (x : option Z) (d : Z) : Z :=
  match x with
  | Some v => if v =? 0 then d else v
  | None => d
  end.

(** ** Subnet of an interface *)

(** [iface["ip"] and iface["mask"]], as a condition. *)
Definition has_addr (iface : Interface) : bool :=
  PyStr.truthy (iface_ip iface) && PyStr.truthy (iface_mask iface).

(** [ipaddress.IPv4Network(f'{iface["ip"]}/{iface["mask"]}', strict=False)] *)
Definition iface_net (iface : Interface) : result IPv4.Network :=
  IPv4.IPv4Network
    (PyStr.format (iface_ip iface) +:+ "/" +:+ PyStr.format (iface_mask iface)).

(** ** Step 2: [find_router_links] *)

(** An element of [all_ifaces]: [(routerName, ifaceDict, network)]. *)
Definition entry : Type := (node * Interface * IPv4.Network)%type.

(** The inner loop [for iface in r["interfaces"]] of the helper list. *)
Fixpoint collect_ifaces (h : node) (ifaces : list Interface) (all_ifaces : list entry)
  : result (list entry) :=
  match ifaces with
  | [] => Ok all_ifaces
  | iface :: rest =>
      if has_addr iface then
        let* net := iface_net iface in
        collect_ifaces h rest (all_ifaces ++ [(h, iface, net)])
      else collect_ifaces h rest all_ifaces
  end.

(** The outer loop [for r in routers]. *)
Fixpoint collect_routers (routers : list Router) (all_ifaces : list entry)
  : result (list entry) :=
  match routers with
  | [] => Ok all_ifaces
  | r :: rest =>
      let* all_ifaces' := collect_ifaces (hostname r) (interfaces r) all_ifaces in
      collect_routers rest all_ifaces'
  end.

Definition all_ifaces (routers : list Router) : result (list entry) :=
  collect_routers routers [].

(** [bw = ia["bandwidth"] or ib["bandwidth"] or DEFAULT_ROUTER_IF_BW] *)
Definition link_bw (cfg : Config) (ia ib : Interface) : Z :=
  or_default (py_or (iface_bandwidth ia) (iface_bandwidth ib)) (DEFAULT_ROUTER_IF_BW cfg).

(** The loop [for j in range(i + 1, len(all_ifaces))], for the entry at [i]
    and the entries after it. *)
Fixpoint match_after (cfg : Config) (ea : entry) (after : list entry) (links : list link)
  : list link :=
  match after with
  | [] => links
  | eb :: after' =>
      let '(ra, ia, na) := ea in
      let '(rb, ib, nb) := eb in
      if IPv4.eqb na nb
      then match_after cfg ea after' (links ++ [(ra, rb, link_bw cfg ia ib)])
      else match_after cfg ea after' links
  end.

(** The loop [for i in range(len(all_ifaces))]. *)
Fixpoint match_pairs (cfg : Config) (entries : list entry) (links : list link) : list link :=
  match entries with
  | [] => links
  | ea :: after => match_pairs cfg after (match_after cfg ea after links)
  end.

Definition find_router_links (cfg : Config) (routers : list Router) : result (list link) :=
  let* entries := all_ifaces routers in
  Ok (match_pairs cfg entries []).

(** ** Step 3: [infer_access_lans] *)

(** An element of a [net_map] value: [(routerName, ifaceName, ifaceBW)]. *)
Definition attach : Type := (node * string * Z)%type.

(** [net_map]: a dict from [str(net)] to a list, in insertion order. *)
Definition net_map : Type := list (string * list attach).

(** [net_map.setdefault(key, []).append(x)] *)
Fixpoint setdefault_append (key : string) (x : attach) (m : net_map) : net_map :=
  match m with
  | [] => [(key, [x])]
  | (k, l) :: m' =>
      if String.eqb k key then (k, l ++ [x]) :: m'
      else (k, l) :: setdefault_append key x m'
  end.

Definition attach_of (cfg : Config) (h : node) (iface : Interface) : attach :=
  (h, iface_name iface, or_default (iface_bandwidth iface) (DEFAULT_ROUTER_IF_BW cfg)).

Fixpoint group_ifaces (cfg : Config) (h : node) (ifaces : list Interface) (m : net_map)
  : result net_map :=
  match ifaces with
  | [] => Ok m
  | iface :: rest =>
      if has_addr iface then
        let* net := iface_net iface in
        group_ifaces cfg h rest (setdefault_append (IPv4.str net) (attach_of cfg h iface) m)
      else group_ifaces cfg h rest m
  end.

Fixpoint group_routers (cfg : Config) (routers : list Router) (m : net_map) : result net_map :=
  match routers with
  | [] => Ok m
  | r :: rest =>
      let* m' := group_ifaces cfg (hostname r) (interfaces r) m in
      group_routers cfg rest m'
  end.

(** A switch dict [{"name": .., "router": .., "lan_net": ..}]. *)
Record Switch : Type := mkSwitch {
  sw_name : string;
  sw_router : node;
  sw_lan_net : string
}.

(** [range(a, b)] *)
Definition py_range (a b : Z) : list Z :=
  map (fun k => a + Z.of_nat k) (seq 0 (Z.to_nat (b - a))).

(** [f"SW_{rname}_{iname.replace('/', '_')}"] *)
Definition switch_name (rname : node) (iname : string) : string :=
  "SW_" +:+ PyStr.format rname +:+ "_" +:+ PyStr.replace_char "/" "_" iname.

(** [f"PC_{sw_name}_{idx}"] *)
Definition endpoint_name (sw : string) (idx : Z) : string :=
  "PC_" +:+ sw +:+ "_" +:+ pretty idx.

(** The three result lists, as the second loop grows them. *)
Definition lans : Type := (list Switch * list string * list link)%type.

(** [for idx in range(1, ENDPOINTS_PER_LAN + 1)] *)
Definition add_endpoints (cfg : Config) (sw : string)
  (endpoints : list string) (access_links : list link) : list string * list link :=
  fold_left
    (fun '(eps, als) idx =>
       let ep_name := endpoint_name sw idx in
       (eps ++ [ep_name], als ++ [(Some sw, Some ep_name, DEFAULT_ENDPOINT_LINK_BW cfg)]))
    (py_range 1 (ENDPOINTS_PER_LAN cfg + 1))
    (endpoints, access_links).

(** One iteration of [for net_str, attaches in net_map.items()]. *)
Definition lan_step (cfg : Config) (acc : lans) (item : string * list attach) : lans :=
  let '(switches, endpoints, access_links) := acc in
  let '(net_str, attaches) := item in
  match attaches with
  | [(rname, iname, rbw)] =>
      let sw := switch_name rname iname in
      let switches' := switches ++ [mkSwitch sw rname net_str] in
      let access_links' := access_links ++ [(rname, Some sw, rbw)] in
      let '(endpoints', access_links'') := add_endpoints cfg sw endpoints access_links' in
      (switches', endpoints', access_links'')
  | _ => acc
  end.

Definition infer_access_lans (cfg : Config) (routers : list Router) : result lans :=
  let* m := group_routers cfg routers [] in
  Ok (fold_left (lan_step cfg) m ([], [], [])).

(** The end-to-end example of two routers sharing a /30 and owning one
    private /24 each. *)
Definition example_R1 : Router :=
  mkRouter (Some "R1")
    [ mkInterface "Fa0/0" (Some "10.0.0.1") (Some "255.255.255.252") None;
      mkInterface "Fa0/1" (Some "192.168.1.1") (Some "255.255.255.0") None ].

Definition example_R2 : Router :=
  mkRouter (Some "R2")
    [ mkInterface "Fa0/0" (Some "10.0.0.2") (Some "255.255.255.252") None;
      mkInterface "Fa0/1" (Some "192.168.2.1") (Some "255.255.255.0") None ].

(** ** Step 4: [auto_assign_layers] *)

(** The [layer] dict: node name to layer number. *)
Abbreviation layer_map := (gmap node Z).

(** [layer.setdefault(k, v)] *)
Definition setdefault (k : node) (v : Z) (layer : layer_map) : layer_map :=
  match layer !! k with
  | Some _ => layer
  | None => <[k := v]> layer
  end.

(** [k in layer] *)
Definition in_layer (k : node) (layer : layer_map) : bool :=
  bool_decide (is_Some (layer !! k)).

(** [bws = [bw for _, _, bw in router_links]] *)
Definition bws (router_links : list link) : list Z :=
  map (fun '(_, _, bw) => bw) router_links.

(** [max(l)] and [min(l)] of a list whose first element is [x]. *)
Definition list_max (x : Z) (l : list Z) : Z := fold_left Z.max l x.
Definition list_min (x : Z) (l : list Z) : Z := fold_left Z.min l x.

(** The loop of the equal-bandwidth branch. *)
Definition equal_pass (core : node) (router_links : list link) (layer : layer_map)
  : layer_map :=
  fold_left
    (fun layer '(a, b, _) =>
       let layer1 := if bool_decide (a <> core) then setdefault a 1 layer else layer in
       if bool_decide (b <> core) then setdefault b 1 layer1 else layer1)
    router_links layer.

(** Core: routers on highest-bandwidth links. *)
Definition core_pass (max_bw : Z) (router_links : list link) (layer : layer_map)
  : layer_map :=
  fold_left
    (fun layer '(a, b, bw) =>
       if bw =? max_bw then <[b := 0]> (<[a := 0]> layer) else layer)
    router_links layer.

(** Dist: the second loop of the unequal-bandwidth branch. *)
Definition dist_step (layer : layer_map) (l : link) : layer_map :=
  let '(a, b, _) := l in
  let layer1 :=
    if negb (in_layer a layer) && in_layer b layer then <[a := 1]> layer else layer in
  if negb (in_layer b layer1) && in_layer a layer1 then <[b := 1]> layer1 else layer1.

Definition dist_pass (router_links : list link) (layer : layer_map) : layer_map :=
  fold_left dist_step router_links layer.

(** Stragglers: the third loop of the unequal-bandwidth branch. *)
Definition straggler_pass (router_links : list link) (layer : layer_map) : layer_map :=
  fold_left (fun layer '(a, b, _) => setdefault b 2 (setdefault a 2 layer))
    router_links layer.

(** The [if router_links:] block: the layers of the routers. *)
Definition router_layers (router_links : list link) : layer_map :=
  match router_links with
  | [] => ∅
  | (core, _, bw0) :: _ =>
      let max_bw := list_max bw0 (bws router_links) in
      let min_bw := list_min bw0 (bws router_links) in
      if max_bw =? min_bw then
        equal_pass core router_links (<[core := 0]> ∅)
      else
        straggler_pass router_links
          (dist_pass router_links (core_pass max_bw router_links ∅))
  end.

Definition auto_assign_layers (router_links : list link)
  (switches : list Switch) (endpoints : list string) : layer_map :=
  let layer := router_layers router_links in
  let layer := fold_left (fun layer sw => <[Some (sw_name sw) := 2]> layer) switches layer in
  fold_left (fun layer ep => <[Some ep := 3]> layer) endpoints layer.

(** ** Step 5: load assignment and overload check *)

(** The module-level generator of [random], as an interface: a state, the
    effect of [random.seed], the integer draw [_randbelow] behind
    [randint] and [choice], and the index that [choices] selects from its
    weights (a float draw and a bisection over the cumulative weights in
    the library), each returning the next state. *)
Class RandomSource : Type := {
  rand_state : Type;
  seed : Z -> rand_state;
  randbelow : Z -> rand_state -> Z * rand_state;
  weighted_index : list Z -> rand_state -> nat * rand_state;
  randbelow_range : forall n st, 0 < n -> 0 <= (randbelow n st).1 < n;
  weighted_index_range :
    forall ws st, ws <> [] -> ((weighted_index ws st).1 < length ws)%nat
}.

(** An annotated link [(A, B, bw, load, overloaded, app)]. *)
Definition annotated : Type := (node * node * Z * Z * bool * option string)%type.

Definition an_bw (x : annotated) : Z := let '(_, _, bw, _, _, _) := x in bw.
Definition an_load (x : annotated) : Z := let '(_, _, _, load, _, _) := x in load.
Definition an_overloaded (x : annotated) : bool := let '(_, _, _, _, ov, _) := x in ov.
Definition an_app (x : annotated) : option string := let '(_, _, _, _, _, app) := x in app.

(** [APP_PROFILES[key]] *)
Fixpoint profile_of (key : string) (profiles : list (string * Profile)) : result Profile :=
  match profiles with
  | [] => Raise KeyError
  | (k, p) :: rest => if String.eqb k key then Ok p else profile_of key rest
  end.

Section Load.

Context `{RandomSource}.

(** [random.randint(a, b)] *)
Definition randint (a b : Z) (st : rand_state) : result (Z * rand_state) :=
  let width := b + 1 - a in
  if 0 <? width then
    let '(r, st') := randbelow width st in Ok (a + r, st')
  else Raise ValueError.

(** [random.choice(seq)] *)
Definition choice (seq : list string) (st : rand_state) : result (string * rand_state) :=
  match seq with
  | [] => Raise IndexError
  | _ :: _ =>
      let '(r, st') := randbelow (Z.of_nat (length seq)) st in
      match seq !! Z.to_nat r with
      | Some x => Ok (x, st')
      | None => Raise IndexError
      end
  end.

(** [random.choices(population=.., weights=.., k=1)[0]] *)
Definition choices1 (population : list string) (weights : list Z) (st : rand_state)
  : result (string * rand_state) :=
  if negb (length weights =? length population)%nat then Raise ValueError
  else if foldr Z.add 0 weights <=? 0 then Raise ValueError
  else
    let '(i, st') := weighted_index weights st in
    match population !! i with
    | Some x => Ok (x, st')
    | None => Raise IndexError
    end.

(** [compute_load(bw, app_choice)] *)
Definition compute_load (cfg : Config) (bw : Z) (app_choice : option string)
  (st : rand_state) : result (Z * rand_state) :=
  if String.eqb (LOAD_MODE cfg) "fixed" then Ok (FIXED_LOAD cfg, st)
  else if String.eqb (LOAD_MODE cfg) "random" then
    randint (TRAFFIC_MIN cfg) (TRAFFIC_MAX cfg) st
  else
    let* (app, st') :=
      match app_choice with
      | Some a => Ok (a, st)
      | None => choice (map fst (APP_PROFILES cfg)) st
      end in
    let* profile := profile_of app (APP_PROFILES cfg) in
    Ok (if USE_PEAK cfg then peak profile else avg profile, st').

(** The body of the loop of [annotate_links_with_load] for one link. *)
Definition annotate_link (cfg : Config) (is_access : bool) (l : link) (st : rand_state)
  : result (annotated * rand_state) :=
  let '(a, b, bw) := l in
  let* (app, st1) :=
    if String.eqb (LOAD_MODE cfg) "apps" then
      let weights := if is_access then [4; 2; 4; 2; 1] else [2; 4; 1; 4; 3] in
      let* (x, st') := choices1 (map fst (APP_PROFILES cfg)) weights st in
      Ok (Some x, st')
    else Ok (None, st) in
  let* (load, st2) := compute_load cfg bw app st1 in
  let overloaded := (0 <? bw) && (bw <? load) in
  Ok ((a, b, bw, load, overloaded, app), st2).

(** [annotate_links_with_load(links, is_access)], from generator state [st]:
    the annotated list and the state the generator is left in. *)
Fixpoint annotate_from (cfg : Config) (is_access : bool) (links : list link)
  (annotated_acc : list annotated) (st : rand_state)
  : result (list annotated * rand_state) :=
  match links with
  | [] => Ok (annotated_acc, st)
  | l :: rest =>
      let* (x, st') := annotate_link cfg is_access l st in
      annotate_from cfg is_access rest (annotated_acc ++ [x]) st'
  end.

Definition annotate_links_with_load (cfg : Config) (links : list link)
  (is_access : bool) (st : rand_state) : result (list annotated * rand_state) :=
  annotate_from cfg is_access links [] st.

(** The part of the main block that draws loads: seed the generator when
    [RANDOM_SEED] is not [None], then annotate the router links and the
    access links, in that order.  [ambient] is the state the generator
    starts the process in. *)
Definition main_annotate (cfg : Config) (ambient : rand_state)
  (rtr_links access_links : list link) : result (list annotated * list annotated) :=
  let st :=
    match RANDOM_SEED cfg with
    | Some s => seed s
    | None => ambient
    end in
  let* (rtr_links_annot, st1) := annotate_links_with_load cfg rtr_links false st in
  let* (acc_links_annot, _) := annotate_links_with_load cfg access_links true st1 in
  Ok (rtr_links_annot, acc_links_annot).

Definition an_link (x : annotated) : link :=
  let '(a, b, bw, _, _, _) := x in (a, b, bw).

(** What is left of an annotated link once its bandwidth and its overload
    flag are put aside: the two ends, the load and the application. *)
Definition an_assignment (x : annotated) : node * node * Z * option string :=
  let '(a, b, _, load, _, app) := x in (a, b, load, app).

Definition assignments (r : result (list annotated * rand_state))
  : result (list (node * node * Z * option string) * rand_state) :=
  let* (out, st) := r in Ok (map an_assignment out, st).

End Load.

(** ** A concrete generator

    A linear congruential generator, to run the annotator on concrete
    inputs.  Its draws are in range by construction. *)

Definition lcg_next (st : Z) : Z := (1103515245 * st + 12345) mod 2147483648.

Definition lcg_randbelow (n : Z) (st : Z) : Z * Z :=
  let st' := lcg_next st in (st' mod n, st').

(** The position of [r] among the cumulative weights. *)
Fixpoint bucket (ws : list Z) (r : Z) : nat :=
  match ws with
  | [] => O
  | w :: ws' => if r <? w then O else S (bucket ws' (r - w))
  end.

Definition lcg_weighted_index (ws : list Z) (st : Z) : nat * Z :=
  let st' := lcg_next st in
  (Nat.min (bucket ws (st' mod foldr Z.add 0 ws)) (length ws - 1), st').

#[global] Instance lcg_source : RandomSource.
Proof.
  refine {|
    rand_state := Z;
    seed := fun s => s mod 2147483648;
    randbelow := lcg_randbelow;
    weighted_index := lcg_weighted_index
  |}.
  - intros n st Hn. unfold lcg_randbelow. cbn. apply Z.mod_pos_bound. exact Hn.
  - intros ws st Hne. unfold lcg_weighted_index. cbn.
    assert (0 < length ws)%nat by (destruct ws; [congruence | cbn; lia]).
    lia.
Defined.

(** ** Step 6: the graph and the layout of [build_and_draw]

    The part of [build_and_draw] that comes before the plotting calls: the
    graph, the positions and the node styles.  The graph is an undirected
    [networkx.Graph]: a table of nodes in insertion order, each with its
    attribute dict (empty for a node that only an edge brought in), and one
    attribute record per unordered pair of linked nodes.  [None] is refused
    as a node.  The [layer_map] argument is the list of its items in dict
    order. *)

(** The attributes [layer] and [ntype] of a node. *)
Record NodeAttrs : Type := mkNodeAttrs { na_layer : Z; na_ntype : string }.

(** The attributes [bandwidth], [load], [overloaded] and [app] of an edge. *)
Definition EdgeAttrs : Type := (Z * Z * bool * option string)%type.

Record Graph : Type := mkGraph {
  g_node : list (string * option NodeAttrs);
  g_edge : list (string * string * EdgeAttrs)
}.

Definition empty_graph : Graph := mkGraph [] [].

(** [n in G] *)
Definition has_node (n : string) (G : Graph) : bool :=
  bool_decide (n ∈ (g_node G).*1).

(** [G._node[n].update(layer=.., ntype=..)] *)
Fixpoint set_attrs (n : string) (a : NodeAttrs) (nodes : list (string * option NodeAttrs))
  : list (string * option NodeAttrs) :=
  match nodes with
  | [] => []
  | (k, d) :: rest =>
      if String.eqb k n then (k, Some a) :: rest else (k, d) :: set_attrs n a rest
  end.

(** [G.add_node(n, layer=.., ntype=..)] *)
Definition add_node (n : node) (a : NodeAttrs) (G : Graph) : result Graph :=
  match n with
  | None => Raise ValueError
  | Some s =>
      if has_node s G then Ok (mkGraph (set_attrs s a (g_node G)) (g_edge G))
      else Ok (mkGraph (g_node G ++ [(s, Some a)]) (g_edge G))
  end.

(** What [add_edge] does for one end: a node that is not in the graph yet
    is added with an empty attribute dict. *)
Definition ensure_node (n : node) (G : Graph) : result Graph :=
  match n with
  | None => Raise ValueError
  | Some s =>
      if has_node s G then Ok G
      else Ok (mkGraph (g_node G ++ [(s, None)]) (g_edge G))
  end.

Definition same_edge (u v u' v' : string) : bool :=
  String.eqb u u' && String.eqb v v' || String.eqb u v' && String.eqb v u'.

(** The attributes of the edge between [u] and [v] are replaced, or the
    edge is added. *)
Fixpoint set_edge (u v : string) (d : EdgeAttrs) (edges : list (string * string * EdgeAttrs))
  : list (string * string * EdgeAttrs) :=
  match edges with
  | [] => [(u, v, d)]
  | (u', v', d') :: rest =>
      if same_edge u v u' v' then (u', v', d) :: rest
      else (u', v', d') :: set_edge u v d rest
  end.

(** [G.add_edge(u, v, bandwidth=.., load=.., overloaded=.., app=..)] *)
Definition add_edge (u v : node) (d : EdgeAttrs) (G : Graph) : result Graph :=
  let* G1 := ensure_node u G in
  let* G2 := ensure_node v G1 in
  match u, v with
  | Some a, Some b => Ok (mkGraph (g_node G2) (set_edge a b d (g_edge G2)))
  | _, _ => Raise ValueError
  end.

(** [G[u][v]] *)
Fixpoint edge_attrs (u v : string) (edges : list (string * string * EdgeAttrs))
  : option EdgeAttrs :=
  match edges with
  | [] => None
  | (u', v', d) :: rest => if same_edge u v u' v' then Some d else edge_attrs u v rest
  end.

(** A loop whose body may raise. *)
Fixpoint rfold {A S : Type} (f : S -> A -> result S) (l : list A) (s : S) : result S :=
  match l with
  | [] => Ok s
  | x :: l' => let* s' := f s x in rfold f l' s'
  end.

Definition ntype_of_layer (layer : Z) : string :=
  if layer =? 3 then "Endpoint" else if layer =? 2 then "Switch" else "Router".

(** [for node, layer in layer_map.items(): G.add_node(..)] *)
Definition add_layer_nodes (layer_map : list (node * Z)) (G : Graph) : result Graph :=
  rfold (fun G '(n, layer) => add_node n (mkNodeAttrs layer (ntype_of_layer layer)) G)
    layer_map G.

(** [for (a, b, bw, load, overloaded, app) in ..: G.add_edge(..)] *)
Definition add_link_edges (links : list annotated) (G : Graph) : result Graph :=
  rfold (fun G '(a, b, bw, load, overloaded, app) =>
           add_edge a b (bw, load, overloaded, app) G)
    links G.

(** [layers.setdefault(ly, []).append(n)] *)
Fixpoint row_append (ly : Z) (n : string) (layers : list (Z * list string))
  : list (Z * list string) :=
  match layers with
  | [] => [(ly, [n])]
  | (k, row) :: rest =>
      if k =? ly then (k, row ++ [n]) :: rest else (k, row) :: row_append ly n rest
  end.

(** [for n, d in G.nodes(data=True): layers.setdefault(d["layer"], []).append(n)] *)
Definition group_by_layer (nodes : list (string * option NodeAttrs))
  : result (list (Z * list string)) :=
  rfold (fun layers '(n, d) =>
           match d with
           | Some a => Ok (row_append (na_layer a) n layers)
           | None => Raise KeyError
           end)
    nodes [].

(** [layers[ly]] *)
Fixpoint row_of (ly : Z) (layers : list (Z * list string)) : list string :=
  match layers with
  | [] => []
  | (k, row) :: rest => if k =? ly then row else row_of ly rest
  end.

(** [pos[n] = p] *)
Fixpoint pos_set (n : string) (p : Z * Z) (pos : list (string * (Z * Z)))
  : list (string * (Z * Z)) :=
  match pos with
  | [] => [(n, p)]
  | (k, q) :: rest =>
      if String.eqb k n then (k, p) :: rest else (k, q) :: pos_set n p rest
  end.

(** [for i, n in enumerate(row): pos[n] = (i, -ly)] *)
Definition place_row (ly : Z) (row : list string) (pos : list (string * (Z * Z)))
  : list (string * (Z * Z)) :=
  fold_left (fun pos '(i, n) => pos_set n (Z.of_nat i, - ly) pos)
    (imap (fun i n => (i, n)) row) pos.

(** [for ly in sorted(layers.keys()): ..] *)
Definition place_layers (layers : list (Z * list string)) : list (string * (Z * Z)) :=
  fold_left (fun pos ly => place_row ly (row_of ly layers) pos)
    (merge_sort Z.le layers.*1) [].

(** The size and the colour of a node, from its [ntype]. *)
Definition node_style (d : option NodeAttrs) : result (Z * string) :=
  match d with
  | None => Raise KeyError
  | Some a =>
      if String.eqb (na_ntype a) "Router" then Ok (1600, "#8ecae6")
      else if String.eqb (na_ntype a) "Switch" then Ok (1300, "#bde0fe")
      else Ok (900, "#d9f99d")
  end.

(** What the plotting calls are given. *)
Record Layout : Type := mkLayout {
  lay_graph : Graph;
  lay_pos : list (string * (Z * Z));
  lay_styles : list (Z * string)
}.

(** [build_and_draw], up to the plotting calls. *)
Definition build_and_draw (router_links_annot access_links_annot : list annotated)
  (layer_map : list (node * Z)) : result Layout :=
  let* G1 := add_layer_nodes layer_map empty_graph in
  let* G := add_link_edges (router_links_annot ++ access_links_annot) G1 in
  let* layers := group_by_layer (g_node G) in
  let pos := place_layers layers in
  let* styles := rmap (fun '(_, d) => node_style d) (g_node G) in
  Ok (mkLayout G pos styles).

(** The two ends of every link of a list. *)
Definition link_ends (links : list annotated) : list node :=
  flat_map (fun x => let '(a, b, _) := an_link x in [a; b]) links.

(** * Definitions used to state the properties

    Sample inputs, and the reading of each stage that its properties are
    stated against. *)

(** ** Configurations

    The script's values with the fixed policy, and with the application
    policy and a seed. *)

Definition fixed_config : Config := {|
  LOAD_MODE := "fixed";
  TRAFFIC_MIN := TRAFFIC_MIN script_config;
  TRAFFIC_MAX := TRAFFIC_MAX script_config;
  FIXED_LOAD := FIXED_LOAD script_config;
  RANDOM_SEED := Some 42;
  DEFAULT_ROUTER_IF_BW := DEFAULT_ROUTER_IF_BW script_config;
  DEFAULT_ENDPOINT_LINK_BW := DEFAULT_ENDPOINT_LINK_BW script_config;
  ENDPOINTS_PER_LAN := ENDPOINTS_PER_LAN script_config;
  APP_PROFILES := APP_PROFILES script_config;
  USE_PEAK := USE_PEAK script_config
|}.

Definition seeded_config : Config := {|
  LOAD_MODE := "apps";
  TRAFFIC_MIN := TRAFFIC_MIN script_config;
  TRAFFIC_MAX := TRAFFIC_MAX script_config;
  FIXED_LOAD := FIXED_LOAD script_config;
  RANDOM_SEED := Some 42;
  DEFAULT_ROUTER_IF_BW := DEFAULT_ROUTER_IF_BW script_config;
  DEFAULT_ENDPOINT_LINK_BW := DEFAULT_ENDPOINT_LINK_BW script_config;
  ENDPOINTS_PER_LAN := ENDPOINTS_PER_LAN script_config;
  APP_PROFILES := APP_PROFILES script_config;
  USE_PEAK := USE_PEAK script_config
|}.

(** ** Config parser: one record per interface directive *)

(** A raw line is an interface directive when, once stripped, it starts
    with the word. *)
Definition is_interface_line (raw : string) : bool :=
  PyStr.startswith "interface" (PyStr.strip raw).

(** The name an interface directive gives to the record it opens. *)
Definition directive_name (raw : string) : string :=
  match PyStr.split_max1 (PyStr.strip raw) with
  | [_; n] => n
  | _ => "UNKNOWN"
  end.

(** What a line that is not an interface directive does to the open record. *)
Definition body_line (c : Interface) (raw : string) : Interface :=
  let line := PyStr.strip raw in
  if PyStr.startswith "ip address" line then
    match PyStr.split line with
    | _ :: _ :: a :: m :: _ => mkInterface (iface_name c) (Some a) (Some m) (iface_bandwidth c)
    | _ => c
    end
  else if PyStr.startswith "bandwidth" line then
    match PyStr.split line with
    | _ :: b :: _ =>
        match PyStr.int b with
        | Some v => mkInterface (iface_name c) (iface_ip c) (iface_mask c) (Some v)
        | None => c
        end
    | _ => c
    end
  else c.

(** The lines up to the next interface directive. *)
Fixpoint until_next_directive (raws : list string) : list string :=
  match raws with
  | [] => []
  | r :: rest => if is_interface_line r then [] else r :: until_next_directive rest
  end.

(** One record per interface directive, in the order of the directives:
    the record the directive opens, filled in by the lines that follow it up
    to the next directive. *)
Fixpoint interfaces_by_directive (raws : list string) : list Interface :=
  match raws with
  | [] => []
  | r :: rest =>
      if is_interface_line r then
        fold_left body_line (until_next_directive rest)
          (fresh_interface (directive_name r))
        :: interfaces_by_directive rest
      else interfaces_by_directive rest
  end.

(** A config with a directive that names no interface, and a bandwidth
    that is not a number. *)
Definition sample_unnamed : string :=
  "interface Serial0/1" +:+ NL +:+
  " bandwidth 64" +:+ NL +:+
  "interface" +:+ NL +:+
  " bandwidth fast" +:+ NL +:+
  "interface Serial0/0" +:+ NL +:+
  " ip address 10.1.1.1 255.255.255.252".

(** A config whose address line is not of the form [ip address A M]: the
    parser stores the third and fourth words as they are. *)
Definition sample_dhcp : string :=
  "hostname R1" +:+ NL +:+
  "interface FastEthernet0/0" +:+ NL +:+
  " ip address dhcp client-id FastEthernet0/0" +:+ NL.

(** ** Router-link matcher: the bandwidth of a link, the links of the pairs *)

(** The bandwidth of a link read as the first value that is not absent. *)
Definition first_non_absent (a b : option Z) (d : Z) : Z :=
  match a, b with
  | Some v, _ => v
  | None, Some w => w
  | None, None => d
  end.

(** The first value that is neither absent nor zero. *)
Definition first_truthy (a b : option Z) (d : Z) : Z :=
  if truthy_int a then default d a
  else if truthy_int b then default d b
  else d.

(** The link emitted for a matching pair of entries. *)
Definition pair_link (cfg : Config) (ea eb : entry) : link :=
  (ea.1.1, eb.1.1, link_bw cfg ea.1.2 eb.1.2).

(** [na == nb] on two entries. *)
Definition same_subnet (ea eb : entry) : bool := IPv4.eqb ea.2 eb.2.

(** The links of the pairs formed by the entry at one position and a later
    one, in the order the two loops visit them. *)
Fixpoint pairs_links (cfg : Config) (entries : list entry) : list link :=
  match entries with
  | [] => []
  | ea :: after =>
      (pair_link cfg ea <$> filter (fun eb => same_subnet ea eb = true) after)
      ++ pairs_links cfg after
  end.

(** Two configs whose interfaces share 10.0.0.0/30; the first stores a
    bandwidth of 0, the second a bandwidth of 5. *)
Definition zero_bw_R1 : string :=
  "hostname R1" +:+ NL +:+
  "interface Serial0/0" +:+ NL +:+
  " bandwidth 0" +:+ NL +:+
  " ip address 10.0.0.1 255.255.255.252" +:+ NL.

Definition zero_bw_R2 : string :=
  "hostname R2" +:+ NL +:+
  "interface Serial0/0" +:+ NL +:+
  " bandwidth 5" +:+ NL +:+
  " ip address 10.0.0.2 255.255.255.252" +:+ NL.

(** ** Access-LAN inferrer: the interfaces attached to a subnet *)

(** An interface that has both an address and a mask, with the position
    of its router in the input, the router's hostname, and its subnet. *)
Definition located_iface : Type := (nat * node * Interface * IPv4.Network)%type.

Definition loc_router (y : located_iface) : nat := y.1.1.1.
Definition loc_hostname (y : located_iface) : node := y.1.1.2.
Definition loc_iface (y : located_iface) : Interface := y.1.2.
(** [str(net)], the key the interface is grouped under. *)
Definition loc_key (y : located_iface) : string := IPv4.str y.2.

(** The interfaces with an address and a mask, router by router from
    position [i] on, in the order the two nested loops visit them. *)
Fixpoint addressed_from (i : nat) (routers : list Router)
  : list (nat * node * Interface) :=
  match routers with
  | [] => []
  | r :: rest =>
      ((fun iface => (i, hostname r, iface)) <$> List.filter has_addr (interfaces r))
      ++ addressed_from (S i) rest
  end.

(** The subnet of one addressed interface. *)
Definition locate (x : nat * node * Interface) : result located_iface :=
  let* net := iface_net x.2 in Ok (x, net).

(** Every addressed interface with its subnet; raises when one of the
    address/mask pairs is not a network. *)
Definition located (routers : list Router) : result (list located_iface) :=
  rmap locate (addressed_from 0 routers).

(** The element of [all_ifaces] that an addressed interface becomes. *)
Definition entry_of (y : located_iface) : entry :=
  (loc_hostname y, loc_iface y, y.2).

(** The interfaces attached to the subnet whose key is [s]. *)
Definition attached (s : string) (ys : list located_iface) : list located_iface :=
  filter (fun y => loc_key y = s) ys.

(** What the first loop does to [net_map] for one addressed interface. *)
Definition group_step (cfg : Config) (m : net_map) (y : located_iface) : net_map :=
  setdefault_append (loc_key y) (attach_of cfg (loc_hostname y) (loc_iface y)) m.

(** [net_map.get(k)] *)
Fixpoint assoc (k : string) (m : net_map) : option (list attach) :=
  match m with
  | [] => None
  | (k', l) :: m' => if String.eqb k' k then Some l else assoc k m'
  end.

(** A dict holds a key only with a non-empty list behind it. *)
Definition nonempty {A : Type} (l : list A) : option (list A) :=
  match l with
  | [] => None
  | _ :: _ => Some l
  end.

(** The triple stored in [net_map] for an addressed interface. *)
Definition loc_attach (cfg : Config) (y : located_iface) : attach :=
  attach_of cfg (loc_hostname y) (loc_iface y).

(** The endpoints hung under the switch named [sw]. *)
Definition lan_endpoints (cfg : Config) (sw : string) : list string :=
  endpoint_name sw <$> py_range 1 (ENDPOINTS_PER_LAN cfg + 1).

(** What one item of [net_map] contributes to [switches]. *)
Definition item_switches (item : string * list attach) : list Switch :=
  match item.2 with
  | [(rname, iname, _)] => [mkSwitch (switch_name rname iname) rname item.1]
  | _ => []
  end.

(** What one item of [net_map] contributes to [access_links]. *)
Definition item_links (cfg : Config) (item : string * list attach) : list link :=
  match item.2 with
  | [(rname, iname, rbw)] =>
      let sw := switch_name rname iname in
      (rname, Some sw, rbw)
      :: ((fun ep => (Some sw, Some ep, DEFAULT_ENDPOINT_LINK_BW cfg))
            <$> lan_endpoints cfg sw)
  | _ => []
  end.

(** One router with two interfaces on 192.168.1.0/24. *)
Definition twin_router : Router :=
  mkRouter (Some "R1")
    [ mkInterface "Fa0/0" (Some "192.168.1.1") (Some "255.255.255.0") None;
      mkInterface "Fa0/1" (Some "192.168.1.2") (Some "255.255.255.0") None ].

(** ** Layer assigner: link ends, core routers *)

(** Router [r] is an end of some link. *)
Definition touches (r : node) (router_links : list link) : bool :=
  existsb (fun l => bool_decide (l.1.1 = r) || bool_decide (l.1.2 = r)) router_links.

(** Four routers joined by three links of one bandwidth. *)
Definition star_links : list link :=
  [ (Some "R1", Some "R2", 10000); (Some "R3", Some "R1", 10000);
    (Some "R2", Some "R4", 10000) ].

(** The layers after the first loop of the unequal-bandwidth branch. *)
Definition core_layers (router_links : list link) : layer_map :=
  match router_links with
  | [] => ∅
  | (_, _, bw0) :: _ => core_pass (list_max bw0 (bws router_links)) router_links ∅
  end.

(** Some link joins [r] to a router that the first loop made core. *)
Definition linked_to_core (router_links : list link) (r : node) : bool :=
  existsb
    (fun l =>
       bool_decide (l.1.1 = r) && bool_decide (core_layers router_links !! l.1.2 = Some 0)
       || bool_decide (l.1.2 = r) && bool_decide (core_layers router_links !! l.1.1 = Some 0))
    router_links.

(** A chain A - B - C - D whose first link is the fastest. *)
Definition chain_links : list link :=
  [ (Some "A", Some "B", 100); (Some "B", Some "C", 10); (Some "C", Some "D", 10) ].

(** Four routers whose interfaces pair up into that chain. *)
Definition chain_routers : list Router :=
  [ mkRouter (Some "A")
      [ mkInterface "Fa0/0" (Some "10.0.0.1") (Some "255.255.255.252") (Some 100) ];
    mkRouter (Some "B")
      [ mkInterface "Fa0/0" (Some "10.0.0.2") (Some "255.255.255.252") None;
        mkInterface "Fa0/1" (Some "10.0.1.1") (Some "255.255.255.252") (Some 10) ];
    mkRouter (Some "C")
      [ mkInterface "Fa0/0" (Some "10.0.1.2") (Some "255.255.255.252") None;
        mkInterface "Fa0/1" (Some "10.0.2.1") (Some "255.255.255.252") (Some 10) ];
    mkRouter (Some "D")
      [ mkInterface "Fa0/0" (Some "10.0.2.2") (Some "255.255.255.252") None ] ].

(** ** Configurations with another load policy *)

(** A configuration with its load policy replaced. *)
Definition with_load_mode (mode : string) (cfg : Config) : Config := {|
  LOAD_MODE := mode;
  TRAFFIC_MIN := TRAFFIC_MIN cfg;
  TRAFFIC_MAX := TRAFFIC_MAX cfg;
  FIXED_LOAD := FIXED_LOAD cfg;
  RANDOM_SEED := RANDOM_SEED cfg;
  DEFAULT_ROUTER_IF_BW := DEFAULT_ROUTER_IF_BW cfg;
  DEFAULT_ENDPOINT_LINK_BW := DEFAULT_ENDPOINT_LINK_BW cfg;
  ENDPOINTS_PER_LAN := ENDPOINTS_PER_LAN cfg;
  APP_PROFILES := APP_PROFILES cfg;
  USE_PEAK := USE_PEAK cfg
|}.

(** The load a profile stands for under the peak/average toggle. *)
Definition profile_load (cfg : Config) (p : Profile) : Z :=
  if USE_PEAK cfg then peak p else avg p.

(** Two sample links, one to a router and one to a switch. *)
Definition sample_links : list link :=
  [(Some "R1", Some "R2", 10000); (Some "R1", Some "SW", 512)].

(** Router [r] is an end of some link of bandwidth [m]. *)
Definition on_link_of_bw (m : Z) (r : node) (router_links : list link) : bool :=
  existsb
    (fun l => (l.2 =? m) && (bool_decide (l.1.1 = r) || bool_decide (l.1.2 = r)))
    router_links.

(** The names the switch loop and the endpoint loop write. *)
Definition switch_nodes (switches : list Switch) : list node :=
  (fun sw => Some (sw_name sw)) <$> switches.

Definition endpoint_nodes (endpoints : list string) : list node :=
  Some <$> endpoints.

(** ** Config parser: the name a hostname line gives *)

(** The second word of a line that starts with the word hostname. *)
Definition hostname_word (raw : string) : option string :=
  let line := PyStr.strip raw in
  if PyStr.startswith "hostname" line then PyStr.split line !! 1%nat else None.

(** An interface record has both an address and a mask, both non-empty, or
    neither. *)
Definition address_and_mask_together (iface : Interface) : Prop :=
  (iface_ip iface = None /\ iface_mask iface = None /\ has_addr iface = false)
  \/ (exists a m, iface_ip iface = Some a /\ iface_mask iface = Some m
                  /\ has_addr iface = true).

(** ** Renderer: nodes, attributes *)

(** The names of the nodes of a graph. *)
Definition node_names (G : Graph) : list string := (g_node G).*1.

(** Every node of the table has its attributes. *)
Definition attrs_full (nodes : list (string * option NodeAttrs)) : Prop :=
  Forall (fun p => is_Some p.2) nodes.

(** The node that an item of the layer map becomes. *)
Definition node_of_item (item : node * Z) : option (string * option NodeAttrs) :=
  match item.1 with
  | Some s => Some (s, Some (mkNodeAttrs item.2 (ntype_of_layer item.2)))
  | None => None
  end.

(** The names of the items of layer [ly], in the order of the layer map. *)
Definition layer_row (ly : Z) (layer_map : list (node * Z)) : list string :=
  omap (fun item => if item.2 =? ly then item.1 else None) layer_map.

(** The names of the nodes of a table that have layer [ly]. *)
Definition names_in_layer (ly : Z) (nodes : list (string * option NodeAttrs))
  : list string :=
  omap (fun p => match p.2 with
                 | Some a => if na_layer a =? ly then Some p.1 else None
                 | None => None
                 end) nodes.

(** The positions of one row. *)
Definition row_positions (ly : Z) (row : list string) : list (string * (Z * Z)) :=
  imap (fun i n => (n, (Z.of_nat i, - ly))) row.

(** ** From the layer dict to the renderer *)

(** [items] lists the entries of the dict [m], each key once, in some
    order: what [layer_map.items()] yields. *)
Definition items_of (m : gmap node Z) (items : list (node * Z)) : Prop :=
  NoDup items.*1 /\ forall k v, (k, v) ∈ items <-> m !! k = Some v.

(** One router with one addressed interface, and no neighbour. *)
Definition lone_router : Router :=
  mkRouter (Some "R1")
    [ mkInterface "Fa0/1" (Some "192.168.1.1") (Some "255.255.255.0") None ].

(** ** Renderer: edges *)

(** The annotated link [x] joins the nodes [a] and [b], in either
    direction. *)
Definition joins (a b : string) (x : annotated) : Prop :=
  (an_link x).1.1 = Some a /\ (an_link x).1.2 = Some b
  \/ (an_link x).1.1 = Some b /\ (an_link x).1.2 = Some a.

(** ** Subnets: the two notions of the same subnet *)

(** The character [c] occurs in [s]. *)
Fixpoint has_char (c : ascii) (s : string) : bool :=
  match s with
  | EmptyString => false
  | String c' s' => Ascii.eqb c' c || has_char c s'
  end.

(** What [IPv4Network] returns for an address and a mask: an address below
    2^32 whose host bits are 0, with the netmask of its prefix length. *)
Definition masked_network (n : IPv4.Network) : Prop :=
  0 <= IPv4.prefixlen n <= 32
  /\ IPv4.netmask n = IPv4.ip_int_from_prefix (IPv4.prefixlen n)
  /\ 0 <= IPv4.network_address n < 2 ^ 32
  /\ Z.land (IPv4.network_address n) (IPv4.netmask n) = IPv4.network_address n.

(** The size and the colour that a layer number stands for. *)
Definition style_of_layer (layer : Z) : Z * string :=
  if layer =? 3 then (900, "#d9f99d")
  else if layer =? 2 then (1300, "#bde0fe")
  else (1600, "#8ecae6").

(** A router whose hostname is the name that the access switch of
    [example_R2]'s LAN interface gets; its one interface shares 10.0.0.0/30
    with [example_R2]. *)
Definition switch_named_router : Router :=
  mkRouter (Some "SW_R2_Fa0_1")
    [ mkInterface "Fa0/0" (Some "10.0.0.1") (Some "255.255.255.252") None ].

(** * Properties *)

(** ** The embedding on sample inputs *)

Example IPv4Network_host_bits :
  IPv4.str <$> (match IPv4.IPv4Network "192.168.1.7/255.255.255.0" with
                | Ok n => Some n | Raise _ => None end)
  = Some "192.168.1.0/24".
Proof. vm_compute. reflexivity. Qed.

Example IPv4Network_prefix_and_hostmask :
  IPv4.IPv4Network "10.0.0.2/30" = Ok (IPv4.mkNetwork 167772160 4294967292 30)
  /\ IPv4.IPv4Network "10.0.0.2/0.0.0.3" = IPv4.IPv4Network "10.0.0.2/30".
Proof. vm_compute. split; reflexivity. Qed.

Example IPv4Network_rejects :
  IPv4.IPv4Network "dhcp/client-id" = Raise AddressValueError
  /\ IPv4.IPv4Network "10.0.0.1/255.0.255.0" = Raise NetmaskValueError
  /\ IPv4.IPv4Network "10.0.0.256/24" = Raise AddressValueError
  /\ IPv4.IPv4Network "10.0.0.1/24/8" = Raise AddressValueError.
Proof. vm_compute. repeat split; reflexivity. Qed.

Example parse_config_sample_R1 :
  parse_config sample_R1 =
  mkRouter (Some "R1")
    [ mkInterface "FastEthernet0/0" (Some "10.0.0.1") (Some "255.255.255.252") None;
      mkInterface "FastEthernet0/1" (Some "192.168.1.1") (Some "255.255.255.0") (Some 512) ].
Proof. vm_compute. reflexivity. Qed.

Example example_router_links :
  find_router_links script_config [example_R1; example_R2]
  = Ok [(Some "R1", Some "R2", 10000)].
Proof. vm_compute. reflexivity. Qed.

Example example_access_lans :
  infer_access_lans script_config [example_R1; example_R2]
  = Ok ([ mkSwitch "SW_R1_Fa0_1" (Some "R1") "192.168.1.0/24";
          mkSwitch "SW_R2_Fa0_1" (Some "R2") "192.168.2.0/24" ],
        [ "PC_SW_R1_Fa0_1_1"; "PC_SW_R1_Fa0_1_2";
          "PC_SW_R2_Fa0_1_1"; "PC_SW_R2_Fa0_1_2" ],
        [ (Some "R1", Some "SW_R1_Fa0_1", 10000);
          (Some "SW_R1_Fa0_1", Some "PC_SW_R1_Fa0_1_1", 1000);
          (Some "SW_R1_Fa0_1", Some "PC_SW_R1_Fa0_1_2", 1000);
          (Some "R2", Some "SW_R2_Fa0_1", 10000);
          (Some "SW_R2_Fa0_1", Some "PC_SW_R2_Fa0_1_1", 1000);
          (Some "SW_R2_Fa0_1", Some "PC_SW_R2_Fa0_1_2", 1000) ]).
Proof. vm_compute. reflexivity. Qed.

(** ** Load annotator *)

Section LoadFacts.

Context `{RandomSource}.

(** The accumulator of the loop is a prefix of its result. *)
Lemma annotate_from_acc (cfg : Config) (is_access : bool) (links : list link) :
  forall acc st,
    annotate_from cfg is_access links acc st
    = let* (xs, st') := annotate_from cfg is_access links [] st in Ok (acc ++ xs, st').
Proof.
  induction links as [|l rest IH]; intros acc st; simpl.
  - by rewrite app_nil_r.
  - destruct (annotate_link cfg is_access l st) as [[x st1]|e]; simpl; [|done].
    rewrite (IH (acc ++ [x])), (IH [x]).
    destruct (annotate_from cfg is_access rest [] st1) as [[xs st2]|e]; simpl; [|done].
    by rewrite <- app_assoc.
Qed.

Lemma annotate_cons (cfg : Config) (is_access : bool) (l : link) (rest : list link)
    (st : rand_state) :
  annotate_links_with_load cfg (l :: rest) is_access st
  = let* (x, st1) := annotate_link cfg is_access l st in
    let* (xs, st2) := annotate_links_with_load cfg rest is_access st1 in
    Ok (x :: xs, st2).
Proof.
  unfold annotate_links_with_load. simpl.
  destruct (annotate_link cfg is_access l st) as [[x st1]|e]; simpl; [|done].
  by rewrite annotate_from_acc.
Qed.

(** [compute_load] never looks at its first argument. *)
Lemma compute_load_bw_irrelevant (cfg : Config) (bw1 bw2 : Z) (app : option string)
    (st : rand_state) :
  compute_load cfg bw1 app st = compute_load cfg bw2 app st.
Proof. reflexivity. Qed.

Lemma annotate_link_inv (cfg : Config) (is_access : bool) (l : link)
    (st st' : rand_state) (x : annotated) :
  annotate_link cfg is_access l st = Ok (x, st') ->
  an_link x = l
  /\ an_overloaded x = (0 <? an_bw x) && (an_bw x <? an_load x).
Proof.
  destruct l as [[a b] bw]. unfold annotate_link.
  destruct (String.eqb (LOAD_MODE cfg) "apps").
  - destruct (choices1 _ _ st) as [[app st1]|e]; simpl; [|done].
    destruct (compute_load cfg bw (Some app) st1) as [[load st2]|e]; simpl; [|done].
    intros [= <- <-]. done.
  - simpl.
    destruct (compute_load cfg bw None st) as [[load st2]|e]; simpl; [|done].
    intros [= <- <-]. done.
Qed.

Lemma annotate_links_inv (cfg : Config) (is_access : bool) (links : list link) :
  forall st out st',
    annotate_links_with_load cfg links is_access st = Ok (out, st') ->
    map an_link out = links
    /\ Forall (fun x => an_overloaded x = (0 <? an_bw x) && (an_bw x <? an_load x)) out.
Proof.
  induction links as [|l rest IH]; intros st out st'.
  - intros [= <- <-]. split; [done | constructor].
  - rewrite annotate_cons.
    destruct (annotate_link cfg is_access l st) as [[x st1]|e] eqn:Hx; simpl; [|done].
    destruct (annotate_links_with_load cfg rest is_access st1) as [[xs st2]|e] eqn:Hxs;
      simpl; [|done].
    intros [= <- <-].
    apply annotate_link_inv in Hx as [Hl Hov].
    apply IH in Hxs as [Hls Hovs].
    split; [simpl; congruence | by constructor].
Qed.

(** Under the fixed policy no random draw is made and nothing can fail. *)
Lemma annotate_fixed (cfg : Config) (is_access : bool) (links : list link)
    (st : rand_state) :
  LOAD_MODE cfg = "fixed" ->
  annotate_links_with_load cfg links is_access st
  = Ok (map (fun '(a, b, bw) =>
               (a, b, bw, FIXED_LOAD cfg, (0 <? bw) && (bw <? FIXED_LOAD cfg),
                @None string)) links, st).
Proof.
  intros Hmode. induction links as [|[[a b] bw] rest IH]; [done|].
  rewrite annotate_cons. unfold annotate_link, compute_load.
  rewrite Hmode. simpl. rewrite IH. reflexivity.
Qed.

(** The loads drawn for one link depend on the generator state only. *)
Lemma annotate_link_assignment (cfg : Config) (is_access : bool) (a b : node)
    (bw1 bw2 : Z) (st : rand_state) :
  (let* (x, st') := annotate_link cfg is_access (a, b, bw1) st in
   Ok (an_assignment x, st'))
  = (let* (x, st') := annotate_link cfg is_access (a, b, bw2) st in
     Ok (an_assignment x, st')).
Proof.
  unfold annotate_link.
  destruct (String.eqb (LOAD_MODE cfg) "apps").
  - destruct (choices1 _ _ st) as [[app st1]|e]; simpl; [|done].
    rewrite (compute_load_bw_irrelevant cfg bw1 bw2).
    by destruct (compute_load cfg bw2 (Some app) st1) as [[load st2]|e].
  - simpl. rewrite (compute_load_bw_irrelevant cfg bw1 bw2).
    by destruct (compute_load cfg bw2 None st) as [[load st2]|e].
Qed.

End LoadFacts.

(** C4. Every annotated link is flagged overloaded exactly when its bandwidth
    is strictly positive and its load strictly exceeds the bandwidth; a link
    of bandwidth 0 is never flagged, whatever its load. *)
Theorem annotate_overload_iff `{RandomSource} (cfg : Config) (links : list link)
    (is_access : bool) (st st' : rand_state) (out : list annotated) :
  annotate_links_with_load cfg links is_access st = Ok (out, st') ->
  forall a b bw load overloaded app,
    (a, b, bw, load, overloaded, app) ∈ out ->
    (overloaded = true <-> bw > 0 /\ load > bw)
    /\ (bw = 0 -> overloaded = false).
Proof.
  intros Hrun a b bw load overloaded app Hin.
  apply annotate_links_inv in Hrun as [_ Hall].
  rewrite Forall_forall in Hall. specialize (Hall _ Hin). simpl in Hall.
  subst overloaded. split.
  - rewrite andb_true_iff, Z.ltb_lt, Z.ltb_lt. lia.
  - intros ->. reflexivity.
Qed.

Lemma annotate_overload_iff_witness :
  annotate_links_with_load script_config
    [(Some "R1", Some "R2", 10000); (Some "R1", Some "SW", 512)] false (seed 42)
  = Ok ([ (Some "R1", Some "R2", 10000, 7000, false, Some "Cloud Backup");
          (Some "R1", Some "SW", 512, 2000, true, Some "Web Browsing") ],
        1116302264)
  /\ ((true = true <-> 512 > 0 /\ 2000 > 512) /\ (512 = 0 -> true = false)).
Proof.
  split; [vm_compute; reflexivity|].
  apply (@annotate_overload_iff lcg_source script_config
           [(Some "R1", Some "R2", 10000); (Some "R1", Some "SW", 512)] false
           (seed 42) 1116302264
           [ (Some "R1", Some "R2", 10000, 7000, false, Some "Cloud Backup");
             (Some "R1", Some "SW", 512, 2000, true, Some "Web Browsing") ]
           ltac:(vm_compute; reflexivity)
           (Some "R1") (Some "SW") 512 2000 true (Some "Web Browsing")).
  apply list_elem_of_further, list_elem_of_here.
Defined.

(** C6. Under the fixed policy every input link is annotated, and every
    annotated link carries the load [FIXED_LOAD] and no application label. *)
Theorem fixed_policy_load `{RandomSource} (cfg : Config) (links : list link)
    (is_access : bool) (st : rand_state) :
  LOAD_MODE cfg = "fixed" ->
  exists out,
    annotate_links_with_load cfg links is_access st = Ok (out, st)
    /\ map an_link out = links
    /\ Forall (fun x => an_load x = FIXED_LOAD cfg /\ an_app x = None) out.
Proof.
  intros Hmode. eexists. split; [by apply annotate_fixed|]. split.
  - induction links as [|[[a b] bw] rest IH]; simpl; [done | by rewrite IH].
  - apply Forall_forall. intros x Hx.
    apply list_elem_of_fmap in Hx as ([[a b] bw] & -> & _). done.
Qed.

Lemma fixed_policy_load_witness :
  LOAD_MODE fixed_config = "fixed"
  /\ exists out,
       annotate_links_with_load fixed_config
         [(Some "R1", Some "R2", 10000); (Some "R1", Some "SW", 512)] true (seed 7)
       = Ok (out, seed 7)
       /\ map an_link out = [(Some "R1", Some "R2", 10000); (Some "R1", Some "SW", 512)]
       /\ Forall (fun x => an_load x = FIXED_LOAD fixed_config /\ an_app x = None) out.
Proof.
  split; [reflexivity|].
  apply (fixed_policy_load fixed_config). reflexivity.
Defined.

(** C8. When a seed is configured, the loads, the overload flags and the
    application labels of every link are the same in any two runs over the
    same router links and access links, whatever state the generator was in
    when each run started. *)
Theorem seeded_runs_agree `{RandomSource} (cfg : Config) (s : Z)
    (ambient1 ambient2 : rand_state) (rtr_links access_links : list link) :
  RANDOM_SEED cfg = Some s ->
  main_annotate cfg ambient1 rtr_links access_links
  = main_annotate cfg ambient2 rtr_links access_links.
Proof. intros Hseed. unfold main_annotate. rewrite Hseed. reflexivity. Qed.

(** The seed is what makes the runs agree: without it the result follows the
    state the generator happens to start in. *)
Example unseeded_runs_differ :
  main_annotate script_config (1 : Z) [(Some "R1", Some "R2", 10000)] []
  <> main_annotate script_config (2 : Z) [(Some "R1", Some "R2", 10000)] [].
Proof. vm_compute. discriminate. Qed.

Lemma seeded_runs_agree_witness :
  RANDOM_SEED seeded_config = Some 42
  /\ main_annotate seeded_config (1 : Z)
       [(Some "R1", Some "R2", 10000)] [(Some "R1", Some "SW", 512)]
     = main_annotate seeded_config (2 : Z)
         [(Some "R1", Some "R2", 10000)] [(Some "R1", Some "SW", 512)].
Proof.
  split; [reflexivity|].
  apply (seeded_runs_agree seeded_config 42). reflexivity.
Defined.

(** C10. [compute_load] returns the same load and leaves the generator in
    the same state whatever bandwidth it is given, under every load policy;
    hence two link lists that differ only in their bandwidths, annotated
    from the same generator state, get the same loads and applications link
    by link (and fail together if the draw fails).  Only the recorded
    bandwidth and the overload flag can differ. *)
Theorem load_independent_of_bandwidth `{RandomSource} (cfg : Config)
    (is_access : bool) :
  (forall bw1 bw2 app st, compute_load cfg bw1 app st = compute_load cfg bw2 app st)
  /\ (forall links1 links2 st,
        map fst links1 = map fst links2 ->
        assignments (annotate_links_with_load cfg links1 is_access st)
        = assignments (annotate_links_with_load cfg links2 is_access st)).
Proof.
  split; [intros; apply compute_load_bw_irrelevant|].
  induction links1 as [|[[a b] bw1] rest1 IH]; intros [|[[a2 b2] bw2] rest2] st Heq;
    simpl in Heq; try done.
  injection Heq as -> -> Hrest.
  rewrite !annotate_cons.
  pose proof (annotate_link_assignment cfg is_access a2 b2 bw1 bw2 st) as Hl.
  destruct (annotate_link cfg is_access (a2, b2, bw1) st) as [[x1 s1]|e1],
           (annotate_link cfg is_access (a2, b2, bw2) st) as [[x2 s2]|e2];
    simpl in *; try congruence.
  injection Hl as Hx ->.
  specialize (IH rest2 s2 Hrest).
  destruct (annotate_links_with_load cfg rest1 is_access s2) as [[xs1 t1]|e1],
           (annotate_links_with_load cfg rest2 is_access s2) as [[xs2 t2]|e2];
    simpl in *; congruence.
Qed.

Lemma load_independent_of_bandwidth_witness :
  map fst [(Some "R1", Some "R2", 10000)] = map fst [(Some "R1", Some "R2", 512)]
  /\ assignments
       (annotate_links_with_load script_config [(Some "R1", Some "R2", 10000)] false (seed 3))
     = assignments
         (annotate_links_with_load script_config [(Some "R1", Some "R2", 512)] false (seed 3)).
Proof.
  split; [reflexivity|].
  apply (proj2 (load_independent_of_bandwidth script_config false)). reflexivity.
Defined.

Example bandwidth_changes_flag_only :
  annotate_links_with_load script_config [(Some "R1", Some "R2", 10000)] false (seed 42)
  = Ok ([(Some "R1", Some "R2", 10000, 7000, false, Some "Cloud Backup")], 1250496027)
  /\ annotate_links_with_load script_config [(Some "R1", Some "R2", 512)] false (seed 42)
     = Ok ([(Some "R1", Some "R2", 512, 7000, true, Some "Cloud Backup")], 1250496027).
Proof. vm_compute. split; reflexivity. Qed.

(** ** Config parser *)

Lemma startswith_head (a c : ascii) (p l : string) :
  PyStr.startswith (String a p) (String c l) = true -> c = a.
Proof.
  cbn [PyStr.startswith]. destruct (Ascii.eqb a c) eqn:E; [|done].
  apply Ascii.eqb_eq in E. done.
Qed.

Lemma startswith_interface (line : string) :
  PyStr.startswith "interface" line = true ->
  PyStr.is_empty line = false /\ PyStr.startswith "hostname" line = false.
Proof.
  destruct line as [|c l]; [done|].
  intros ->%startswith_head. split; reflexivity.
Qed.

Lemma startswith_hostname (line : string) :
  PyStr.startswith "hostname" line = true ->
  PyStr.startswith "ip address" line = false /\ PyStr.startswith "bandwidth" line = false.
Proof.
  destruct line as [|c l]; [done|].
  intros ->%startswith_head. split; reflexivity.
Qed.

Lemma startswith_ip_address (line : string) :
  PyStr.startswith "ip address" line = true ->
  PyStr.startswith "bandwidth" line = false.
Proof.
  destruct line as [|c l]; [done|].
  intros ->%startswith_head. reflexivity.
Qed.

(** An interface directive closes the open record and opens a new one. *)
Lemma parse_line_directive (st : ParseState) (raw : string) :
  is_interface_line raw = true ->
  ps_interfaces (parse_line st raw)
  = ps_interfaces st ++ option_list (ps_current st)
  /\ ps_current (parse_line st raw) = Some (fresh_interface (directive_name raw)).
Proof.
  unfold is_interface_line, parse_line, directive_name. intros Hd.
  destruct (startswith_interface _ Hd) as [-> ->]. rewrite Hd.
  assert (Hifs : match ps_current st with
                 | Some c => ps_interfaces st ++ [c]
                 | None => ps_interfaces st
                 end = ps_interfaces st ++ option_list (ps_current st)).
  { destruct (ps_current st); simpl; [done | by rewrite app_nil_r]. }
  rewrite Hifs.
  destruct (PyStr.split_max1 (PyStr.strip raw)) as [|t0 [|t1 [|t2 ts]]]; done.
Qed.

(** Any other line leaves the closed records alone and acts on the open one. *)
Lemma parse_line_body (st : ParseState) (raw : string) :
  is_interface_line raw = false ->
  ps_interfaces (parse_line st raw) = ps_interfaces st
  /\ ps_current (parse_line st raw) = (fun c => body_line c raw) <$> ps_current st.
Proof.
  unfold is_interface_line, parse_line, body_line. intros Hd. rewrite Hd.
  destruct (PyStr.is_empty (PyStr.strip raw)) eqn:Hempty.
  { destruct (PyStr.strip raw); [|done]. simpl. by destruct (ps_current st). }
  destruct (PyStr.startswith "hostname" (PyStr.strip raw)) eqn:Hh.
  { destruct (startswith_hostname _ Hh) as [-> ->].
    destruct (PyStr.split (PyStr.strip raw)) as [|t0 [|t1 ts]];
      simpl; by destruct (ps_current st). }
  destruct (PyStr.startswith "ip address" (PyStr.strip raw)) eqn:Hip.
  { rewrite (startswith_ip_address _ Hip).
    destruct (ps_current st) as [c|] eqn:Hc; [|cbn; by rewrite ?Hc].
    destruct (PyStr.split (PyStr.strip raw)) as [|t0 [|t1 [|t2 [|t3 ts]]]];
      cbn; by rewrite ?Hc. }
  destruct (PyStr.startswith "bandwidth" (PyStr.strip raw)) eqn:Hbw.
  { destruct (ps_current st) as [c|] eqn:Hc; [|cbn; by rewrite ?Hc].
    destruct (PyStr.split (PyStr.strip raw)) as [|t0 [|t1 ts]]; cbn; rewrite ?Hc; try done.
    destruct (PyStr.int t1); cbn; by rewrite ?Hc. }
  cbn. by destruct (ps_current st).
Qed.

(** The loop invariant: the records closed so far, then the open record
    once the lines up to the next directive have acted on it, then one
    record per later directive. *)
Lemma parse_fold (raws : list string) :
  forall st,
    interfaces (parse_finish (fold_left parse_line raws st))
    = ps_interfaces st
      ++ match ps_current st with
         | Some c =>
             fold_left body_line (until_next_directive raws) c
             :: interfaces_by_directive raws
         | None => interfaces_by_directive raws
         end.
Proof.
  induction raws as [|r rest IH]; intros st.
  - unfold parse_finish. cbn.
    destruct (ps_current st); [done | by rewrite app_nil_r].
  - cbn [fold_left until_next_directive interfaces_by_directive].
    rewrite IH. destruct (is_interface_line r) eqn:Hd.
    + destruct (parse_line_directive st r Hd) as [-> ->].
      destruct (ps_current st); cbn; [by rewrite <- app_assoc | by rewrite app_nil_r].
    + destruct (parse_line_body st r Hd) as [-> ->].
      by destruct (ps_current st).
Qed.

Lemma interfaces_by_directive_names (raws : list string) :
  map iface_name (interfaces_by_directive raws)
  = map directive_name (List.filter is_interface_line raws).
Proof.
  assert (Hname : forall ls c, iface_name (fold_left body_line ls c) = iface_name c).
  { induction ls as [|l ls IH]; intros c; [done|].
    cbn [fold_left]. rewrite IH. unfold body_line.
    repeat case_match; done. }
  induction raws as [|r rest IH]; [done|].
  cbn [interfaces_by_directive List.filter].
  destruct (is_interface_line r); [|done].
  cbn [map]. by rewrite IH, Hname.
Qed.

(** C7. Parsing preserves order: the interface records of the result are,
    one for one and in the same order, the records opened by the interface
    directive lines of the text, each filled in by the lines that follow its
    directive up to the next one; the record still open at the end of the
    input is the last one. *)
Theorem parse_config_order_preserving (text : string) :
  interfaces (parse_config text) = interfaces_by_directive (PyStr.lines text)
  /\ map iface_name (interfaces (parse_config text))
     = map directive_name (List.filter is_interface_line (PyStr.lines text))
  /\ length (interfaces (parse_config text))
     = length (List.filter is_interface_line (PyStr.lines text)).
Proof.
  assert (Hspec : interfaces (parse_config text)
                  = interfaces_by_directive (PyStr.lines text)).
  { unfold parse_config, parse_lines. by rewrite parse_fold. }
  split; [exact Hspec|]. rewrite Hspec. split.
  - apply interfaces_by_directive_names.
  - rewrite <- (length_map iface_name), interfaces_by_directive_names.
    by rewrite length_map.
Qed.

Example parse_config_sample_unnamed :
  interfaces (parse_config sample_unnamed)
  = [ mkInterface "Serial0/1" None None (Some 64);
      mkInterface "UNKNOWN" None None None;
      mkInterface "Serial0/0" (Some "10.1.1.1") (Some "255.255.255.252") None ].
Proof. vm_compute. reflexivity. Qed.

(** ** Malformed addresses reach the matching stage *)

(** C9. There is a config text that the parser accepts, storing an address
    and a mask on an interface, for which the address/mask string is not an
    IPv4 network; on the parsed router both [find_router_links] and
    [infer_access_lans] raise instead of skipping the interface. *)
Theorem malformed_address_raises (cfg : Config) :
  exists text iface,
    interfaces (parse_config text) = [iface]
    /\ is_Some (iface_ip iface) /\ is_Some (iface_mask iface)
    /\ has_addr iface = true
    /\ iface_net iface = Raise AddressValueError
    /\ find_router_links cfg [parse_config text] = Raise AddressValueError
    /\ infer_access_lans cfg [parse_config text] = Raise AddressValueError.
Proof.
  exists sample_dhcp,
    (mkInterface "FastEthernet0/0" (Some "dhcp") (Some "client-id") None).
  repeat split; try (vm_compute; reflexivity); eexists; reflexivity.
Qed.

(** A well-formed address with a mask that mixes ones and zeroes fails in
    the same way, with the other exception. *)
Example bad_mask_raises :
  let r := mkRouter (Some "R1")
             [mkInterface "Fa0/0" (Some "10.0.0.1") (Some "255.0.255.0") (Some 100)] in
  find_router_links script_config [r] = Raise NetmaskValueError
  /\ infer_access_lans script_config [r] = Raise NetmaskValueError.
Proof. vm_compute. split; reflexivity. Qed.

(** ** Router-link matcher *)

Lemma link_bw_first_truthy (cfg : Config) (ia ib : Interface) :
  link_bw cfg ia ib
  = first_truthy (iface_bandwidth ia) (iface_bandwidth ib) (DEFAULT_ROUTER_IF_BW cfg).
Proof.
  unfold link_bw, first_truthy, py_or, or_default, truthy_int.
  destruct (iface_bandwidth ia) as [v|], (iface_bandwidth ib) as [w|]; simpl;
    try destruct (v =? 0) eqn:Hv; try destruct (w =? 0) eqn:Hw; simpl;
    rewrite ?Hv, ?Hw; done.
Qed.

(** Away from a stored zero the two readings agree. *)
Lemma first_truthy_non_absent (a b : option Z) (d : Z) :
  a <> Some 0 -> b <> Some 0 -> first_truthy a b d = first_non_absent a b d.
Proof.
  unfold first_truthy, first_non_absent, truthy_int. intros Ha Hb.
  destruct a as [v|], b as [w|]; simpl;
    try destruct (v =? 0) eqn:Hv; try destruct (w =? 0) eqn:Hw; simpl; try done;
    try (apply Z.eqb_eq in Hv; congruence); try (apply Z.eqb_eq in Hw; congruence).
Qed.

Lemma match_after_spec (cfg : Config) (ea : entry) (after : list entry) :
  forall links,
    match_after cfg ea after links
    = links ++ (pair_link cfg ea <$> filter (fun eb => same_subnet ea eb = true) after).
Proof.
  destruct ea as [[ra ia] na].
  induction after as [|[[rb ib] nb] after IH]; intros links.
  - cbn. by rewrite app_nil_r.
  - cbn [match_after].
    change (IPv4.eqb na nb) with (same_subnet (ra, ia, na) (rb, ib, nb)).
    destruct (same_subnet (ra, ia, na) (rb, ib, nb)) eqn:E.
    + rewrite filter_cons_True by done. rewrite IH, <- app_assoc. done.
    + rewrite filter_cons_False by congruence. apply IH.
Qed.

Lemma match_pairs_spec (cfg : Config) (entries : list entry) :
  forall links, match_pairs cfg entries links = links ++ pairs_links cfg entries.
Proof.
  induction entries as [|ea after IH]; intros links; cbn.
  - by rewrite app_nil_r.
  - by rewrite IH, match_after_spec, <- app_assoc.
Qed.

Lemma elem_of_pairs_links (cfg : Config) (entries : list entry) (l : link) :
  l ∈ pairs_links cfg entries <->
  exists (i j : nat) (ea eb : entry),
    (i < j)%nat /\ entries !! i = Some ea /\ entries !! j = Some eb
    /\ same_subnet ea eb = true /\ l = pair_link cfg ea eb.
Proof.
  induction entries as [|e0 after IH]; cbn [pairs_links].
  - split; [by intros ?%elem_of_nil | by intros (i & j & ea & eb & _ & ? & _)].
  - rewrite elem_of_app, list_elem_of_fmap, IH. split.
    + intros [(eb & -> & [Hs (k & Hk)%list_elem_of_lookup]%list_elem_of_filter)
             |(i & j & ea & eb & Hij & Hi & Hj & Hs & ->)].
      * exists O, (S k), e0, eb. repeat split; [lia | done..].
      * exists (S i), (S j), ea, eb. repeat split; [lia | done..].
    + intros (i & j & ea & eb & Hij & Hi & Hj & Hs & ->).
      destruct j as [|j]; [lia|]. destruct i as [|i]; cbn in Hi, Hj.
      * injection Hi as ->. left. exists eb. split; [done|].
        apply list_elem_of_filter. split; [done|]. by eapply list_elem_of_lookup_2.
      * right. exists i, j, ea, eb. repeat split; [lia | done..].
Qed.

Lemma rmap_app {A B : Type} (f : A -> result B) (xs ys : list A) :
  rmap f (xs ++ ys)
  = let* a := rmap f xs in let* b := rmap f ys in Ok (a ++ b).
Proof.
  induction xs as [|x xs IH]; cbn.
  - by destruct (rmap f ys).
  - destruct (f x); cbn; [|done]. rewrite IH.
    destruct (rmap f xs); cbn; [|done]. by destruct (rmap f ys).
Qed.

Lemma collect_ifaces_spec (i : nat) (h : node) (ifaces : list Interface) :
  forall acc,
    collect_ifaces h ifaces acc
    = let* ys := rmap locate ((fun iface => (i, h, iface)) <$> List.filter has_addr ifaces) in
      Ok (acc ++ (entry_of <$> ys)).
Proof.
  induction ifaces as [|iface rest IH]; intros acc; cbn.
  - by rewrite app_nil_r.
  - destruct (has_addr iface); cbn; [|apply IH].
    unfold locate at 1. cbn.
    destruct (iface_net iface) as [net|e]; cbn; [|done].
    rewrite IH.
    destruct (rmap locate _); cbn; [|done]. by rewrite <- app_assoc.
Qed.

Lemma collect_routers_spec (routers : list Router) :
  forall i acc,
    collect_routers routers acc
    = let* ys := rmap locate (addressed_from i routers) in
      Ok (acc ++ (entry_of <$> ys)).
Proof.
  induction routers as [|r rest IH]; intros i acc.
  - cbn. by rewrite app_nil_r.
  - cbn [collect_routers addressed_from].
    rewrite rmap_app, (collect_ifaces_spec i).
    destruct (rmap locate (_ <$> _)) as [ys|e]; cbn; [|done].
    rewrite (IH (S i)).
    destruct (rmap locate (addressed_from (S i) rest)) as [zs|e]; cbn; [|done].
    by rewrite fmap_app, app_assoc.
Qed.

(** The helper list holds, in order, every interface that has an address
    and a mask, with its router's name and its subnet. *)
Lemma all_ifaces_located (routers : list Router) :
  all_ifaces routers = let* ys := located routers in Ok (entry_of <$> ys).
Proof. unfold all_ifaces. by rewrite (collect_routers_spec routers 0). Qed.

(** C2 (amended). For every pair of entries of [all_ifaces] at positions
    [i < j] with equal subnets, a link between their routers is emitted
    whose bandwidth is the first value, among interface A's bandwidth,
    interface B's bandwidth and [DEFAULT_ROUTER_IF_BW], that is neither
    absent nor zero (the default when there is none); when neither stored
    bandwidth is 0 this is the first non-absent value.  Every emitted link
    is the link of such a pair. *)
Theorem router_link_bandwidth (cfg : Config) (routers : list Router) (links : list link) :
  find_router_links cfg routers = Ok links ->
  exists entries,
    all_ifaces routers = Ok entries
    /\ (forall (i j : nat) ra ia na rb ib nb,
          (i < j)%nat ->
          entries !! i = Some (ra, ia, na) ->
          entries !! j = Some (rb, ib, nb) ->
          IPv4.eqb na nb = true ->
          (ra, rb, first_truthy (iface_bandwidth ia) (iface_bandwidth ib)
                     (DEFAULT_ROUTER_IF_BW cfg)) ∈ links
          /\ (iface_bandwidth ia <> Some 0 -> iface_bandwidth ib <> Some 0 ->
              (ra, rb, first_non_absent (iface_bandwidth ia) (iface_bandwidth ib)
                         (DEFAULT_ROUTER_IF_BW cfg)) ∈ links))
    /\ (forall l, l ∈ links ->
          exists (i j : nat) ra ia na rb ib nb,
            (i < j)%nat
            /\ entries !! i = Some (ra, ia, na)
            /\ entries !! j = Some (rb, ib, nb)
            /\ IPv4.eqb na nb = true
            /\ l = (ra, rb, first_truthy (iface_bandwidth ia) (iface_bandwidth ib)
                              (DEFAULT_ROUTER_IF_BW cfg))).
Proof.
  unfold find_router_links.
  destruct (all_ifaces routers) as [entries|e]; [|done]. cbn.
  intros [= <-]. exists entries. split; [done|].
  rewrite match_pairs_spec. cbn [app]. split.
  - intros i j ra ia na rb ib nb Hij Hi Hj Hs.
    assert (Hin : (ra, rb, first_truthy (iface_bandwidth ia) (iface_bandwidth ib)
                                 (DEFAULT_ROUTER_IF_BW cfg)) ∈ pairs_links cfg entries).
    { apply elem_of_pairs_links.
      exists i, j, (ra, ia, na), (rb, ib, nb). repeat split; try done.
      unfold pair_link. cbn. by rewrite link_bw_first_truthy. }
    split; [done|]. intros Ha Hb. by rewrite <- first_truthy_non_absent.
  - intros l (i & j & [[ra ia] na] & [[rb ib] nb] & Hij & Hi & Hj & Hs & ->)%elem_of_pairs_links.
    exists i, j, ra, ia, na, rb, ib, nb. repeat split; try done.
    unfold pair_link. cbn. by rewrite link_bw_first_truthy.
Qed.

Lemma router_link_bandwidth_witness :
  find_router_links script_config [example_R1; example_R2]
  = Ok [(Some "R1", Some "R2", 10000)]
  /\ exists entries,
       all_ifaces [example_R1; example_R2] = Ok entries
       /\ (forall (i j : nat) ra ia na rb ib nb,
             (i < j)%nat ->
             entries !! i = Some (ra, ia, na) ->
             entries !! j = Some (rb, ib, nb) ->
             IPv4.eqb na nb = true ->
             (ra, rb, first_truthy (iface_bandwidth ia) (iface_bandwidth ib)
                        (DEFAULT_ROUTER_IF_BW script_config))
               ∈ [(Some "R1", Some "R2", 10000)]
             /\ (iface_bandwidth ia <> Some 0 -> iface_bandwidth ib <> Some 0 ->
                 (ra, rb, first_non_absent (iface_bandwidth ia) (iface_bandwidth ib)
                            (DEFAULT_ROUTER_IF_BW script_config))
                   ∈ [(Some "R1", Some "R2", 10000)]))
       /\ (forall l, l ∈ [(Some "R1", Some "R2", 10000)] ->
             exists (i j : nat) ra ia na rb ib nb,
               (i < j)%nat
               /\ entries !! i = Some (ra, ia, na)
               /\ entries !! j = Some (rb, ib, nb)
               /\ IPv4.eqb na nb = true
               /\ l = (ra, rb, first_truthy (iface_bandwidth ia) (iface_bandwidth ib)
                                 (DEFAULT_ROUTER_IF_BW script_config))).
Proof.
  split; [vm_compute; reflexivity|].
  apply (router_link_bandwidth script_config [example_R1; example_R2]).
  vm_compute. reflexivity.
Defined.

(** C2 as stated fails on a stored 0: interface A's bandwidth is present
    (it is 0), so the first non-absent value is 0, but the one link emitted
    for the pair carries interface B's bandwidth. *)
Lemma stored_zero_bandwidth_is_skipped :
  let routers := [parse_config zero_bw_R1; parse_config zero_bw_R2] in
  exists ra ia na rb ib nb,
    all_ifaces routers = Ok [(ra, ia, na); (rb, ib, nb)]
    /\ IPv4.eqb na nb = true
    /\ iface_bandwidth ia = Some 0
    /\ iface_bandwidth ib = Some 5
    /\ first_non_absent (iface_bandwidth ia) (iface_bandwidth ib)
         (DEFAULT_ROUTER_IF_BW script_config) = 0
    /\ find_router_links script_config routers = Ok [(ra, rb, 5)]
    /\ (ra, rb, first_non_absent (iface_bandwidth ia) (iface_bandwidth ib)
                  (DEFAULT_ROUTER_IF_BW script_config)) ∉ [(ra, rb, 5)].
Proof.
  cbn zeta. do 6 eexists.
  split; [vm_compute; reflexivity|].
  repeat split; try (vm_compute; reflexivity).
  cbn. intros Hin%list_elem_of_singleton. discriminate Hin.
Qed.

(** ** Access-LAN inferrer *)

Lemma group_ifaces_spec (cfg : Config) (i : nat) (h : node) (ifaces : list Interface) :
  forall m,
    group_ifaces cfg h ifaces m
    = let* ys := rmap locate ((fun iface => (i, h, iface)) <$> List.filter has_addr ifaces) in
      Ok (fold_left (group_step cfg) ys m).
Proof.
  induction ifaces as [|iface rest IH]; intros m; cbn; [done|].
  destruct (has_addr iface); cbn; [|apply IH].
  unfold locate at 1. cbn.
  destruct (iface_net iface) as [net|e]; cbn; [|done].
  rewrite IH.
  by destruct (rmap locate _).
Qed.

Lemma group_routers_spec (cfg : Config) (routers : list Router) :
  forall i m,
    group_routers cfg routers m
    = let* ys := rmap locate (addressed_from i routers) in
      Ok (fold_left (group_step cfg) ys m).
Proof.
  induction routers as [|r rest IH]; intros i m; [done|].
  cbn [group_routers addressed_from].
  rewrite rmap_app, (group_ifaces_spec cfg i).
  destruct (rmap locate (_ <$> _)) as [ys|e]; cbn; [|done].
  rewrite (IH (S i)).
  destruct (rmap locate (addressed_from (S i) rest)) as [zs|e]; cbn; [|done].
  by rewrite fold_left_app.
Qed.

Lemma assoc_setdefault_append (k key : string) (x : attach) (m : net_map) :
  assoc k (setdefault_append key x m)
  = if String.eqb key k then Some (default [] (assoc key m) ++ [x]) else assoc k m.
Proof.
  induction m as [|[k' l] m IH]; cbn.
  - by destruct (String.eqb key k).
  - destruct (String.eqb_spec k' key) as [->|Hne]; cbn.
    + by destruct (String.eqb key k).
    + rewrite IH. destruct (String.eqb_spec key k) as [->|Hne']; [|done].
      by rewrite (proj2 (String.eqb_neq k' k)).
Qed.

Lemma elem_of_keys_setdefault_append (k key : string) (x : attach) (m : net_map) :
  k ∈ (setdefault_append key x m).*1 <-> k = key \/ k ∈ m.*1.
Proof.
  induction m as [|[k' l] m IH]; cbn.
  - rewrite list_elem_of_singleton, elem_of_nil. tauto.
  - destruct (String.eqb_spec k' key) as [->|Hne]; cbn.
    + rewrite elem_of_cons. tauto.
    + rewrite !elem_of_cons, IH. tauto.
Qed.

Lemma NoDup_keys_setdefault_append (key : string) (x : attach) (m : net_map) :
  NoDup m.*1 -> NoDup (setdefault_append key x m).*1.
Proof.
  induction m as [|[k' l] m IH]; cbn.
  - intros _. apply NoDup_singleton.
  - intros [Hk Hm]%NoDup_cons.
    destruct (String.eqb_spec k' key) as [->|Hne]; cbn.
    + by apply NoDup_cons.
    + apply NoDup_cons. split; [|by apply IH].
      rewrite elem_of_keys_setdefault_append. tauto.
Qed.

Lemma assoc_None (k : string) (m : net_map) : k ∉ m.*1 -> assoc k m = None.
Proof.
  induction m as [|[k' l] m IH]; cbn; [done|].
  intros [Hne Hk]%not_elem_of_cons.
  rewrite (proj2 (String.eqb_neq k' k)) by done. by apply IH.
Qed.

(** After the first loop, [net_map] holds under each key the interfaces
    attached to that subnet, in order, and holds each key once. *)
Lemma group_fold_spec (cfg : Config) (ys : list located_iface) :
  NoDup (fold_left (group_step cfg) ys []).*1
  /\ forall k, assoc k (fold_left (group_step cfg) ys [])
               = nonempty (loc_attach cfg <$> attached k ys).
Proof.
  induction ys as [|y ys [IHnd IH]] using rev_ind.
  - split; [apply NoDup_nil_2 | done].
  - rewrite fold_left_app. cbn [fold_left]. unfold group_step at 1 3. split.
    + by apply NoDup_keys_setdefault_append.
    + intros k. rewrite assoc_setdefault_append, !IH. unfold attached.
      rewrite filter_app, fmap_app.
      destruct (String.eqb_spec (loc_key y) k) as [<-|Hne].
      * rewrite (filter_cons_True _ y []) by done. cbn.
        fold (loc_attach cfg y).
        by destruct (loc_attach cfg <$> filter (fun y0 => loc_key y0 = loc_key y) ys).
      * rewrite (filter_cons_False _ y []) by done. cbn. by rewrite app_nil_r.
Qed.

Lemma length_lan_endpoints (cfg : Config) (sw : string) :
  length (lan_endpoints cfg sw) = Z.to_nat (ENDPOINTS_PER_LAN cfg).
Proof.
  unfold lan_endpoints, py_range. rewrite length_fmap, length_map, length_seq.
  f_equal. lia.
Qed.

Lemma add_endpoints_spec (cfg : Config) (sw : string) (eps : list string)
    (als : list link) :
  add_endpoints cfg sw eps als
  = (eps ++ lan_endpoints cfg sw,
     als ++ ((fun ep => (Some sw, Some ep, DEFAULT_ENDPOINT_LINK_BW cfg))
               <$> lan_endpoints cfg sw)).
Proof.
  unfold add_endpoints, lan_endpoints.
  generalize (py_range 1 (ENDPOINTS_PER_LAN cfg + 1)). intros idxs.
  revert eps als. induction idxs as [|idx idxs IH]; intros eps als; cbn.
  - by rewrite !app_nil_r.
  - rewrite IH. by rewrite <- !app_assoc.
Qed.

Lemma lan_step_spec (cfg : Config) (sws : list Switch) (eps : list string)
    (als : list link) (item : string * list attach) :
  lan_step cfg (sws, eps, als) item
  = (sws ++ item_switches item,
     eps ++ flat_map (fun sw => lan_endpoints cfg (sw_name sw)) (item_switches item),
     als ++ item_links cfg item).
Proof.
  destruct item as [net_str attaches]. unfold lan_step, item_switches, item_links.
  cbn [fst snd].
  destruct attaches as [|[[rname iname] rbw] [|a2 attaches]]; cbn;
    rewrite ?app_nil_r; try done.
  rewrite add_endpoints_spec. by rewrite <- app_assoc.
Qed.

Lemma lan_fold_spec (cfg : Config) (m : net_map) :
  forall sws eps als,
    fold_left (lan_step cfg) m (sws, eps, als)
    = (sws ++ flat_map item_switches m,
       eps ++ flat_map (fun sw => lan_endpoints cfg (sw_name sw))
                (flat_map item_switches m),
       als ++ flat_map (item_links cfg) m).
Proof.
  induction m as [|item m IH]; intros sws eps als; cbn [fold_left flat_map].
  - by rewrite !app_nil_r.
  - rewrite lan_step_spec, IH, flat_map_app. by rewrite <- !app_assoc.
Qed.

Lemma item_switches_lan_net (item : string * list attach) (sw : Switch) :
  sw ∈ item_switches item -> sw_lan_net sw = item.1.
Proof.
  unfold item_switches.
  destruct item.2 as [|[[rname iname] rbw] [|a2 attaches]];
    [by intros ?%elem_of_nil | | by intros ?%elem_of_nil].
  by intros ->%list_elem_of_singleton.
Qed.

Lemma filter_item_switches (s : string) (item : string * list attach) :
  filter (fun sw => sw_lan_net sw = s) (item_switches item)
  = if decide (item.1 = s) then item_switches item else [].
Proof.
  pose proof (item_switches_lan_net item) as Hnet.
  induction (item_switches item) as [|sw sws IH]; [by case_decide|].
  assert (Hsw : sw_lan_net sw = item.1) by (apply Hnet; left).
  assert (IH' := IH (fun sw' Hin => Hnet sw' (list_elem_of_further _ _ _ Hin))).
  case_decide as Hk.
  - rewrite filter_cons_True by congruence. by rewrite IH'.
  - rewrite filter_cons_False by congruence. by rewrite IH'.
Qed.

(** With each key held once, the switches of a subnet come from the one
    item of [net_map] stored under its key. *)
Lemma switches_of_subnet (s : string) (m : net_map) :
  NoDup m.*1 ->
  filter (fun sw => sw_lan_net sw = s) (flat_map item_switches m)
  = match assoc s m with
    | Some l => item_switches (s, l)
    | None => []
    end.
Proof.
  induction m as [|[k l] m IH]; [done|].
  intros [Hk Hm]%NoDup_cons. cbn [flat_map assoc].
  rewrite filter_app, filter_item_switches, (IH Hm). cbn [fst].
  destruct (String.eqb_spec k s) as [->|Hne].
  - rewrite decide_True by done. rewrite (assoc_None s m Hk). by rewrite app_nil_r.
  - by rewrite decide_False by done.
Qed.

(** C1 (amended). When [infer_access_lans] returns: a subnet with exactly
    one attached interface gets exactly one switch, named after that
    interface and its router; a subnet whose number of attached interfaces
    is not one gets no switch, in particular a subnet attached to
    interfaces of two distinct routers; and every switch has exactly
    [ENDPOINTS_PER_LAN] endpoints under it: the endpoint list is the
    concatenation, switch by switch, of the endpoints of each switch, and
    each of them is linked to its switch. *)
Theorem access_lan_per_single_interface (cfg : Config) (routers : list Router)
    (switches : list Switch) (endpoints : list string) (access_links : list link) :
  infer_access_lans cfg routers = Ok (switches, endpoints, access_links) ->
  exists ys,
    located routers = Ok ys
    /\ (forall s y,
          attached s ys = [y] ->
          filter (fun sw => sw_lan_net sw = s) switches
          = [mkSwitch (switch_name (loc_hostname y) (iface_name (loc_iface y)))
               (loc_hostname y) s])
    /\ (forall s,
          length (attached s ys) <> 1%nat ->
          forall sw, sw ∈ switches -> sw_lan_net sw <> s)
    /\ (forall s y1 y2,
          y1 ∈ attached s ys -> y2 ∈ attached s ys ->
          loc_router y1 <> loc_router y2 ->
          forall sw, sw ∈ switches -> sw_lan_net sw <> s)
    /\ endpoints = flat_map (fun sw => lan_endpoints cfg (sw_name sw)) switches
    /\ (forall sw,
          sw ∈ switches ->
          length (lan_endpoints cfg (sw_name sw)) = Z.to_nat (ENDPOINTS_PER_LAN cfg)
          /\ forall ep,
               ep ∈ lan_endpoints cfg (sw_name sw) ->
               (Some (sw_name sw), Some ep, DEFAULT_ENDPOINT_LINK_BW cfg) ∈ access_links).
Proof.
  unfold infer_access_lans. rewrite (group_routers_spec cfg routers 0).
  fold (located routers).
  destruct (located routers) as [ys|e]; [|done]. cbn.
  rewrite lan_fold_spec. cbn [app]. intros [= <- <- <-].
  destruct (group_fold_spec cfg ys) as [Hnd Hassoc].
  set (m := fold_left (group_step cfg) ys []) in *.
  assert (Hnone : forall s, length (attached s ys) <> 1%nat ->
            forall sw, sw ∈ flat_map item_switches m -> sw_lan_net sw <> s).
  { intros s Hlen sw Hsw Hs.
    assert (Hin : sw ∈ filter (fun sw => sw_lan_net sw = s) (flat_map item_switches m))
      by (by apply list_elem_of_filter).
    rewrite (switches_of_subnet s m Hnd), Hassoc in Hin.
    destruct (attached s ys) as [|y1 [|y2 zs]]; cbn in Hin.
    - by apply elem_of_nil in Hin.
    - by apply Hlen.
    - by apply elem_of_nil in Hin. }
  exists ys. split; [done|]. split; [|split; [|split; [|split]]].
  - intros s y Hy.
    rewrite (switches_of_subnet s m Hnd), Hassoc, Hy. reflexivity.
  - exact Hnone.
  - intros s y1 y2 Hy1 Hy2 Hne. apply Hnone.
    destruct (attached s ys) as [|z [|z' zs]]; cbn; [done | | done].
    apply list_elem_of_singleton in Hy1, Hy2. congruence.
  - reflexivity.
  - intros sw Hsw. split; [apply length_lan_endpoints|].
    intros ep Hep.
    apply list_elem_of_In, in_flat_map in Hsw as (item & Hitem & Hsw).
    apply list_elem_of_In, in_flat_map. exists item. split; [done|].
    apply list_elem_of_In. apply list_elem_of_In in Hsw.
    unfold item_switches in Hsw. unfold item_links.
    destruct item.2 as [|[[rname iname] rbw] [|a2 attaches]];
      [by apply elem_of_nil in Hsw | | by apply elem_of_nil in Hsw].
    apply list_elem_of_singleton in Hsw as ->. cbn in *.
    right. apply list_elem_of_fmap. by exists ep.
Qed.

Lemma access_lan_per_single_interface_witness :
  infer_access_lans script_config [example_R1; example_R2]
  = Ok ([ mkSwitch "SW_R1_Fa0_1" (Some "R1") "192.168.1.0/24";
          mkSwitch "SW_R2_Fa0_1" (Some "R2") "192.168.2.0/24" ],
        [ "PC_SW_R1_Fa0_1_1"; "PC_SW_R1_Fa0_1_2";
          "PC_SW_R2_Fa0_1_1"; "PC_SW_R2_Fa0_1_2" ],
        [ (Some "R1", Some "SW_R1_Fa0_1", 10000);
          (Some "SW_R1_Fa0_1", Some "PC_SW_R1_Fa0_1_1", 1000);
          (Some "SW_R1_Fa0_1", Some "PC_SW_R1_Fa0_1_2", 1000);
          (Some "R2", Some "SW_R2_Fa0_1", 10000);
          (Some "SW_R2_Fa0_1", Some "PC_SW_R2_Fa0_1_1", 1000);
          (Some "SW_R2_Fa0_1", Some "PC_SW_R2_Fa0_1_2", 1000) ])
  /\ exists ys,
       located [example_R1; example_R2] = Ok ys
       /\ forall s,
            length (attached s ys) <> 1%nat ->
            forall sw,
              sw ∈ [ mkSwitch "SW_R1_Fa0_1" (Some "R1") "192.168.1.0/24";
                     mkSwitch "SW_R2_Fa0_1" (Some "R2") "192.168.2.0/24" ] ->
              sw_lan_net sw <> s.
Proof.
  split; [vm_compute; reflexivity|].
  destruct (access_lan_per_single_interface script_config [example_R1; example_R2]
              _ _ _ ltac:(vm_compute; reflexivity))
    as (ys & Hloc & _ & Hnone & _).
  exists ys. split; [exact Hloc | exact Hnone].
Defined.

(** C1 as stated fails when the one router has two interfaces on the
    subnet: every interface attached to 192.168.1.0/24 belongs to the
    router at position 0, and the result has no switch at all. *)
Lemma one_router_two_interfaces_no_switch :
  exists ys,
    located [twin_router] = Ok ys
    /\ attached "192.168.1.0/24" ys = ys
    /\ length ys = 2%nat
    /\ Forall (fun y => loc_router y = 0%nat) ys
    /\ infer_access_lans script_config [twin_router] = Ok ([], [], []).
Proof.
  eexists. split; [vm_compute; reflexivity|].
  repeat split; try (vm_compute; reflexivity).
  repeat constructor.
Qed.

(** ** Layer assigner *)

Lemma lookup_setdefault (k k' : node) (v : Z) (layer : layer_map) :
  setdefault k v layer !! k'
  = match layer !! k' with
    | Some x => Some x
    | None => if decide (k = k') then Some v else None
    end.
Proof.
  unfold setdefault. destruct (layer !! k) eqn:E.
  - destruct (layer !! k') eqn:E'; [done|]. case_decide; [subst; congruence | done].
  - rewrite lookup_insert. case_decide; subst.
    + by rewrite E.
    + by destruct (layer !! k').
Qed.

(** The equal-bandwidth loop gives layer 1 to every end of a link other
    than the core, unless it already has a layer. *)
Lemma lookup_equal_pass (core : node) (router_links : list link) :
  forall (layer : layer_map) (r : node),
    equal_pass core router_links layer !! r
    = match layer !! r with
      | Some x => Some x
      | None =>
          if bool_decide (r <> core) && touches r router_links then Some 1 else None
      end.
Proof.
  induction router_links as [|[[a b] bw] rest IH]; intros layer r.
  - cbn. rewrite andb_false_r. by destruct (layer !! r).
  - unfold equal_pass in *. cbn [fold_left]. rewrite IH. clear IH.
    change (touches r ((a, b, bw) :: rest))
      with (bool_decide (a = r) || bool_decide (b = r) || touches r rest).
    destruct (touches r rest); rewrite ?orb_true_r, ?orb_false_r, ?andb_true_r;
      repeat case_bool_decide; rewrite ?lookup_setdefault;
      destruct (layer !! r) eqn:E; repeat case_decide; subst; cbn;
      try done; try congruence.
Qed.

Lemma list_max_const (x : Z) (l : list Z) :
  (forall y, y ∈ l -> y = x) -> list_max x l = x.
Proof.
  unfold list_max. induction l as [|y l IH]; intros Hall; cbn; [done|].
  rewrite (Hall y) by left. rewrite Z.max_id. apply IH.
  intros z Hz. apply Hall. by right.
Qed.

Lemma list_min_const (x : Z) (l : list Z) :
  (forall y, y ∈ l -> y = x) -> list_min x l = x.
Proof.
  unfold list_min. induction l as [|y l IH]; intros Hall; cbn; [done|].
  rewrite (Hall y) by left. rewrite Z.min_id. apply IH.
  intros z Hz. apply Hall. by right.
Qed.

(** The switch and endpoint loops only write the names they are given. *)
Lemma lookup_fold_insert {A : Type} (f : A -> node) (v : Z) (xs : list A) :
  forall (layer : layer_map) (r : node),
    r ∉ f <$> xs ->
    fold_left (fun layer x => <[f x := v]> layer) xs layer !! r = layer !! r.
Proof.
  induction xs as [|x xs IH]; intros layer r Hr; cbn; [done|].
  cbn in Hr. apply not_elem_of_cons in Hr as [Hne Hr].
  rewrite IH by done. by rewrite lookup_insert_ne.
Qed.

Lemma lookup_fold_insert_elem {A : Type} (f : A -> node) (v : Z) (xs : list A) :
  forall (layer : layer_map) (r : node),
    r ∈ f <$> xs ->
    fold_left (fun layer x => <[f x := v]> layer) xs layer !! r = Some v.
Proof.
  induction xs as [|x xs IH]; intros layer r Hr; [by apply elem_of_nil in Hr|].
  cbn in Hr. cbn [fold_left].
  destruct (decide (r ∈ f <$> xs)) as [Hin|Hnin]; [by apply IH|].
  apply elem_of_cons in Hr as [->|Hr]; [|done].
  rewrite lookup_fold_insert by done. apply lookup_insert_eq.
Qed.

Lemma auto_assign_layers_routers (router_links : list link) (switches : list Switch)
    (endpoints : list string) (r : node) :
  r ∉ (fun sw => Some (sw_name sw)) <$> switches ->
  r ∉ Some <$> endpoints ->
  auto_assign_layers router_links switches endpoints !! r
  = router_layers router_links !! r.
Proof.
  intros Hsw Hep. unfold auto_assign_layers.
  rewrite (lookup_fold_insert Some 3) by done.
  by rewrite (lookup_fold_insert (fun sw => Some (sw_name sw)) 2).
Qed.

(** C5. When the link list is not empty and all bandwidths are equal, the
    returned layer map assigns layer 0 to the first router of the first
    link and layer 1 to every other router that is an end of some link,
    for every such router whose name is not also the name of a switch or
    of an endpoint. *)
Theorem equal_bandwidth_layers (router_links : list link) (core b0 : node) (bw0 : Z)
    (rest : list link) (switches : list Switch) (endpoints : list string) :
  router_links = (core, b0, bw0) :: rest ->
  (forall x y, x ∈ bws router_links -> y ∈ bws router_links -> x = y) ->
  (core ∉ switch_nodes switches -> core ∉ endpoint_nodes endpoints ->
   auto_assign_layers router_links switches endpoints !! core = Some 0)
  /\ (forall r,
        touches r router_links = true -> r <> core ->
        r ∉ switch_nodes switches -> r ∉ endpoint_nodes endpoints ->
        auto_assign_layers router_links switches endpoints !! r = Some 1).
Proof.
  intros -> Heq.
  assert (Hall : forall y, y ∈ bws ((core, b0, bw0) :: rest) -> y = bw0).
  { intros y Hy. apply Heq; [done | left]. }
  assert (Hblock : router_layers ((core, b0, bw0) :: rest)
                   = equal_pass core ((core, b0, bw0) :: rest) (<[core := 0]> ∅)).
  { unfold router_layers.
    by rewrite (list_max_const _ _ Hall), (list_min_const _ _ Hall), Z.eqb_refl. }
  unfold switch_nodes, endpoint_nodes. split.
  - intros Hsw Hep. rewrite auto_assign_layers_routers by done.
    by rewrite Hblock, lookup_equal_pass, lookup_insert_eq.
  - intros r Hr Hne Hsw Hep. rewrite auto_assign_layers_routers by done.
    rewrite Hblock, lookup_equal_pass, lookup_insert_ne by done.
    rewrite lookup_empty, Hr. by rewrite bool_decide_true.
Qed.

Lemma equal_bandwidth_layers_witness :
  (forall x y, x ∈ bws star_links -> y ∈ bws star_links -> x = y)
  /\ auto_assign_layers star_links
       [mkSwitch "SW_R4_Fa0_1" (Some "R4") "192.168.4.0/24"]
       ["PC_SW_R4_Fa0_1_1"] !! Some "R1" = Some 0.
Proof.
  assert (Heq : forall x y, x ∈ bws star_links -> y ∈ bws star_links -> x = y).
  { intros x y Hx Hy. cbn in Hx, Hy.
    repeat (apply elem_of_cons in Hx as [->|Hx]); [| | |by apply elem_of_nil in Hx];
      repeat (apply elem_of_cons in Hy as [->|Hy]);
      try reflexivity; by apply elem_of_nil in Hy. }
  split; [exact Heq|].
  apply (proj1 (equal_bandwidth_layers star_links (Some "R1") (Some "R2") 10000
                  [(Some "R3", Some "R1", 10000); (Some "R2", Some "R4", 10000)]
                  [mkSwitch "SW_R4_Fa0_1" (Some "R4") "192.168.4.0/24"]
                  ["PC_SW_R4_Fa0_1_1"] eq_refl Heq)).
  - cbn. intros Hin%list_elem_of_singleton. discriminate Hin.
  - cbn. intros Hin%list_elem_of_singleton. discriminate Hin.
Defined.

(** C5 as stated fails when the first router of the first link has the name
    of a switch: the two routers share 10.0.0.0/30, so the one router link
    (all bandwidths trivially equal) starts at the router named
    SW_R2_Fa0_1; the LAN of R2 gets a switch of that very name; the router
    block gives the name layer 0, the switch loop overwrites it, and the
    returned map holds layer 2 for the first router of the first link. *)
Lemma router_named_like_switch_gets_layer_2 :
  exists router_links switches endpoints access_links,
    find_router_links script_config [switch_named_router; example_R2] = Ok router_links
    /\ infer_access_lans script_config [switch_named_router; example_R2]
       = Ok (switches, endpoints, access_links)
    /\ router_links = [(Some "SW_R2_Fa0_1", Some "R2", 10000)]
    /\ (forall x y, x ∈ bws router_links -> y ∈ bws router_links -> x = y)
    /\ router_layers router_links !! Some "SW_R2_Fa0_1" = Some 0
    /\ Some "SW_R2_Fa0_1" ∈ switch_nodes switches
    /\ auto_assign_layers router_links switches endpoints !! Some "SW_R2_Fa0_1"
       = Some 2.
Proof.
  do 4 eexists.
  split; [vm_compute; reflexivity|].
  split; [vm_compute; reflexivity|].
  split; [reflexivity|].
  split.
  { intros x y Hx%list_elem_of_singleton Hy%list_elem_of_singleton. congruence. }
  split; [vm_compute; reflexivity|].
  split; [cbn; left | vm_compute; reflexivity].
Qed.

Example star_layers :
  let layer := auto_assign_layers star_links
                 [mkSwitch "SW_R4_Fa0_1" (Some "R4") "192.168.4.0/24"]
                 ["PC_SW_R4_Fa0_1_1"] in
  layer !! Some "R1" = Some 0 /\ layer !! Some "R2" = Some 1
  /\ layer !! Some "R3" = Some 1 /\ layer !! Some "R4" = Some 1
  /\ layer !! Some "SW_R4_Fa0_1" = Some 2
  /\ layer !! Some "PC_SW_R4_Fa0_1_1" = Some 3
  /\ layer !! Some "R5" = None.
Proof. vm_compute. repeat split; reflexivity. Qed.

(** The two-router example end to end: R1 core, R2 distribution, the two
    switches access, the four endpoints below. *)
Example end_to_end_layers :
  match find_router_links script_config [example_R1; example_R2],
        infer_access_lans script_config [example_R1; example_R2] with
  | Ok rtr_links, Ok (switches, endpoints, _) =>
      let layer := auto_assign_layers rtr_links switches endpoints in
      layer !! Some "R1" = Some 0 /\ layer !! Some "R2" = Some 1
      /\ layer !! Some "SW_R1_Fa0_1" = Some 2 /\ layer !! Some "SW_R2_Fa0_1" = Some 2
      /\ Forall (fun ep => layer !! Some ep = Some 3) endpoints
      /\ length endpoints = 4%nat
  | _, _ => False
  end.
Proof. vm_compute. repeat split; repeat constructor. Qed.

(** ** The distribution pass, beyond the core *)

(** C3, at the chain: the bandwidths are not all equal, the first loop makes
    A and B core and leaves C and D unassigned, no link joins D to a core
    router, and yet D ends in layer 1: the second loop tests whether the
    other end has any layer, and by the time it reaches the link C - D it
    has itself given C layer 1. *)
Theorem dist_pass_reaches_beyond_core :
  list_max 100 (bws chain_links) <> list_min 100 (bws chain_links)
  /\ core_layers chain_links !! Some "A" = Some 0
  /\ core_layers chain_links !! Some "B" = Some 0
  /\ core_layers chain_links !! Some "C" = None
  /\ core_layers chain_links !! Some "D" = None
  /\ linked_to_core chain_links (Some "C") = true
  /\ linked_to_core chain_links (Some "D") = false
  /\ auto_assign_layers chain_links [] [] !! Some "C" = Some 1
  /\ auto_assign_layers chain_links [] [] !! Some "D" = Some 1.
Proof. vm_compute. repeat split; try reflexivity. discriminate. Qed.

(** The chain is what the matcher returns for [chain_routers]. *)
Example chain_links_from_routers :
  find_router_links script_config chain_routers = Ok chain_links.
Proof. vm_compute. reflexivity. Qed.

(** The same links in the opposite order put D in layer 2. *)
Example chain_reversed_layers :
  auto_assign_layers (rev chain_links) [] [] !! Some "D" = Some 2
  /\ auto_assign_layers (rev chain_links) [] [] !! Some "C" = Some 1.
Proof. vm_compute. split; reflexivity. Qed.

(** What does hold in the unequal-bandwidth branch. *)

Lemma lookup_dist_step (layer : layer_map) (a b : node) (bw : Z) (r : node) :
  dist_step layer (a, b, bw) !! r
  = match layer !! r with
    | Some x => Some x
    | None =>
        if bool_decide (r = a) && in_layer b layer
           || bool_decide (r = b) && in_layer a layer
        then Some 1 else None
    end.
Proof.
  unfold dist_step, in_layer.
  destruct (layer !! a) as [xa|] eqn:Ha, (layer !! b) as [xb|] eqn:Hb; cbn;
    rewrite ?Ha, ?Hb; cbn; rewrite ?andb_true_r, ?andb_false_r, ?orb_false_r.
  - destruct (layer !! r) eqn:Hr; [done|].
    rewrite !bool_decide_false by congruence. done.
  - rewrite lookup_insert. case_decide as Hbr.
    + subst r. rewrite Hb. by rewrite bool_decide_true.
    + rewrite bool_decide_false by done. by destruct (layer !! r).
  - assert (a <> b) by congruence.
    rewrite lookup_insert_ne, Hb by done. cbn.
    rewrite lookup_insert. case_decide as Har.
    + subst r. rewrite Ha. by rewrite bool_decide_true.
    + rewrite bool_decide_false by done. by destruct (layer !! r).
  - by destruct (layer !! r).
Qed.

Lemma lookup_dist_pass_Some (router_links : list link) :
  forall (layer : layer_map) (r : node) (v : Z),
    layer !! r = Some v -> dist_pass router_links layer !! r = Some v.
Proof.
  unfold dist_pass.
  induction router_links as [|[[a b] bw] rest IH]; intros layer r v Hr; [done|].
  cbn [fold_left]. apply IH. by rewrite lookup_dist_step, Hr.
Qed.



Lemma lookup_straggler_pass (router_links : list link) :
  forall (layer : layer_map) (r : node),
    straggler_pass router_links layer !! r
    = match layer !! r with
      | Some x => Some x
      | None => if touches r router_links then Some 2 else None
      end.
Proof.
  induction router_links as [|[[a b] bw] rest IH]; intros layer r.
  - cbn. by destruct (layer !! r).
  - unfold straggler_pass in *. cbn [fold_left]. rewrite IH. clear IH.
    change (touches r ((a, b, bw) :: rest))
      with (bool_decide (a = r) || bool_decide (b = r) || touches r rest).
    rewrite !lookup_setdefault.
    destruct (touches r rest); rewrite ?orb_true_r, ?orb_false_r;
      destruct (layer !! r) eqn:E; repeat case_decide; subst; cbn;
      rewrite ?bool_decide_true, ?bool_decide_false by done; cbn;
      rewrite ?orb_true_r; try done; try congruence.
Qed.


(** ** The script's own configuration never fails to annotate *)

Lemma profile_of_key (profiles : list (string * Profile)) (i : nat) (k : string) :
  profiles.*1 !! i = Some k -> exists p, profile_of k profiles = Ok p.
Proof.
  revert i. induction profiles as [|[k' p'] rest IH]; intros i Hi; [done|].
  cbn [profile_of]. destruct (String.eqb_spec k' k) as [->|Hne]; [by eexists|].
  destruct i as [|i]; cbn in Hi; [congruence|]. by apply (IH i).
Qed.

(** Under the application policy with five profiles (as many as the
    weights of the script), every draw lands on a profile, so annotation
    returns for every list of links and every generator. *)
Lemma annotate_apps_returns `{RandomSource} (cfg : Config) (links : list link)
    (is_access : bool) :
  LOAD_MODE cfg = "apps" ->
  length (APP_PROFILES cfg) = 5%nat ->
  forall st, exists out st',
    annotate_links_with_load cfg links is_access st = Ok (out, st').
Proof.
  intros Hmode Hfive.
  induction links as [|[[a b] bw] rest IH]; intros st; [by eexists _, _|].
  rewrite annotate_cons.
  assert (exists x st1, annotate_link cfg is_access (a, b, bw) st = Ok (x, st1))
    as (x & st1 & ->).
  { unfold annotate_link, compute_load. rewrite Hmode.
    change (String.eqb "apps" "apps") with true.
    change (String.eqb "apps" "fixed") with false.
    change (String.eqb "apps" "random") with false. cbv iota.
    set (weights := if is_access then [4; 2; 4; 2; 1] else [2; 4; 1; 4; 3]).
    assert (Hlen : length weights = 5%nat) by (by destruct is_access).
    assert (Hsum : (foldr Z.add 0 weights <=? 0) = false) by (by destruct is_access).
    unfold choices1. rewrite Hlen, Hsum, length_map, Hfive. cbn [Nat.eqb negb].
    pose proof (weighted_index_range weights st) as Hrange.
    destruct (weighted_index weights st) as [i st1]. cbn [fst] in Hrange.
    assert (Hi : (i < 5)%nat).
    { rewrite <- Hlen. apply Hrange. by destruct is_access. }
    destruct (map fst (APP_PROFILES cfg) !! i) as [k|] eqn:Hk.
    - cbn [rbind]. destruct (profile_of_key (APP_PROFILES cfg) i k Hk) as [p ->].
      cbn. by eexists _, _.
    - apply lookup_ge_None in Hk. rewrite length_map in Hk. lia. }
  cbn. destruct (IH st1) as (out & st' & ->). cbn. by eexists _, _.
Qed.

Example annotate_script_config_returns `{RandomSource} (links : list link)
    (is_access : bool) (st : rand_state) :
  exists out st',
    annotate_links_with_load script_config links is_access st = Ok (out, st').
Proof. by apply annotate_apps_returns. Qed.

(** * Further properties *)

(** ** Load annotator: what each policy assigns *)

Section PolicyFacts.

Context `{RandomSource}.

(** A property of every single annotation holds of every annotated link. *)
Lemma annotate_Forall (cfg : Config) (is_access : bool) (P : annotated -> Prop) :
  (forall l st x st', annotate_link cfg is_access l st = Ok (x, st') -> P x) ->
  forall links st out st',
    annotate_links_with_load cfg links is_access st = Ok (out, st') ->
    Forall P out.
Proof.
  intros Hone. induction links as [|l rest IH]; intros st out st'.
  - intros [= <- <-]. constructor.
  - rewrite annotate_cons.
    destruct (annotate_link cfg is_access l st) as [[x st1]|e] eqn:Hx; cbn; [|done].
    destruct (annotate_links_with_load cfg rest is_access st1) as [[xs st2]|e] eqn:Hxs;
      cbn; [|done].
    intros [= <- <-]. constructor; [by eapply Hone | by eapply IH].
Qed.

(** One failing annotation makes the whole list fail, when it comes first. *)
Lemma annotate_first_raises (cfg : Config) (is_access : bool) (l : link)
    (rest : list link) (st : rand_state) (e : exn) :
  annotate_link cfg is_access l st = Raise e ->
  annotate_links_with_load cfg (l :: rest) is_access st = Raise e.
Proof. intros Hl. by rewrite annotate_cons, Hl. Qed.

(** Annotation returns as soon as every single annotation does. *)
Lemma annotate_returns (cfg : Config) (is_access : bool) :
  (forall l st, exists x st', annotate_link cfg is_access l st = Ok (x, st')) ->
  forall links st, exists out st',
    annotate_links_with_load cfg links is_access st = Ok (out, st').
Proof.
  intros Hone. induction links as [|l rest IH]; intros st; [by eexists _, _|].
  rewrite annotate_cons. destruct (Hone l st) as (x & st1 & ->). cbn.
  destruct (IH st1) as (out & st' & ->). cbn. by eexists _, _.
Qed.

Lemma profile_of_Ok (profiles : list (string * Profile)) (k : string) (p : Profile) :
  profile_of k profiles = Ok p -> (k, p) ∈ profiles.
Proof.
  induction profiles as [|[k' p'] rest IH]; cbn; [done|].
  destruct (String.eqb_spec k' k) as [->|Hne].
  - intros [= ->]. left.
  - intros Hp. right. by apply IH.
Qed.

Lemma randint_range (a b : Z) (st st' : rand_state) (v : Z) :
  randint a b st = Ok (v, st') -> a <= v <= b.
Proof.
  unfold randint. destruct (0 <? b + 1 - a) eqn:Hw; [|done].
  apply Z.ltb_lt in Hw. pose proof (randbelow_range (b + 1 - a) st Hw) as Hr.
  destruct (randbelow (b + 1 - a) st) as [r st1]. cbn in Hr.
  intros [= <- <-]. lia.
Qed.

Lemma compute_load_random (cfg : Config) (bw : Z) (app : option string)
    (st : rand_state) :
  LOAD_MODE cfg = "random" ->
  compute_load cfg bw app st = randint (TRAFFIC_MIN cfg) (TRAFFIC_MAX cfg) st.
Proof. intros Hmode. unfold compute_load. by rewrite Hmode. Qed.

Lemma annotate_link_random (cfg : Config) (is_access : bool) (a b : node) (bw : Z)
    (st : rand_state) :
  LOAD_MODE cfg = "random" ->
  annotate_link cfg is_access (a, b, bw) st
  = let* (load, st') := randint (TRAFFIC_MIN cfg) (TRAFFIC_MAX cfg) st in
    Ok ((a, b, bw, load, (0 <? bw) && (bw <? load), @None string), st').
Proof.
  intros Hmode. unfold annotate_link. rewrite Hmode.
  change (String.eqb "random" "apps") with false. cbn [rbind].
  by rewrite compute_load_random.
Qed.

End PolicyFacts.

(** X1. The annotated list is the input list, link by link and in the same
    order, each link keeping its two ends and its bandwidth. *)
Theorem annotate_preserves_links `{RandomSource} (cfg : Config) (links : list link)
    (is_access : bool) (st st' : rand_state) (out : list annotated) :
  annotate_links_with_load cfg links is_access st = Ok (out, st') ->
  map an_link out = links /\ length out = length links.
Proof.
  intros Hrun. apply annotate_links_inv in Hrun as [Hlinks _].
  split; [exact Hlinks|]. by rewrite <- Hlinks, length_map.
Qed.

Lemma annotate_preserves_links_witness :
  map an_link
    [ (Some "R1", Some "R2", 10000, 7000, false, Some "Cloud Backup");
      (Some "R1", Some "SW", 512, 2000, true, Some "Web Browsing") ]
  = sample_links
  /\ length
       [ (Some "R1", Some "R2", 10000, 7000, false, Some "Cloud Backup");
         (Some "R1", Some "SW", 512, 2000, true, Some "Web Browsing") ]
     = length sample_links.
Proof.
  apply (@annotate_preserves_links lcg_source script_config sample_links false
           (seed 42) 1116302264).
  vm_compute. reflexivity.
Defined.

(** X2. Annotating a concatenation is annotating the first list and then the
    second from the generator state the first leaves; a failure in the first
    list is the failure of the whole. *)
Theorem annotate_app `{RandomSource} (cfg : Config) (is_access : bool)
    (links1 links2 : list link) (st : rand_state) :
  annotate_links_with_load cfg (links1 ++ links2) is_access st
  = let* (out1, st1) := annotate_links_with_load cfg links1 is_access st in
    let* (out2, st2) := annotate_links_with_load cfg links2 is_access st1 in
    Ok (out1 ++ out2, st2).
Proof.
  revert st. induction links1 as [|l rest IH]; intros st.
  - cbn [app]. change (annotate_links_with_load cfg [] is_access st) with
      (@Ok (list annotated * rand_state) ([], st)). cbn.
    by destruct (annotate_links_with_load cfg links2 is_access st) as [[out2 st2]|e].
  - cbn [app]. rewrite !annotate_cons.
    destruct (annotate_link cfg is_access l st) as [[x st1]|e]; cbn; [|done].
    rewrite IH.
    destruct (annotate_links_with_load cfg rest is_access st1) as [[out1 st2]|e];
      cbn; [|done].
    by destruct (annotate_links_with_load cfg links2 is_access st2) as [[out2 st3]|e].
Qed.

(** X3. Under the random policy: when [TRAFFIC_MIN <= TRAFFIC_MAX] annotation
    returns, every load lies between the two bounds and no link has an
    application label; when [TRAFFIC_MAX < TRAFFIC_MIN] annotating a
    non-empty list raises [ValueError]. *)
Theorem random_policy_loads `{RandomSource} (cfg : Config) (links : list link)
    (is_access : bool) (st : rand_state) :
  LOAD_MODE cfg = "random" ->
  (TRAFFIC_MIN cfg <= TRAFFIC_MAX cfg ->
   exists out st',
     annotate_links_with_load cfg links is_access st = Ok (out, st')
     /\ Forall (fun x => TRAFFIC_MIN cfg <= an_load x <= TRAFFIC_MAX cfg
                         /\ an_app x = None) out)
  /\ (TRAFFIC_MAX cfg < TRAFFIC_MIN cfg -> links <> [] ->
      annotate_links_with_load cfg links is_access st = Raise ValueError).
Proof.
  intros Hmode. split.
  - intros Hle.
    destruct (annotate_returns cfg is_access) with (links := links) (st := st)
      as (out & st' & Hrun).
    { intros [[a b] bw] st0. rewrite annotate_link_random by done.
      unfold randint. rewrite (proj2 (Z.ltb_lt _ _)) by lia.
      destruct (randbelow _ st0) as [r st1]. cbn. by eexists _, _. }
    exists out, st'. split; [exact Hrun|].
    apply (annotate_Forall cfg is_access _) with (links := links) (st := st) (st' := st');
      [|exact Hrun].
    intros [[a b] bw] st0 x st1. rewrite annotate_link_random by done.
    destruct (randint _ _ st0) as [[load st2]|e] eqn:Hload; cbn; [|done].
    intros [= <- <-]. cbn. split; [by eapply randint_range | done].
  - intros Hlt Hne. destruct links as [|[[a b] bw] rest]; [done|].
    apply annotate_first_raises. rewrite annotate_link_random by done.
    unfold randint. by rewrite (proj2 (Z.ltb_ge _ _)) by lia.
Qed.

Lemma random_policy_loads_witness :
  LOAD_MODE (with_load_mode "random" script_config) = "random"
  /\ exists out st',
       annotate_links_with_load (with_load_mode "random" script_config)
         sample_links false (seed 42) = Ok (out, st')
       /\ Forall (fun x => 2000 <= an_load x <= 15000 /\ an_app x = None) out.
Proof.
  split; [reflexivity|].
  apply (proj1 (@random_policy_loads lcg_source (with_load_mode "random" script_config)
                  sample_links false (seed 42) eq_refl)).
  vm_compute. discriminate.
Defined.

Section AppFacts.

Context `{RandomSource}.

Lemma choices1_elem (population : list string) (weights : list Z)
    (st st' : rand_state) (x : string) :
  choices1 population weights st = Ok (x, st') -> x ∈ population.
Proof.
  unfold choices1. destruct (negb _); [done|]. destruct (_ <=? 0); [done|].
  destruct (weighted_index weights st) as [i st1].
  destruct (population !! i) as [y|] eqn:Hy; [|done].
  intros [= <- <-]. by eapply list_elem_of_lookup_2.
Qed.

Lemma choice_elem (seq : list string) (st st' : rand_state) (x : string) :
  choice seq st = Ok (x, st') -> x ∈ seq.
Proof.
  unfold choice. destruct seq as [|y ys]; [done|].
  destruct (randbelow _ st) as [r st1].
  destruct ((y :: ys) !! Z.to_nat r) as [z|] eqn:Hz; [|done].
  intros [= <- <-]. by eapply list_elem_of_lookup_2.
Qed.

(** [random.choice] on a non-empty list returns. *)
Lemma choice_returns (seq : list string) (st : rand_state) :
  seq <> [] -> exists x st', choice seq st = Ok (x, st').
Proof.
  intros Hne. unfold choice. destruct seq as [|y ys]; [done|].
  assert (Hpos : 0 < Z.of_nat (length (y :: ys))) by (cbn; lia).
  pose proof (randbelow_range _ st Hpos) as Hr.
  destruct (randbelow _ st) as [r st1]. cbn [fst] in Hr.
  destruct ((y :: ys) !! Z.to_nat r) as [z|] eqn:Hz; [by eexists _, _|].
  apply lookup_ge_None in Hz. lia.
Qed.

(** In the application-aware branch of [compute_load] the load is the load
    of a profile of the table. *)
Lemma compute_load_profile (cfg : Config) (bw : Z) (app : option string)
    (st st' : rand_state) (load : Z) :
  String.eqb (LOAD_MODE cfg) "fixed" = false ->
  String.eqb (LOAD_MODE cfg) "random" = false ->
  compute_load cfg bw app st = Ok (load, st') ->
  exists k p,
    (k, p) ∈ APP_PROFILES cfg /\ load = profile_load cfg p
    /\ (forall a, app = Some a -> k = a).
Proof.
  intros Hf Hr. unfold compute_load. rewrite Hf, Hr.
  destruct app as [a|].
  - cbn [rbind]. destruct (profile_of a (APP_PROFILES cfg)) as [p|e] eqn:Hp; [|done].
    cbn. intros [= <- <-]. exists a, p.
    split; [by apply profile_of_Ok|]. split; [done|]. by intros ? [= ->].
  - destruct (choice _ st) as [[k st1]|e] eqn:Hk; [|done]. cbn [rbind].
    destruct (profile_of k (APP_PROFILES cfg)) as [p|e] eqn:Hp; [|done].
    cbn. intros [= <- <-]. exists k, p.
    split; [by apply profile_of_Ok|]. split; [done|]. by intros.
Qed.

End AppFacts.

(** X4. Under the application policy every annotated link carries the name
    of a profile of [APP_PROFILES], and its load is that profile's peak or
    average value, as [USE_PEAK] says. *)
Theorem apps_policy_loads `{RandomSource} (cfg : Config) (links : list link)
    (is_access : bool) (st st' : rand_state) (out : list annotated) :
  LOAD_MODE cfg = "apps" ->
  annotate_links_with_load cfg links is_access st = Ok (out, st') ->
  Forall (fun x => exists k p,
            an_app x = Some k /\ (k, p) ∈ APP_PROFILES cfg
            /\ an_load x = profile_load cfg p) out.
Proof.
  intros Hmode Hrun.
  apply (annotate_Forall cfg is_access _) with (links := links) (st := st) (st' := st');
    [|exact Hrun].
  intros [[a b] bw] st0 x st1. unfold annotate_link. rewrite Hmode.
  change (String.eqb "apps" "apps") with true. cbv iota.
  destruct (choices1 _ _ st0) as [[app st2]|e]; cbn [rbind]; [|done].
  destruct (compute_load cfg bw (Some app) st2) as [[load st3]|e] eqn:Hload;
    cbn [rbind]; [|done].
  intros [= <- <-]. cbn.
  apply compute_load_profile in Hload as (k & p & Hin & -> & Hk);
    try (by rewrite Hmode).
  rewrite (Hk app eq_refl) in Hin. by exists app, p.
Qed.

Lemma apps_policy_loads_witness :
  LOAD_MODE script_config = "apps"
  /\ Forall (fun x => exists k p,
               an_app x = Some k /\ (k, p) ∈ APP_PROFILES script_config
               /\ an_load x = profile_load script_config p)
       [ (Some "R1", Some "R2", 10000, 7000, false, Some "Cloud Backup");
         (Some "R1", Some "SW", 512, 2000, true, Some "Web Browsing") ].
Proof.
  split; [reflexivity|].
  apply (@apps_policy_loads lcg_source script_config sample_links false
           (seed 42) 1116302264 _ eq_refl).
  vm_compute. reflexivity.
Defined.

(** X5. A load policy that is none of the three names is treated as the
    application policy without the label: when annotation returns, every
    link has no application label and its load is the peak or average value
    of some profile of [APP_PROFILES]; and with a non-empty table it does
    return. *)
Theorem unknown_policy_loads `{RandomSource} (cfg : Config) (links : list link)
    (is_access : bool) (st : rand_state) :
  LOAD_MODE cfg <> "fixed" -> LOAD_MODE cfg <> "random" -> LOAD_MODE cfg <> "apps" ->
  (forall out st',
     annotate_links_with_load cfg links is_access st = Ok (out, st') ->
     Forall (fun x => an_app x = None
                      /\ exists k p, (k, p) ∈ APP_PROFILES cfg
                                     /\ an_load x = profile_load cfg p) out)
  /\ (APP_PROFILES cfg <> [] ->
      exists out st', annotate_links_with_load cfg links is_access st = Ok (out, st')).
Proof.
  intros Hf%String.eqb_neq Hr%String.eqb_neq Ha%String.eqb_neq. split.
  - intros out st' Hrun.
    apply (annotate_Forall cfg is_access _) with (links := links) (st := st) (st' := st');
      [|exact Hrun].
    intros [[a b] bw] st0 x st1. unfold annotate_link. rewrite Ha. cbn [rbind].
    destruct (compute_load cfg bw None st0) as [[load st2]|e] eqn:Hload;
      cbn [rbind]; [|done].
    intros [= <- <-]. cbn.
    apply compute_load_profile in Hload as (k & p & Hin & -> & _); try done.
    split; [done|]. by exists k, p.
  - intros Hne. apply annotate_returns.
    intros [[a b] bw] st0. unfold annotate_link, compute_load.
    rewrite Ha, Hf, Hr. cbn [rbind].
    destruct (choice_returns (map fst (APP_PROFILES cfg)) st0) as (k & st1 & Hk).
    { destruct (APP_PROFILES cfg); [done | discriminate]. }
    rewrite Hk. cbn [rbind].
    apply choice_elem, list_elem_of_lookup in Hk as [i Hi].
    destruct (profile_of_key (APP_PROFILES cfg) i k Hi) as [p ->].
    cbn. by eexists _, _.
Qed.

Lemma unknown_policy_loads_witness :
  exists out st',
    annotate_links_with_load (with_load_mode "app" script_config)
      sample_links false (seed 42) = Ok (out, st').
Proof.
  apply (proj2 (@unknown_policy_loads lcg_source (with_load_mode "app" script_config)
                  sample_links false (seed 42)
                  ltac:(discriminate) ltac:(discriminate) ltac:(discriminate))).
  discriminate.
Defined.

(** X6. Under the application policy the two weight lists have five entries:
    with exactly five profiles annotation returns for every list of links,
    and with any other number of profiles annotating a non-empty list raises
    [ValueError]. *)
Theorem apps_policy_needs_five_profiles `{RandomSource} (cfg : Config)
    (links : list link) (is_access : bool) (st : rand_state) :
  LOAD_MODE cfg = "apps" ->
  (length (APP_PROFILES cfg) = 5%nat ->
   exists out st', annotate_links_with_load cfg links is_access st = Ok (out, st'))
  /\ (length (APP_PROFILES cfg) <> 5%nat -> links <> [] ->
      annotate_links_with_load cfg links is_access st = Raise ValueError).
Proof.
  intros Hmode. split.
  - intros Hfive. by apply annotate_apps_returns.
  - intros Hne Hlinks. destruct links as [|[[a b] bw] rest]; [done|].
    apply annotate_first_raises. unfold annotate_link. rewrite Hmode.
    change (String.eqb "apps" "apps") with true. cbv iota.
    unfold choices1. rewrite length_map.
    assert (Hw : length (if is_access then [4; 2; 4; 2; 1] else [2; 4; 1; 4; 3])
                 = 5%nat) by (by destruct is_access).
    rewrite Hw.
    destruct (Nat.eqb_spec 5 (length (APP_PROFILES cfg))) as [Heq|_]; [congruence|].
    reflexivity.
Qed.

Lemma apps_policy_needs_five_profiles_witness :
  LOAD_MODE script_config = "apps"
  /\ exists out st',
       annotate_links_with_load script_config sample_links true (seed 1) = Ok (out, st').
Proof.
  split; [reflexivity|].
  apply (proj1 (@apps_policy_needs_five_profiles lcg_source script_config
                  sample_links true (seed 1) eq_refl)).
  reflexivity.
Defined.

(** ** Layer assigner: which names get a layer, and which layer *)

Lemma on_link_of_bw_touches (m : Z) (r : node) (router_links : list link) :
  on_link_of_bw m r router_links = true -> touches r router_links = true.
Proof.
  unfold on_link_of_bw, touches. rewrite !existsb_exists.
  intros (l & Hin & [_ Hl]%andb_true_iff). by exists l.
Qed.

(** The first loop of the unequal-bandwidth branch gives layer 0 to the
    ends of the links of bandwidth [m] and leaves every other name alone. *)
Lemma lookup_core_pass (m : Z) (router_links : list link) :
  forall (layer : layer_map) (r : node),
    core_pass m router_links layer !! r
    = if on_link_of_bw m r router_links then Some 0 else layer !! r.
Proof.
  induction router_links as [|[[a b] bw] rest IH]; intros layer r; [done|].
  unfold core_pass in *. cbn [fold_left]. rewrite IH. clear IH.
  change (on_link_of_bw m r ((a, b, bw) :: rest))
    with ((bw =? m) && (bool_decide (a = r) || bool_decide (b = r))
          || on_link_of_bw m r rest).
  destruct (on_link_of_bw m r rest); [by rewrite orb_true_r|].
  rewrite orb_false_r. destruct (bw =? m); [|done]. cbn [andb].
  rewrite !lookup_insert.
  repeat case_decide; subst; rewrite ?bool_decide_true, ?bool_decide_false by done;
    cbn; rewrite ?orb_true_r; done.
Qed.

(** The second loop only adds ends of links, with layer 1. *)
Lemma lookup_dist_pass_inv (router_links : list link) :
  forall (layer : layer_map) (r : node) (v : Z),
    dist_pass router_links layer !! r = Some v ->
    layer !! r = Some v
    \/ (layer !! r = None /\ v = 1 /\ touches r router_links = true).
Proof.
  unfold dist_pass.
  induction router_links as [|[[a b] bw] rest IH]; intros layer r v Hv; [by left|].
  cbn [fold_left] in Hv.
  change (touches r ((a, b, bw) :: rest))
    with (bool_decide (a = r) || bool_decide (b = r) || touches r rest).
  apply IH in Hv as [Hv|(Hnone & -> & Ht)].
  - rewrite lookup_dist_step in Hv. destruct (layer !! r) as [x|] eqn:Hr; [by left|].
    right. split; [done|].
    destruct (bool_decide (r = a)) eqn:Ha; [|destruct (bool_decide (r = b)) eqn:Hb].
    + apply bool_decide_eq_true in Ha as ->. rewrite bool_decide_true by done.
      cbn in *. destruct (in_layer b layer); [by injection Hv as <-|].
      cbn in Hv. destruct (bool_decide (a = b) && in_layer a layer); [|done].
      by injection Hv as <-.
    + apply bool_decide_eq_true in Hb as ->.
      rewrite (bool_decide_true (b = b)), orb_true_r by done.
      cbn in *. destruct (in_layer a layer); [by injection Hv as <-|done].
    + cbn in Hv. done.
  - rewrite lookup_dist_step in Hnone.
    destruct (layer !! r) as [x|] eqn:Hr; [done|].
    right. by rewrite Ht, orb_true_r.
Qed.

Lemma touches_first (a b : node) (bw : Z) (rest : list link) :
  touches a ((a, b, bw) :: rest) = true.
Proof. unfold touches. cbn. by rewrite bool_decide_true. Qed.

(** The layer the router block gives: some layer exactly to the ends of the
    links, and only the layers 0, 1 and 2. *)
Lemma router_layers_inv (router_links : list link) (r : node) :
  (is_Some (router_layers router_links !! r) <-> touches r router_links = true)
  /\ (forall v, router_layers router_links !! r = Some v -> v = 0 \/ v = 1 \/ v = 2).
Proof.
  destruct router_links as [|[[core b0] bw0] rest].
  { cbn. rewrite lookup_empty. split; [|done]. split; [by intros [] | done]. }
  remember (@cons link (core, b0, bw0) rest) as links eqn:Hlinks.
  assert (Hblock : router_layers links
            = if list_max bw0 (bws links) =? list_min bw0 (bws links)
              then equal_pass core links (<[core := 0]> ∅)
              else straggler_pass links
                     (dist_pass links (core_pass (list_max bw0 (bws links)) links ∅)))
    by (by subst links).
  rewrite Hblock. clear Hblock.
  destruct (list_max bw0 (bws links) =? list_min bw0 (bws links)).
  - rewrite lookup_equal_pass, lookup_insert.
    case_decide as Hc.
    + subst r. split; [|intros v [= <-]; by left].
      split; [intros _; subst links; apply touches_first | by eexists].
    + rewrite lookup_empty, bool_decide_true by done. cbn [andb].
      destruct (touches r links).
      * split; [split; [done | by exists 1] | intros v [= <-]; right; by left].
      * split; [split; [by intros [] | done] | done].
  - rewrite lookup_straggler_pass.
    destruct (dist_pass links (core_pass _ links ∅) !! r) as [v|] eqn:Hd.
    + apply lookup_dist_pass_inv in Hd as [Hc|(_ & -> & Ht)].
      * rewrite lookup_core_pass, lookup_empty in Hc.
        destruct (on_link_of_bw _ r links) eqn:Hon; [|done]. injection Hc as <-.
        apply on_link_of_bw_touches in Hon.
        split; [split; [done | by eexists] | intros v [= <-]; by left].
      * split; [split; [done | by eexists] | intros v [= <-]; right; by left].
    + destruct (touches r links).
      * split; [split; [done | by exists 2] | intros v [= <-]; right; by right].
      * split; [split; [by intros [] | done] | done].
Qed.

(** A loop of writes [layer[f x] = v] gives [v] to every name it writes. *)


(** X7. The layer map has an entry exactly for the ends of the router links,
    the switch names and the endpoint names; every layer is 0, 1, 2 or 3;
    in particular, without router links no router gets a layer. *)
Theorem layer_map_domain_and_range (router_links : list link)
    (switches : list Switch) (endpoints : list string) (r : node) :
  (is_Some (auto_assign_layers router_links switches endpoints !! r)
   <-> touches r router_links = true
       \/ r ∈ switch_nodes switches \/ r ∈ endpoint_nodes endpoints)
  /\ (forall v, auto_assign_layers router_links switches endpoints !! r = Some v ->
                0 <= v <= 3).
Proof.
  destruct (router_layers_inv router_links r) as [Hdom Hrange].
  unfold auto_assign_layers, switch_nodes, endpoint_nodes.
  destruct (decide (r ∈ Some <$> endpoints)) as [Hep|Hnep].
  { rewrite (lookup_fold_insert_elem Some 3) by done.
    split; [split; [tauto | by eexists] | intros v [= <-]; lia]. }
  rewrite (lookup_fold_insert Some 3) by done.
  destruct (decide (r ∈ (fun sw => Some (sw_name sw)) <$> switches)) as [Hsw|Hnsw].
  { rewrite (lookup_fold_insert_elem (fun sw => Some (sw_name sw)) 2) by done.
    split; [split; [tauto | by eexists] | intros v [= <-]; lia]. }
  rewrite (lookup_fold_insert (fun sw => Some (sw_name sw)) 2) by done.
  split; [rewrite Hdom; tauto|].
  intros v Hv. destruct (Hrange v Hv) as [->|[->| ->]]; lia.
Qed.

(** X8. The later loops win: every endpoint name ends in layer 3, and every
    switch name that is not also an endpoint name ends in layer 2, whatever
    the router block gave to that name. *)
Theorem switch_and_endpoint_layers (router_links : list link)
    (switches : list Switch) (endpoints : list string) :
  (forall ep, ep ∈ endpoints ->
     auto_assign_layers router_links switches endpoints !! Some ep = Some 3)
  /\ (forall sw, sw ∈ switches -> sw_name sw ∉ endpoints ->
        auto_assign_layers router_links switches endpoints !! Some (sw_name sw)
        = Some 2).
Proof.
  unfold auto_assign_layers. split.
  - intros ep Hep. apply (lookup_fold_insert_elem Some 3).
    by apply list_elem_of_fmap_2.
  - intros sw Hsw Hnep. rewrite (lookup_fold_insert Some 3).
    + apply (lookup_fold_insert_elem (fun sw => Some (sw_name sw)) 2).
      by apply (list_elem_of_fmap_2 (fun sw => Some (sw_name sw))).
    + intros (ep & [= Heq] & Hep)%list_elem_of_fmap. by rewrite Heq in Hnep.
Qed.

Lemma switch_and_endpoint_layers_witness :
  auto_assign_layers [(Some "SW_A", Some "R2", 10)]
    [mkSwitch "SW_A" (Some "R2") "10.0.0.0/24"] ["PC_SW_A_1"] !! Some "SW_A"
  = Some 2.
Proof.
  apply (proj2 (switch_and_endpoint_layers [(Some "SW_A", Some "R2", 10)]
                  [mkSwitch "SW_A" (Some "R2") "10.0.0.0/24"] ["PC_SW_A_1"])
           (mkSwitch "SW_A" (Some "R2") "10.0.0.0/24")).
  - apply list_elem_of_here.
  - cbn. intros Hin%list_elem_of_singleton. discriminate Hin.
Defined.

(** X9. When the bandwidths are not all equal, the router block gives layer
    0 exactly to the ends of the links of maximal bandwidth. *)
Theorem core_is_max_bandwidth (router_links : list link) (a0 b0 : node) (bw0 : Z)
    (rest : list link) (r : node) :
  router_links = (a0, b0, bw0) :: rest ->
  list_max bw0 (bws router_links) <> list_min bw0 (bws router_links) ->
  (router_layers router_links !! r = Some 0
   <-> on_link_of_bw (list_max bw0 (bws router_links)) r router_links = true).
Proof.
  intros Hlinks Hne.
  assert (Hblock : router_layers router_links
            = straggler_pass router_links
                (dist_pass router_links
                   (core_pass (list_max bw0 (bws router_links)) router_links ∅))).
  { subst router_links. unfold router_layers.
    by rewrite (proj2 (Z.eqb_neq _ _) Hne). }
  rewrite Hblock, lookup_straggler_pass. clear Hblock Hlinks Hne.
  set (links := router_links).
  destruct (on_link_of_bw _ r links) eqn:Hon.
  - rewrite (lookup_dist_pass_Some links _ r 0); [done|].
    by rewrite lookup_core_pass, Hon.
  - destruct (dist_pass links (core_pass _ links ∅) !! r) as [v|] eqn:Hd.
    + apply lookup_dist_pass_inv in Hd as [Hc|(_ & -> & _)].
      * by rewrite lookup_core_pass, Hon, lookup_empty in Hc.
      * split; discriminate.
    + destruct (touches r links); split; discriminate.
Qed.

Lemma core_is_max_bandwidth_witness :
  router_layers chain_links !! Some "B" = Some 0
  <-> on_link_of_bw (list_max 100 (bws chain_links)) (Some "B") chain_links = true.
Proof.
  apply (core_is_max_bandwidth chain_links (Some "A") (Some "B") 100
           [(Some "B", Some "C", 10); (Some "C", Some "D", 10)] (Some "B") eq_refl).
  vm_compute. discriminate.
Defined.


(** ** Matcher and inferrer: failures, bandwidths, counts *)

Lemma rmap_Raise {A B : Type} (f : A -> result B) (xs : list A) (e : exn) :
  rmap f xs = Raise e <->
  exists pre x post,
    xs = pre ++ x :: post
    /\ Forall (fun y => is_Ok (f y) = true) pre
    /\ f x = Raise e.
Proof.
  induction xs as [|x xs IH]; cbn [rmap].
  - split; [done|]. intros (pre & y & post & Hxs & _). by destruct pre.
  - destruct (f x) as [b|e'] eqn:Hx; cbn [rbind].
    + assert (Hshift : (let* ys := rmap f xs in Ok (b :: ys)) = Raise e
                       <-> rmap f xs = Raise e).
      { destruct (rmap f xs); cbn; split; congruence. }
      rewrite Hshift, IH. split.
      * intros (pre & y & post & -> & Hpre & Hy).
        exists (x :: pre), y, post. split; [done|]. split; [|done].
        constructor; [by rewrite Hx | done].
      * intros (pre & y & post & Heq & Hpre & Hy).
        destruct pre as [|z pre]; cbn in Heq; injection Heq as <- ->; [congruence|].
        apply Forall_cons in Hpre as [_ Hpre]. by exists pre, y, post.
    + split.
      * intros [= <-]. exists [], x, xs. by repeat split.
      * intros (pre & y & post & Heq & Hpre & Hy).
        destruct pre as [|z pre]; cbn in Heq; injection Heq as <- ->; [congruence|].
        apply Forall_cons in Hpre as [Hz _]. by rewrite Hx in Hz.
Qed.

Lemma find_router_links_Raise (cfg : Config) (routers : list Router) (e : exn) :
  find_router_links cfg routers = Raise e <-> located routers = Raise e.
Proof.
  unfold find_router_links. rewrite all_ifaces_located.
  destruct (located routers) as [ys|e']; cbn; [split; discriminate | split; congruence].
Qed.

Lemma infer_access_lans_Raise (cfg : Config) (routers : list Router) (e : exn) :
  infer_access_lans cfg routers = Raise e <-> located routers = Raise e.
Proof.
  unfold infer_access_lans. rewrite (group_routers_spec cfg routers 0).
  fold (located routers).
  destruct (located routers) as [ys|e']; cbn; [split; discriminate | split; congruence].
Qed.

(** X11. The matcher and the inferrer raise on exactly the same inputs and
    with the same exception: the one that the first interface (in router
    order, then interface order) having an address and a mask that do not
    form a network gives. *)
Theorem matcher_and_inferrer_raise_together (cfg : Config) (routers : list Router)
    (e : exn) :
  (find_router_links cfg routers = Raise e <-> infer_access_lans cfg routers = Raise e)
  /\ (find_router_links cfg routers = Raise e <->
      exists pre x post,
        addressed_from 0 routers = pre ++ x :: post
        /\ Forall (fun y => is_Ok (iface_net y.2) = true) pre
        /\ iface_net x.2 = Raise e).
Proof.
  rewrite find_router_links_Raise, infer_access_lans_Raise. split; [done|].
  unfold located. rewrite rmap_Raise. unfold locate.
  split; intros (pre & x & post & Hxs & Hpre & Hx); exists pre, x, post;
    (split; [done|]); split.
  - eapply Forall_impl; [exact Hpre|]. intros y. cbn. by destruct (iface_net y.2).
  - destruct (iface_net x.2); cbn in Hx; congruence.
  - eapply Forall_impl; [exact Hpre|]. intros y. cbn. by destruct (iface_net y.2).
  - by rewrite Hx.
Qed.

Lemma or_default_nonzero (x : option Z) (d : Z) : d <> 0 -> or_default x d <> 0.
Proof.
  intros Hd. unfold or_default. destruct x as [v|]; [|done].
  destruct (Z.eqb_spec v 0); done.
Qed.

Lemma elem_of_assoc (k : string) (l : list attach) (m : net_map) :
  NoDup m.*1 -> (k, l) ∈ m -> assoc k m = Some l.
Proof.
  induction m as [|[k' l'] m IH]; [by intros _ ?%elem_of_nil|].
  intros [Hk Hm]%NoDup_cons [[= -> ->]|Hin]%elem_of_cons; cbn.
  - by rewrite String.eqb_refl.
  - destruct (String.eqb_spec k' k) as [->|Hne]; [|by apply IH].
    exfalso. apply Hk. by apply (list_elem_of_fmap_2 fst) in Hin.
Qed.

(** X12. With a non-zero [DEFAULT_ROUTER_IF_BW] no router link has bandwidth
    0; with a non-zero [DEFAULT_ENDPOINT_LINK_BW] as well, no access link
    has: a stored 0 is replaced by the default before it reaches a link. *)
Theorem link_bandwidth_nonzero (cfg : Config) (routers : list Router) :
  DEFAULT_ROUTER_IF_BW cfg <> 0 ->
  (forall links, find_router_links cfg routers = Ok links ->
     forall l, l ∈ links -> l.2 <> 0)
  /\ (DEFAULT_ENDPOINT_LINK_BW cfg <> 0 ->
      forall switches endpoints access_links,
        infer_access_lans cfg routers = Ok (switches, endpoints, access_links) ->
        forall l, l ∈ access_links -> l.2 <> 0).
Proof.
  intros Hd. split.
  - unfold find_router_links. destruct (all_ifaces routers) as [entries|e]; [|done].
    cbn. intros links [= <-] l. rewrite match_pairs_spec. cbn [app].
    intros (i & j & ea & eb & _ & _ & _ & _ & ->)%elem_of_pairs_links.
    cbn. by apply or_default_nonzero.
  - intros Hep switches endpoints access_links.
    unfold infer_access_lans. rewrite (group_routers_spec cfg routers 0).
    fold (located routers). destruct (located routers) as [ys|e]; [|done]. cbn.
    rewrite lan_fold_spec. cbn [app]. intros [= <- <- <-] l.
    destruct (group_fold_spec cfg ys) as [Hnd Hassoc].
    intros (item & Hitem%list_elem_of_In & Hl%list_elem_of_In)%list_elem_of_In%in_flat_map.
    destruct item as [k attaches].
    pose proof (elem_of_assoc k attaches _ Hnd Hitem) as Hk. rewrite Hassoc in Hk.
    unfold item_links in Hl. cbn [snd] in Hl.
    destruct attaches as [|[[rname iname] rbw] [|a2 attaches]];
      [by apply elem_of_nil in Hl | | by apply elem_of_nil in Hl].
    apply elem_of_cons in Hl as [->|Hl].
    + cbn. destruct (attached k ys) as [|y [|y' zs]]; cbn in Hk; try done.
      injection Hk as _ _ <-. by apply or_default_nonzero.
    + apply list_elem_of_fmap in Hl as (ep & -> & _). done.
Qed.

Lemma link_bandwidth_nonzero_witness :
  DEFAULT_ROUTER_IF_BW script_config <> 0
  /\ Forall (fun l : link => l.2 <> 0) [(Some "R1", Some "R2", 5)].
Proof.
  split; [discriminate|]. apply Forall_forall.
  apply (proj1 (link_bandwidth_nonzero script_config
                  [parse_config zero_bw_R1; parse_config zero_bw_R2]
                  ltac:(discriminate))).
  vm_compute. reflexivity.
Defined.

Lemma item_switches_keys (m : net_map) :
  sw_lan_net <$> flat_map item_switches m `sublist_of` m.*1.
Proof.
  induction m as [|[k l] m IH]; [done|]. cbn [flat_map fmap list_fmap].
  rewrite fmap_app. unfold item_switches at 1. cbn [fst snd].
  destruct l as [|[[rname iname] rbw] [|a2 l]]; cbn.
  - by apply sublist_cons.
  - by apply sublist_skip.
  - by apply sublist_cons.
Qed.

Lemma length_item (cfg : Config) (item : string * list attach) :
  length (flat_map (fun sw => lan_endpoints cfg (sw_name sw)) (item_switches item))
  = (length (item_switches item) * Z.to_nat (ENDPOINTS_PER_LAN cfg))%nat
  /\ length (item_links cfg item)
     = (length (item_switches item) * S (Z.to_nat (ENDPOINTS_PER_LAN cfg)))%nat.
Proof.
  unfold item_switches, item_links. destruct item as [k l]. cbn [fst snd].
  destruct l as [|[[rname iname] rbw] [|a2 l]]; cbn;
    rewrite ?app_nil_r, ?length_fmap, ?length_lan_endpoints; lia.
Qed.

Lemma length_item_switches_links (cfg : Config) (m : net_map) :
  length (flat_map (fun sw => lan_endpoints cfg (sw_name sw)) (flat_map item_switches m))
  = (length (flat_map item_switches m) * Z.to_nat (ENDPOINTS_PER_LAN cfg))%nat
  /\ length (flat_map (item_links cfg) m)
     = (length (flat_map item_switches m) * S (Z.to_nat (ENDPOINTS_PER_LAN cfg)))%nat.
Proof.
  induction m as [|item m [IH1 IH2]]; [done|]. cbn [flat_map].
  rewrite flat_map_app, !length_app, IH1, IH2.
  destruct (length_item cfg item) as [-> ->].
  by rewrite !Nat.mul_add_distr_r.
Qed.

(** X13. When [infer_access_lans] returns: no two switches have the same
    subnet; there are [ENDPOINTS_PER_LAN] endpoints per switch; and there
    are [ENDPOINTS_PER_LAN + 1] access links per switch. *)
Theorem access_lan_counts (cfg : Config) (routers : list Router)
    (switches : list Switch) (endpoints : list string) (access_links : list link) :
  infer_access_lans cfg routers = Ok (switches, endpoints, access_links) ->
  NoDup (sw_lan_net <$> switches)
  /\ length endpoints = (length switches * Z.to_nat (ENDPOINTS_PER_LAN cfg))%nat
  /\ length access_links
     = (length switches * S (Z.to_nat (ENDPOINTS_PER_LAN cfg)))%nat.
Proof.
  unfold infer_access_lans. rewrite (group_routers_spec cfg routers 0).
  fold (located routers). destruct (located routers) as [ys|e]; [|done]. cbn.
  rewrite lan_fold_spec. cbn [app]. intros [= <- <- <-].
  destruct (group_fold_spec cfg ys) as [Hnd _].
  split; [|apply length_item_switches_links].
  eapply sublist_NoDup; [exact Hnd | apply item_switches_keys].
Qed.

Lemma access_lan_counts_witness :
  NoDup (sw_lan_net <$> [ mkSwitch "SW_R1_Fa0_1" (Some "R1") "192.168.1.0/24";
                          mkSwitch "SW_R2_Fa0_1" (Some "R2") "192.168.2.0/24" ]).
Proof.
  refine (proj1 (access_lan_counts script_config [example_R1; example_R2] _ _ _ _)).
  vm_compute. reflexivity.
Defined.

(** X14. When [infer_access_lans] returns, every switch comes from a subnet
    with exactly one attached interface: it is named after that interface
    and its router, and the access links hold the link from that router to
    the switch, with the interface's bandwidth when it is stored and not 0
    and [DEFAULT_ROUTER_IF_BW] otherwise. *)
Theorem switch_anchor_and_uplink (cfg : Config) (routers : list Router)
    (switches : list Switch) (endpoints : list string) (access_links : list link) :
  infer_access_lans cfg routers = Ok (switches, endpoints, access_links) ->
  exists ys,
    located routers = Ok ys
    /\ forall sw, sw ∈ switches ->
         exists y,
           attached (sw_lan_net sw) ys = [y]
           /\ sw = mkSwitch (switch_name (loc_hostname y) (iface_name (loc_iface y)))
                     (loc_hostname y) (loc_key y)
           /\ (loc_hostname y, Some (sw_name sw),
               or_default (iface_bandwidth (loc_iface y)) (DEFAULT_ROUTER_IF_BW cfg))
                ∈ access_links.
Proof.
  unfold infer_access_lans. rewrite (group_routers_spec cfg routers 0).
  fold (located routers). destruct (located routers) as [ys|e]; [|done]. cbn.
  rewrite lan_fold_spec. cbn [app]. intros [= <- <- <-].
  exists ys. split; [done|]. intros sw Hsw.
  destruct (group_fold_spec cfg ys) as [Hnd Hassoc].
  apply list_elem_of_In, in_flat_map in Hsw as ([k attaches] & Hitem & Hsw).
  apply list_elem_of_In in Hitem, Hsw.
  pose proof (elem_of_assoc k attaches _ Hnd Hitem) as Hk. rewrite Hassoc in Hk.
  unfold item_switches in Hsw. cbn [fst snd] in Hsw.
  destruct attaches as [|[[rname iname] rbw] [|a2 attaches]];
    [by apply elem_of_nil in Hsw | | by apply elem_of_nil in Hsw].
  apply list_elem_of_singleton in Hsw as ->. cbn [sw_lan_net sw_name].
  destruct (attached k ys) as [|y [|y' zs]] eqn:Hy; cbn in Hk; try done.
  unfold loc_attach, attach_of in Hk. injection Hk as <- <- <-. exists y.
  assert (Hkey : loc_key y = k).
  { assert (Hin : y ∈ attached k ys) by (rewrite Hy; left).
    unfold attached in Hin. by apply list_elem_of_filter in Hin as [? _]. }
  split; [done|]. split; [by rewrite Hkey|].
  apply list_elem_of_In, in_flat_map.
  eexists. split; [apply list_elem_of_In; exact Hitem|].
  apply list_elem_of_In. unfold item_links. cbn. left.
Qed.

Lemma switch_anchor_and_uplink_witness :
  exists ys,
    located [example_R1; example_R2] = Ok ys
    /\ forall sw,
         sw ∈ [ mkSwitch "SW_R1_Fa0_1" (Some "R1") "192.168.1.0/24";
                mkSwitch "SW_R2_Fa0_1" (Some "R2") "192.168.2.0/24" ] ->
         exists y, attached (sw_lan_net sw) ys = [y].
Proof.
  destruct (switch_anchor_and_uplink script_config [example_R1; example_R2]
              _ _ _ ltac:(vm_compute; reflexivity))
    as (ys & Hloc & Hsw).
  exists ys. split; [exact Hloc|].
  intros sw Hin. destruct (Hsw sw Hin) as (y & Hy & _). by exists y.
Defined.

Lemma rmap_Ok_app {A B : Type} (f : A -> result B) (xs ys : list A) (zs : list B) :
  rmap f (xs ++ ys) = Ok zs ->
  exists a b, rmap f xs = Ok a /\ rmap f ys = Ok b /\ zs = a ++ b.
Proof.
  rewrite rmap_app. destruct (rmap f xs) as [a|e]; cbn; [|done].
  destruct (rmap f ys) as [b|e]; cbn; [|done].
  intros [= <-]. by exists a, b.
Qed.

Lemma addressed_from_app (i : nat) (routers1 routers2 : list Router) :
  addressed_from i (routers1 ++ routers2)
  = addressed_from i routers1 ++ addressed_from (i + length routers1) routers2.
Proof.
  revert i. induction routers1 as [|r rest IH]; intros i; cbn.
  - by rewrite Nat.add_0_r.
  - rewrite IH, <- app_assoc. do 3 f_equal. lia.
Qed.

Lemma filter_has_addr_two (pre mid post : list Interface) (ia ib : Interface) :
  has_addr ia = true -> has_addr ib = true ->
  List.filter has_addr (pre ++ ia :: mid ++ ib :: post)
  = List.filter has_addr pre ++ ia :: List.filter has_addr mid
    ++ ib :: List.filter has_addr post.
Proof.
  intros Ha Hb. rewrite List.filter_app. cbn. rewrite Ha.
  rewrite List.filter_app. cbn. by rewrite Hb.
Qed.

(** The link of two entries with equal subnets, the first before the second. *)
Lemma pairs_links_two (cfg : Config) (es1 es2 es3 : list entry) (ea eb : entry) :
  same_subnet ea eb = true ->
  pair_link cfg ea eb ∈ pairs_links cfg (es1 ++ ea :: es2 ++ eb :: es3).
Proof.
  intros Hs. apply elem_of_pairs_links.
  exists (length es1), (length es1 + S (length es2))%nat, ea, eb.
  split; [lia|]. split; [apply list_lookup_middle; done|].
  split; [|done].
  rewrite lookup_app_r by lia.
  replace (length es1 + S (length es2) - length es1)%nat with (S (length es2)) by lia.
  cbn. apply list_lookup_middle. done.
Qed.

(** X15. Pairs are not filtered by router: two interfaces of one router
    that both have an address and a mask and lie on equal subnets give a
    link from that router to itself. *)
Theorem same_router_pair_gives_self_loop (cfg : Config)
    (routers1 routers2 : list Router) (r : Router)
    (pre mid post : list Interface) (ia ib : Interface) (na nb : IPv4.Network)
    (links : list link) :
  interfaces r = pre ++ ia :: mid ++ ib :: post ->
  has_addr ia = true -> has_addr ib = true ->
  iface_net ia = Ok na -> iface_net ib = Ok nb -> IPv4.eqb na nb = true ->
  find_router_links cfg (routers1 ++ r :: routers2) = Ok links ->
  (hostname r, hostname r, link_bw cfg ia ib) ∈ links.
Proof.
  intros Hifs Ha Hb Hna Hnb Heq. unfold find_router_links.
  rewrite all_ifaces_located. unfold located.
  rewrite addressed_from_app. cbn [addressed_from].
  rewrite Hifs, filter_has_addr_two by done.
  rewrite !fmap_app, !fmap_cons, !fmap_app, !fmap_cons.
  destruct (rmap locate _) as [ys|e] eqn:Hys; cbn; [|done].
  intros [= <-]. rewrite match_pairs_spec. cbn [app].
  apply rmap_Ok_app in Hys as (y1 & ys2 & _ & Hys & ->).
  rewrite <- app_assoc in Hys.
  apply rmap_Ok_app in Hys as (y2 & ys3 & _ & Hys & ->).
  cbn [rmap app] in Hys. unfold locate at 1 in Hys. cbn in Hys. rewrite Hna in Hys.
  cbn [rbind] in Hys.
  destruct (rmap locate (_ ++ _)) as [ys4|e] eqn:Hys4; cbn in Hys; [|done].
  injection Hys as <-.
  rewrite <- app_assoc in Hys4.
  apply rmap_Ok_app in Hys4 as (y3 & ys5 & _ & Hys5 & ->).
  cbn [rmap app] in Hys5. unfold locate at 1 in Hys5. cbn in Hys5. rewrite Hnb in Hys5.
  cbn [rbind] in Hys5.
  destruct (rmap locate _) as [ys6|e] eqn:Hys6; cbn in Hys5; [|done].
  injection Hys5 as <-.
  rewrite !fmap_app, !fmap_cons, !fmap_app, !fmap_cons.
  rewrite (app_assoc (entry_of <$> y1)).
  apply (pairs_links_two cfg _ _ _
           (hostname r, ia, na) (hostname r, ib, nb)).
  exact Heq.
Qed.

Lemma same_router_pair_gives_self_loop_witness :
  (Some "R1", Some "R1",
   link_bw script_config
     (mkInterface "Fa0/0" (Some "192.168.1.1") (Some "255.255.255.0") None)
     (mkInterface "Fa0/1" (Some "192.168.1.2") (Some "255.255.255.0") None))
    ∈ [(Some "R1", Some "R1", 10000)].
Proof.
  refine (same_router_pair_gives_self_loop script_config [] [] twin_router
            [] [] [] _ _ (IPv4.mkNetwork 3232235776 4294967040 24)
            (IPv4.mkNetwork 3232235776 4294967040 24) _
            eq_refl eq_refl eq_refl _ _ eq_refl _);
    vm_compute; reflexivity.
Defined.

(** ** Config parser: fields of the records, hostname, lines outside records *)

Lemma split_go_nonempty (s : string) :
  forall cur t, t ∈ PyStr.split_go cur s -> PyStr.is_empty t = false.
Proof.
  induction s as [|c s IH]; intros cur t; cbn.
  - destruct cur; cbn; [by intros ?%elem_of_nil|].
    by intros ->%list_elem_of_singleton.
  - destruct (PyStr.isspace c).
    + destruct cur as [|c' cur']; cbn; [by apply IH|].
      intros [->|Ht]%elem_of_cons; [done | by eapply IH].
    + apply IH.
Qed.

Lemma split_nonempty (s t : string) :
  t ∈ PyStr.split s -> PyStr.is_empty t = false.
Proof. apply split_go_nonempty. Qed.

Lemma body_line_address (c : Interface) (raw : string) :
  address_and_mask_together c -> address_and_mask_together (body_line c raw).
Proof.
  intros Hc. unfold body_line.
  destruct (PyStr.startswith "ip address" _).
  - destruct (PyStr.split (PyStr.strip raw)) as [|t0 [|t1 [|a [|m ts]]]] eqn:Hs;
      try done.
    right. exists a, m. split; [done|]. split; [done|].
    unfold has_addr. cbn.
    rewrite (split_nonempty (PyStr.strip raw) a), (split_nonempty (PyStr.strip raw) m);
      [done | rewrite Hs; set_solver | rewrite Hs; set_solver].
  - destruct (PyStr.startswith "bandwidth" _); [|done].
    destruct (PyStr.split (PyStr.strip raw)) as [|t0 [|b ts]]; try done.
    destruct (PyStr.int b); done.
Qed.

Lemma interfaces_by_directive_Forall (P : Interface -> Prop) (raws : list string) :
  (forall n, P (fresh_interface n)) ->
  (forall c raw, P c -> P (body_line c raw)) ->
  Forall P (interfaces_by_directive raws).
Proof.
  intros Hfresh Hbody.
  assert (Hfold : forall ls c, P c -> P (fold_left body_line ls c)).
  { induction ls as [|l ls IH]; intros c Hc; [done|]. cbn. by apply IH, Hbody. }
  induction raws as [|r rest IH]; [constructor|]. cbn [interfaces_by_directive].
  destruct (is_interface_line r); [|done].
  constructor; [by apply Hfold | done].
Qed.

Lemma parse_lines_interfaces (raws : list string) :
  interfaces (parse_lines raws) = interfaces_by_directive raws.
Proof. unfold parse_lines. by rewrite parse_fold. Qed.

(** X16. Every interface record of [parse_config] has its address and its
    mask both absent or both present, and when present both are non-empty:
    the test [iface["ip"] and iface["mask"]] of the later stages holds
    exactly for the records on which an address line was read. *)
Theorem parsed_address_and_mask_together (text : string) :
  Forall address_and_mask_together (interfaces (parse_config text)).
Proof.
  unfold parse_config. rewrite parse_lines_interfaces.
  apply interfaces_by_directive_Forall.
  - intros n. by left.
  - apply body_line_address.
Qed.

Lemma parse_line_hostname (st : ParseState) (raw : string) :
  ps_hostname (parse_line st raw)
  = match hostname_word raw with
    | Some h => Some h
    | None => ps_hostname st
    end.
Proof.
  unfold parse_line, hostname_word.
  destruct (PyStr.is_empty (PyStr.strip raw)) eqn:Hempty.
  { by destruct (PyStr.strip raw). }
  destruct (PyStr.startswith "hostname" (PyStr.strip raw)).
  { by destruct (PyStr.split (PyStr.strip raw)) as [|t0 [|t1 ts]]. }
  destruct (PyStr.startswith "interface" (PyStr.strip raw)).
  { by destruct (PyStr.split_max1 (PyStr.strip raw)) as [|t0 [|t1 [|t2 ts]]]. }
  destruct (PyStr.startswith "ip address" (PyStr.strip raw) && _).
  { destruct (ps_current st); [|done].
    by destruct (PyStr.split (PyStr.strip raw)) as [|t0 [|t1 [|t2 [|t3 ts]]]]. }
  destruct (PyStr.startswith "bandwidth" (PyStr.strip raw) && _); [|done].
  destruct (ps_current st); [|done].
  destruct (PyStr.split (PyStr.strip raw)) as [|t0 [|t1 ts]]; try done.
  by destruct (PyStr.int t1).
Qed.

Lemma parse_fold_hostname (raws : list string) :
  forall st,
    ps_hostname (fold_left parse_line raws st)
    = match last (omap hostname_word raws) with
      | Some h => Some h
      | None => ps_hostname st
      end.
Proof.
  induction raws as [|r rest IH]; intros st; [done|].
  cbn [fold_left]. rewrite IH, parse_line_hostname.
  change (omap hostname_word (r :: rest))
    with (match hostname_word r with
          | Some h => h :: omap hostname_word rest
          | None => omap hostname_word rest
          end).
  destruct (hostname_word r) as [h|]; [|done].
  rewrite last_cons. by destruct (last (omap hostname_word rest)).
Qed.

(** X17. The hostname of the result is the second word of the last line
    that starts with the word hostname and has a second word, wherever that
    line stands in the text; with no such line there is no hostname. *)
Theorem parsed_hostname_is_last (text : string) :
  hostname (parse_config text) = last (omap hostname_word (PyStr.lines text)).
Proof.
  unfold parse_config, parse_lines, parse_finish. cbn [hostname].
  rewrite parse_fold_hostname. cbn. by destruct (last _).
Qed.

Lemma interfaces_by_directive_skip (pre raws : list string) :
  Forall (fun r => is_interface_line r = false) pre ->
  interfaces_by_directive (pre ++ raws) = interfaces_by_directive raws.
Proof.
  induction 1 as [|r pre Hr _ IH]; [done|].
  cbn [app interfaces_by_directive]. by rewrite Hr.
Qed.

(** X18. Lines that stand before the first interface directive never make
    or change an interface record: an address or bandwidth line outside any
    interface is dropped, and a text with no interface directive gives no
    interface at all. *)
Theorem lines_before_first_interface_ignored (pre raws : list string) :
  Forall (fun r => is_interface_line r = false) pre ->
  interfaces (parse_lines (pre ++ raws)) = interfaces (parse_lines raws)
  /\ interfaces (parse_lines pre) = [].
Proof.
  intros Hpre. rewrite !parse_lines_interfaces. split.
  - by apply interfaces_by_directive_skip.
  - rewrite <- (app_nil_r pre). by rewrite interfaces_by_directive_skip.
Qed.

Lemma lines_before_first_interface_ignored_witness :
  interfaces (parse_lines ([" ip address 10.9.9.9 255.0.0.0"; "bandwidth 7"]
                           ++ PyStr.lines sample_R1))
  = interfaces (parse_lines (PyStr.lines sample_R1)).
Proof.
  apply (proj1 (lines_before_first_interface_ignored
                  [" ip address 10.9.9.9 255.0.0.0"; "bandwidth 7"]
                  (PyStr.lines sample_R1)
                  ltac:(repeat constructor))).
Defined.

(** ** Renderer: when the layout is built *)

Lemma set_attrs_names (n : string) (a : NodeAttrs)
    (nodes : list (string * option NodeAttrs)) :
  (set_attrs n a nodes).*1 = nodes.*1.
Proof.
  induction nodes as [|[k d] rest IH]; [done|]. cbn.
  destruct (String.eqb k n); cbn; [done | by rewrite IH].
Qed.

Lemma set_attrs_full (n : string) (a : NodeAttrs)
    (nodes : list (string * option NodeAttrs)) :
  attrs_full nodes -> attrs_full (set_attrs n a nodes).
Proof.
  unfold attrs_full. induction 1 as [|[k d] rest Hd Hrest IH]; [constructor|]. cbn.
  destruct (String.eqb k n); constructor; try done; cbn; by eexists.
Qed.

(** Adding the nodes of the layer map: it fails exactly on a [None] key, and
    leaves a table in which every node has its attributes. *)
Lemma add_layer_nodes_Ok (items : list (node * Z)) :
  forall G G',
    add_layer_nodes items G = Ok G' ->
    (None ∉ items.*1)
    /\ g_edge G' = g_edge G
    /\ (attrs_full (g_node G) -> attrs_full (g_node G'))
    /\ (forall k, k ∈ node_names G' <-> k ∈ node_names G \/ Some k ∈ items.*1).
Proof.
  unfold add_layer_nodes.
  induction items as [|[n ly] rest IH]; intros G G'; cbn [rfold].
  - intros [= <-]. split; [by intros ?%elem_of_nil|]. split; [done|]. split; [done|].
    intros k. cbn. rewrite elem_of_nil. tauto.
  - destruct n as [s|]; [|done]. cbn [add_node].
    destruct (has_node s G) eqn:Hs; cbn [rbind]; intros Hrest;
      apply IH in Hrest as (Hnone & Hedge & Hfull & Hnames); cbn in *.
    + apply bool_decide_eq_true in Hs.
      split; [by intros [?|?]%elem_of_cons|]. split; [done|].
      split; [intros Hf; by apply Hfull, set_attrs_full|].
      intros k. rewrite Hnames. unfold node_names. cbn. rewrite set_attrs_names.
      rewrite elem_of_cons. split; [tauto|].
      intros [?|[[= ->]|?]]; tauto.
    + split; [by intros [?|?]%elem_of_cons|]. split; [done|].
      split.
      { intros Hf. apply Hfull. apply Forall_app. split; [done|].
        constructor; [by eexists | constructor]. }
      intros k. rewrite Hnames. unfold node_names. cbn.
      rewrite fmap_app, elem_of_app, elem_of_cons. cbn.
      rewrite list_elem_of_singleton. split.
      * intros [[?| ->]|?]; tauto.
      * intros [?|[[= ->]|?]]; tauto.
Qed.

Lemma add_layer_nodes_returns (items : list (node * Z)) :
  None ∉ items.*1 -> forall G, exists G', add_layer_nodes items G = Ok G'.
Proof.
  unfold add_layer_nodes.
  induction items as [|[n ly] rest IH]; intros Hnone G; cbn [rfold]; [by eexists|].
  cbn in Hnone. apply not_elem_of_cons in Hnone as [Hn Hrest].
  destruct n as [s|]; [|done]. cbn [add_node].
  destruct (has_node s G); cbn [rbind]; by apply IH.
Qed.

(** What [add_edge] does to the node table for one end. *)
Lemma ensure_node_Ok (n : node) (G G' : Graph) :
  ensure_node n G = Ok G' ->
  exists s, n = Some s
    /\ g_edge G' = g_edge G
    /\ g_node G' = g_node G ++ (if has_node s G then [] else [(s, None)]).
Proof.
  intros Hn. destruct n as [s|]; [|done]. cbn in Hn. exists s. split; [done|].
  destruct (has_node s G); injection Hn as <-; cbn; [by rewrite app_nil_r | done].
Qed.

Lemma add_edge_Ok (u v : node) (d : EdgeAttrs) (G G' : Graph) :
  add_edge u v d G = Ok G' ->
  exists a b extra,
    u = Some a /\ v = Some b
    /\ g_node G' = g_node G ++ extra
    /\ Forall (fun p => p.2 = None) extra
    /\ (forall k, k ∈ extra.*1 <-> (k = a \/ k = b) /\ k ∉ node_names G).
Proof.
  unfold add_edge.
  destruct (ensure_node u G) as [G1|e] eqn:H1; cbn [rbind]; [|done].
  destruct (ensure_node v G1) as [G2|e] eqn:H2; cbn [rbind]; [|done].
  apply ensure_node_Ok in H1 as (a & -> & _ & Hn1).
  apply ensure_node_Ok in H2 as (b & -> & _ & Hn2).
  intros [= <-]. cbn [g_node].
  exists a, b, ((if has_node a G then [] else [(a, None)])
                ++ (if has_node b G1 then [] else [(b, None)])).
  split; [done|]. split; [done|].
  split; [by rewrite Hn2, Hn1, <- app_assoc|].
  unfold has_node, node_names in *. rewrite Hn1.
  destruct (decide (a ∈ (g_node G).*1)) as [Ha|Ha].
  - rewrite (bool_decide_true _ Ha), app_nil_r. cbn [app].
    destruct (decide (b ∈ (g_node G).*1)) as [Hb|Hb].
    + rewrite (bool_decide_true _ Hb). split; [constructor|].
      intros k. cbn. rewrite elem_of_nil. split; [done|]. intros [[->| ->] ?]; done.
    + rewrite (bool_decide_false _ Hb). split; [by repeat constructor|].
      intros k. cbn. rewrite list_elem_of_singleton. split; [intros ->; tauto|].
      intros [[->| ->] ?]; done.
  - rewrite (bool_decide_false _ Ha). rewrite fmap_app. cbn.
    destruct (decide (b ∈ (g_node G).*1 ++ [a])) as [Hb|Hb].
    + rewrite (bool_decide_true _ Hb). split; [by repeat constructor|].
      intros k. cbn. rewrite list_elem_of_singleton. split; [intros ->; tauto|].
      intros [[->| ->] Hk]; [done|].
      apply elem_of_app in Hb as [?|Hb%list_elem_of_singleton]; done.
    + rewrite (bool_decide_false _ Hb). split; [by repeat constructor|].
      intros k. cbn. rewrite !elem_of_cons, elem_of_nil.
      apply not_elem_of_app in Hb as [Hb1 Hb2%not_elem_of_cons].
      split; [intros [->|[->|[]]]; tauto | tauto].
Qed.

(** After the edges: the nodes of before, then the ends that were not
    nodes, without attributes. *)
Lemma add_link_edges_Ok (links : list annotated) :
  forall G G',
    add_link_edges links G = Ok G' ->
    (None ∉ link_ends links)
    /\ exists extra,
         g_node G' = g_node G ++ extra
         /\ Forall (fun p => p.2 = None) extra
         /\ (forall k, k ∈ extra.*1 <->
                       Some k ∈ link_ends links /\ k ∉ node_names G).
Proof.
  unfold add_link_edges.
  induction links as [|[[[[[a b] bw] load] ov] app] rest IH]; intros G G'; cbn [rfold].
  - intros [= <-]. split; [by intros ?%elem_of_nil|]. exists [].
    split; [by rewrite app_nil_r|]. split; [constructor|].
    intros k. cbn. rewrite !elem_of_nil. tauto.
  - destruct (add_edge a b _ G) as [G1|e] eqn:H1; cbn [rbind]; [|done].
    intros Hrest. apply IH in Hrest as (Hnone & extra2 & Hn2 & Hf2 & Hk2).
    apply add_edge_Ok in H1 as (sa & sb & extra1 & -> & -> & Hn1 & Hf1 & Hk1).
    change (link_ends ((Some sa, Some sb, bw, load, ov, app) :: rest))
      with (Some sa :: Some sb :: link_ends rest).
    split.
    { intros [?|[?|?]%elem_of_cons]%elem_of_cons; done. }
    exists (extra1 ++ extra2). split; [by rewrite Hn2, Hn1, <- app_assoc|].
    split; [by apply Forall_app|].
    intros k. rewrite fmap_app, elem_of_app, Hk1, Hk2.
    unfold node_names in *. rewrite Hn1, fmap_app, not_elem_of_app, Hk1.
    rewrite !elem_of_cons. split.
    + intros [[[->| ->] ?]|[? [? ?]]]; tauto.
    + intros [[[= ->]|[[= ->]|Hin]] Hk].
      * left. tauto.
      * left. tauto.
      * destruct (decide (k = sa)) as [->|?]; [tauto|].
        destruct (decide (k = sb)) as [->|?]; [tauto|]. right. tauto.
Qed.

Lemma add_link_edges_returns (links : list annotated) :
  forall G,
    (forall n, n ∈ link_ends links -> exists s, n = Some s /\ s ∈ node_names G) ->
    exists G', add_link_edges links G = Ok G' /\ g_node G' = g_node G.
Proof.
  unfold add_link_edges.
  induction links as [|[[[[[a b] bw] load] ov] app] rest IH]; intros G Hends;
    cbn [rfold]; [by eexists|].
  change (link_ends ((a, b, bw, load, ov, app) :: rest))
    with (a :: b :: link_ends rest) in Hends.
  destruct (Hends a) as (sa & -> & Ha); [left|].
  destruct (Hends b) as (sb & -> & Hb); [right; left|].
  unfold add_edge, ensure_node, has_node. unfold node_names in *.
  rewrite (bool_decide_true _ Ha). cbn [rbind].
  rewrite (bool_decide_true _ Hb). cbn [rbind].
  apply (IH (mkGraph (g_node G) _)).
  intros n Hn. apply Hends. by do 2 right.
Qed.

Lemma group_by_layer_rfold (nodes : list (string * option NodeAttrs)) :
  forall layers,
    (attrs_full nodes ->
     exists layers',
       rfold (fun layers '(n, d) =>
                match d with
                | Some a => Ok (row_append (na_layer a) n layers)
                | None => Raise KeyError
                end) nodes layers = Ok layers')
    /\ (~ attrs_full nodes ->
        rfold (fun layers '(n, d) =>
                 match d with
                 | Some a => Ok (row_append (na_layer a) n layers)
                 | None => Raise KeyError
                 end) nodes layers = Raise KeyError).
Proof.
  unfold attrs_full.
  induction nodes as [|[n [a|]] rest IH]; intros layers; cbn [rfold rbind].
  - split; [by eexists|]. intros Hn. destruct Hn. constructor.
  - destruct (IH (row_append (na_layer a) n layers)) as [IH1 IH2]. split.
    + intros [_ Hrest]%Forall_cons. by apply IH1.
    + intros Hn. apply IH2. intros Hrest. apply Hn. constructor; [by eexists | done].
  - split; [|done]. intros [[? [=]] _]%Forall_cons.
Qed.

Lemma node_styles_returns (nodes : list (string * option NodeAttrs)) :
  attrs_full nodes -> exists styles, rmap (fun '(_, d) => node_style d) nodes = Ok styles.
Proof.
  unfold attrs_full. induction 1 as [|[n d] rest [a Ha] _ [styles IH]]; [by eexists|].
  cbn in Ha. subst d. cbn [rmap]. rewrite IH. unfold node_style.
  destruct (String.eqb _ "Router"); [by eexists|].
  destruct (String.eqb _ "Switch"); by eexists.
Qed.

(** X19. The layout of [build_and_draw] is built exactly when no key of the
    layer map and no end of a link is [None] and every end of every link is
    a key of the layer map.  A link end that has no layer makes it raise. *)
Theorem build_and_draw_returns_iff (router_links_annot access_links_annot : list annotated)
    (layer_map : list (node * Z)) :
  (exists out, build_and_draw router_links_annot access_links_annot layer_map = Ok out)
  <-> (None ∉ layer_map.*1)
      /\ forall n, n ∈ link_ends (router_links_annot ++ access_links_annot) ->
                   n <> None /\ n ∈ layer_map.*1.
Proof.
  unfold build_and_draw. split.
  - intros [out Hout].
    destruct (add_layer_nodes layer_map empty_graph) as [G1|e] eqn:H1;
      cbn [rbind] in Hout; [|done].
    destruct (add_link_edges _ G1) as [G|e] eqn:H2; cbn [rbind] in Hout; [|done].
    destruct (group_by_layer (g_node G)) as [layers|e] eqn:H3;
      cbn [rbind] in Hout; [|done].
    apply add_layer_nodes_Ok in H1 as (Hnone & _ & Hfull & Hnames).
    apply add_link_edges_Ok in H2 as (Hends & extra & Hn & Hextra & Hk).
    split; [done|]. intros n Hn'.
    split; [by intros ->|].
    destruct n as [s|]; [|done].
    assert (Hfull' : attrs_full (g_node G)).
    { destruct (decide (attrs_full (g_node G))) as [?|Hnot]; [done|].
      destruct (group_by_layer_rfold (g_node G) []) as [_ Hr].
      unfold group_by_layer in H3. by rewrite (Hr Hnot) in H3. }
    destruct (decide (s ∈ node_names G1)) as [Hs|Hs].
    { apply Hnames in Hs as [Hs|Hs]; [by apply elem_of_nil in Hs | done]. }
    assert (Hin : s ∈ extra.*1) by (by apply Hk).
    apply list_elem_of_fmap in Hin as ([k d] & -> & Hin).
    rewrite Forall_forall in Hextra. specialize (Hextra _ Hin). cbn in Hextra. subst d.
    unfold attrs_full in Hfull'. rewrite Hn in Hfull'.
    apply Forall_app in Hfull' as [_ Hfull']. rewrite Forall_forall in Hfull'.
    by destruct (Hfull' _ Hin).
  - intros [Hnone Hends].
    destruct (add_layer_nodes_returns layer_map Hnone empty_graph) as [G1 H1].
    rewrite H1. cbn [rbind].
    apply add_layer_nodes_Ok in H1 as (_ & _ & Hfull & Hnames).
    destruct (add_link_edges_returns (router_links_annot ++ access_links_annot) G1)
      as (G & H2 & Hn).
    { intros n Hn. destruct (Hends n Hn) as [Hsome Hin].
      destruct n as [s|]; [|done]. exists s. split; [done|].
      apply Hnames. by right. }
    rewrite H2. cbn [rbind].
    assert (Hfull' : attrs_full (g_node G)).
    { rewrite Hn. apply Hfull. constructor. }
    destruct (group_by_layer_rfold (g_node G) []) as [Hr _].
    destruct (Hr Hfull') as [layers H3]. unfold group_by_layer. rewrite H3.
    cbn [rbind].
    destruct (node_styles_returns _ Hfull') as [styles ->]. by eexists.
Qed.

(** ** Renderer: where the nodes are placed *)

Lemma rfold_app {A S : Type} (f : S -> A -> result S) (xs ys : list A) (s : S) :
  rfold f (xs ++ ys) s = let* s' := rfold f xs s in rfold f ys s'.
Proof.
  revert s. induction xs as [|x xs IH]; intros s; cbn; [done|].
  destruct (f s x); cbn; [apply IH | done].
Qed.

Lemma row_of_row_append (k ly : Z) (n : string) (layers : list (Z * list string)) :
  row_of k (row_append ly n layers)
  = if k =? ly then row_of ly layers ++ [n] else row_of k layers.
Proof.
  induction layers as [|[k' row] rest IH]; cbn.
  - rewrite (Z.eqb_sym ly k). by destruct (k =? ly).
  - destruct (Z.eqb_spec k' ly) as [->|Hne]; cbn.
    + rewrite (Z.eqb_sym ly k). by destruct (k =? ly).
    + rewrite IH. destruct (Z.eqb_spec k ly) as [->|Hne'].
      * by rewrite (proj2 (Z.eqb_neq k' ly)).
      * done.
Qed.

Lemma elem_of_keys_row_append (k ly : Z) (n : string) (layers : list (Z * list string)) :
  k ∈ (row_append ly n layers).*1 <-> k = ly \/ k ∈ layers.*1.
Proof.
  induction layers as [|[k' row] rest IH]; cbn.
  - rewrite list_elem_of_singleton, elem_of_nil. tauto.
  - destruct (Z.eqb_spec k' ly) as [->|Hne]; cbn.
    + rewrite elem_of_cons. tauto.
    + rewrite !elem_of_cons, IH. tauto.
Qed.

Lemma NoDup_keys_row_append (ly : Z) (n : string) (layers : list (Z * list string)) :
  NoDup layers.*1 -> NoDup (row_append ly n layers).*1.
Proof.
  induction layers as [|[k' row] rest IH]; cbn.
  - intros _. apply NoDup_singleton.
  - intros [Hk Hrest]%NoDup_cons.
    destruct (Z.eqb_spec k' ly) as [->|Hne]; cbn.
    + by apply NoDup_cons.
    + apply NoDup_cons. split; [|by apply IH].
      rewrite elem_of_keys_row_append. tauto.
Qed.

(** The rows after the grouping loop: each key once, and under each key the
    names of the nodes of that layer, in node order. *)
Lemma group_by_layer_spec (nodes : list (string * option NodeAttrs)) :
  forall layers,
    group_by_layer nodes = Ok layers ->
    NoDup layers.*1
    /\ (forall ly, row_of ly layers = names_in_layer ly nodes)
    /\ (forall ly, ly ∈ layers.*1 -> names_in_layer ly nodes <> []).
Proof.
  unfold group_by_layer.
  induction nodes as [|[n d] nodes IH] using rev_ind; intros layers.
  - intros [= <-]. split; [apply NoDup_nil_2|]. split; [done|].
    by intros ly ?%elem_of_nil.
  - rewrite rfold_app.
    destruct (rfold _ nodes []) as [layers0|e] eqn:H0; cbn [rbind rfold]; [|done].
    destruct d as [a|]; [|done]. cbn [rbind]. intros [= <-].
    destruct (IH layers0 eq_refl) as (Hnd & Hrow & Hkey).
    split; [by apply NoDup_keys_row_append|].
    unfold names_in_layer in *. split.
    + intros ly. rewrite row_of_row_append, omap_app. cbn.
      rewrite (Z.eqb_sym (na_layer a) ly).
      destruct (ly =? na_layer a) eqn:E.
      * apply Z.eqb_eq in E as ->. by rewrite Hrow.
      * by rewrite Hrow, app_nil_r.
    + intros ly [->|Hin]%elem_of_keys_row_append; rewrite omap_app.
      * cbn. rewrite Z.eqb_refl. by destruct (omap _ nodes).
      * intros [Habs _]%app_eq_nil. by apply (Hkey ly).
Qed.

Lemma pos_set_fresh (n : string) (p : Z * Z) (pos : list (string * (Z * Z))) :
  n ∉ pos.*1 -> pos_set n p pos = pos ++ [(n, p)].
Proof.
  induction pos as [|[k q] rest IH]; [done|]. cbn.
  intros [Hne Hrest]%not_elem_of_cons.
  rewrite (proj2 (String.eqb_neq k n)) by done. by rewrite IH.
Qed.

Lemma row_positions_names (ly : Z) (row : list string) :
  (row_positions ly row).*1 = row.
Proof.
  unfold row_positions. apply list_eq. intros i.
  rewrite list_lookup_fmap, list_lookup_imap. by destruct (row !! i).
Qed.

Lemma rows_positions_names (row : Z -> list string) (ks : list Z) :
  (flat_map (fun ly => row_positions ly (row ly)) ks).*1 = flat_map row ks.
Proof.
  induction ks as [|k ks IH]; [done|]. cbn.
  by rewrite fmap_app, row_positions_names, IH.
Qed.

(** A row whose names are new is appended as it is. *)
Lemma place_row_fresh (ly : Z) (row : list string) :
  forall pos,
    NoDup row -> (forall n, n ∈ row -> n ∉ pos.*1) ->
    place_row ly row pos = pos ++ row_positions ly row.
Proof.
  unfold place_row, row_positions.
  induction row as [|n row IH] using rev_ind; intros pos Hnd Hfresh.
  - cbn. by rewrite app_nil_r.
  - apply NoDup_app in Hnd as (Hrow & Hdisj & _).
    rewrite !imap_app, fold_left_app. cbn. rewrite Nat.add_0_r.
    rewrite IH; [|done|intros m Hm; apply Hfresh, elem_of_app; by left].
    rewrite pos_set_fresh, <- app_assoc; [done|].
    rewrite fmap_app, not_elem_of_app. split.
    + apply Hfresh, elem_of_app. right. left.
    + fold (row_positions ly row). rewrite row_positions_names.
      intros Hin. by apply (Hdisj n Hin), list_elem_of_singleton.
Qed.

Lemma place_rows_fresh (row : Z -> list string) (ks : list Z) :
  forall pos,
    NoDup (flat_map row ks) ->
    (forall n, n ∈ flat_map row ks -> n ∉ pos.*1) ->
    fold_left (fun pos ly => place_row ly (row ly) pos) ks pos
    = pos ++ flat_map (fun ly => row_positions ly (row ly)) ks.
Proof.
  induction ks as [|k ks IH]; intros pos Hnd Hfresh; cbn.
  - by rewrite app_nil_r.
  - cbn in Hnd, Hfresh. apply NoDup_app in Hnd as (Hrow & Hdisj & Hrest).
    rewrite place_row_fresh; [|done|intros n Hn; apply Hfresh, elem_of_app; by left].
    rewrite IH, <- app_assoc; [done | done |].
    intros n Hn. rewrite fmap_app, not_elem_of_app, row_positions_names. split.
    + apply Hfresh, elem_of_app. by right.
    + intros Hin. by apply (Hdisj n Hin).
Qed.

Lemma names_in_layer_sublist (ly : Z) (nodes : list (string * option NodeAttrs)) :
  names_in_layer ly nodes `sublist_of` nodes.*1.
Proof.
  unfold names_in_layer. induction nodes as [|[n d] rest IH]; [done|]. cbn.
  destruct d as [a|]; cbn; [|by apply sublist_cons].
  destruct (na_layer a =? ly); [by apply sublist_skip | by apply sublist_cons].
Qed.

Lemma elem_of_names_in_layer (ly : Z) (nodes : list (string * option NodeAttrs))
    (n : string) :
  n ∈ names_in_layer ly nodes <-> exists a, (n, Some a) ∈ nodes /\ na_layer a = ly.
Proof.
  unfold names_in_layer. rewrite list_elem_of_omap. split.
  - intros ([k [a|]] & Hin & Hk); cbn in Hk; [|done].
    destruct (Z.eqb_spec (na_layer a) ly); [|done]. injection Hk as ->. by exists a.
  - intros (a & Hin & <-). exists (n, Some a). split; [done|]. cbn.
    by rewrite Z.eqb_refl.
Qed.

Lemma NoDup_pair_unique {A B : Type} (l : list (A * B)) (k : A) (x y : B) :
  NoDup l.*1 -> (k, x) ∈ l -> (k, y) ∈ l -> x = y.
Proof.
  induction l as [|[k' z] l IH]; [by intros _ ?%elem_of_nil|].
  cbn. intros [Hk Hl]%NoDup_cons [[= -> ->]|Hx]%elem_of_cons [[= ->]|Hy]%elem_of_cons.
  - done.
  - exfalso. apply Hk. by apply (list_elem_of_fmap_2 fst) in Hy.
  - subst. exfalso. apply Hk. by apply (list_elem_of_fmap_2 fst) in Hx.
  - by apply IH.
Qed.

(** With distinct node names, the rows of distinct layers share no name. *)
Lemma NoDup_rows (nodes : list (string * option NodeAttrs)) (ks : list Z) :
  NoDup nodes.*1 -> NoDup ks ->
  NoDup (flat_map (fun ly => names_in_layer ly nodes) ks).
Proof.
  intros Hnodes. induction 1 as [|k ks Hk Hks IH]; [apply NoDup_nil_2|]. cbn.
  apply NoDup_app. split; [|split; [|done]].
  - eapply sublist_NoDup; [exact Hnodes | apply names_in_layer_sublist].
  - intros n (a & Ha & Hla)%elem_of_names_in_layer
           (k' & Hk'%list_elem_of_In & Hn%list_elem_of_In)%list_elem_of_In%in_flat_map.
    apply elem_of_names_in_layer in Hn as (a' & Ha' & Hla').
    assert (Some a = Some a') as [= ->] by (by eapply NoDup_pair_unique).
    congruence.
Qed.

(** Distinct rows give distinct heights, and a row gives distinct abscissas. *)
Lemma NoDup_row_positions (row : Z -> list string) (ks : list Z) :
  NoDup ks -> NoDup (flat_map (fun ly => row_positions ly (row ly)) ks).*2.
Proof.
  induction 1 as [|k ks Hk Hks IH]; [apply NoDup_nil_2|]. cbn.
  rewrite fmap_app. apply NoDup_app. split; [|split; [|done]].
  - unfold row_positions. apply NoDup_alt. intros i j p.
    rewrite !list_lookup_fmap, !list_lookup_imap.
    destruct (row k !! i) eqn:Hi, (row k !! j) eqn:Hj; cbn; try done.
    intros [= <-] [= Hij]. lia.
  - intros p ([n p'] & -> & Hin)%list_elem_of_fmap ([m q] & Heq & Hq)%list_elem_of_fmap.
    cbn in Heq. subst q.
    apply list_elem_of_In, in_flat_map in Hq as (k' & Hk'%list_elem_of_In & Hq%list_elem_of_In).
    unfold row_positions in Hin, Hq.
    apply elem_of_lookup_imap in Hin as (i & n0 & [= -> ->] & _).
    apply elem_of_lookup_imap in Hq as (j & m0 & [= _ _ Hy] & _).
    assert (k = k') by lia. by subst.
Qed.

Lemma row_of_nonempty (ly : Z) (layers : list (Z * list string)) :
  row_of ly layers <> [] -> ly ∈ layers.*1.
Proof.
  induction layers as [|[k row] rest IH]; [done|]. cbn.
  destruct (Z.eqb_spec k ly) as [->|Hne]; [left | right; by apply IH].
Qed.

Lemma elem_of_node_of_items (items : list (node * Z)) (k : string) :
  k ∈ (omap node_of_item items).*1 -> Some k ∈ items.*1.
Proof.
  intros ([k' d] & -> & ([n ly] & Hin & Hn)%list_elem_of_omap)%list_elem_of_fmap.
  unfold node_of_item in Hn. cbn in Hn. destruct n as [s|]; [|done].
  injection Hn as <- <-. by apply (list_elem_of_fmap_2 fst) in Hin.
Qed.

Lemma NoDup_node_of_items (items : list (node * Z)) :
  NoDup items.*1 -> NoDup (omap node_of_item items).*1.
Proof.
  induction items as [|[n ly] rest IH]; [intros _; apply NoDup_nil_2|]. cbn.
  intros [Hn Hrest]%NoDup_cons. unfold node_of_item at 1. cbn.
  destruct n as [s|]; [|by apply IH]. cbn. apply NoDup_cons.
  split; [|by apply IH]. by intros ?%elem_of_node_of_items.
Qed.

(** With distinct keys, every item of the layer map adds one node. *)
Lemma add_layer_nodes_fresh (items : list (node * Z)) :
  forall G G',
    NoDup items.*1 ->
    (forall s, Some s ∈ items.*1 -> s ∉ node_names G) ->
    add_layer_nodes items G = Ok G' ->
    g_node G' = g_node G ++ omap node_of_item items.
Proof.
  unfold add_layer_nodes.
  induction items as [|[n ly] rest IH]; intros G G' Hnd Hfresh; cbn [rfold].
  - intros [= <-]. by rewrite app_nil_r.
  - cbn in Hnd. apply NoDup_cons in Hnd as [Hn Hrest].
    destruct n as [s|]; [|done]. cbn [add_node]. unfold has_node.
    rewrite bool_decide_false by (apply Hfresh; left). cbn [rbind].
    intros HG. apply IH in HG; [|done|].
    + rewrite HG. cbn. by rewrite <- app_assoc.
    + intros k Hk. unfold node_names. cbn.
      rewrite fmap_app, not_elem_of_app. split.
      * apply Hfresh. by right.
      * cbn. intros ->%list_elem_of_singleton. done.
Qed.

Lemma names_in_layer_items (ly : Z) (items : list (node * Z)) :
  None ∉ items.*1 -> names_in_layer ly (omap node_of_item items) = layer_row ly items.
Proof.
  unfold names_in_layer, layer_row.
  induction items as [|[n k] rest IH]; [done|]. cbn.
  intros [Hn Hrest]%not_elem_of_cons. unfold node_of_item at 1. cbn.
  destruct n as [s|]; [|done]. cbn.
  destruct (k =? ly); cbn; by rewrite IH.
Qed.

(** What a returning [build_and_draw] has done. *)
Lemma build_and_draw_Ok (router_links_annot access_links_annot : list annotated)
    (layer_map : list (node * Z)) (out : Layout) :
  build_and_draw router_links_annot access_links_annot layer_map = Ok out ->
  (None ∉ layer_map.*1)
  /\ (forall n, n ∈ link_ends (router_links_annot ++ access_links_annot) ->
                n <> None /\ n ∈ layer_map.*1)
  /\ exists G1 layers,
       add_layer_nodes layer_map empty_graph = Ok G1
       /\ add_link_edges (router_links_annot ++ access_links_annot) G1
          = Ok (lay_graph out)
       /\ g_node (lay_graph out) = g_node G1
       /\ group_by_layer (g_node G1) = Ok layers
       /\ lay_pos out = place_layers layers
       /\ rmap (fun '(_, d) => node_style d) (g_node G1) = Ok (lay_styles out).
Proof.
  unfold build_and_draw. intros Hout.
  destruct (add_layer_nodes layer_map empty_graph) as [G1|e] eqn:H1;
    cbn [rbind] in Hout; [|done].
  destruct (add_link_edges _ G1) as [G|e] eqn:H2; cbn [rbind] in Hout; [|done].
  destruct (group_by_layer (g_node G)) as [layers|e] eqn:H3;
    cbn [rbind] in Hout; [|done].
  destruct (rmap _ (g_node G)) as [styles|e] eqn:H4; cbn [rbind] in Hout; [|done].
  injection Hout as <-. cbn [lay_graph lay_pos lay_styles].
  pose proof H1 as (Hnone & _ & Hfull & Hnames)%add_layer_nodes_Ok.
  pose proof H2 as (Hends & extra & Hn & Hextra & Hk)%add_link_edges_Ok.
  assert (Hfull' : attrs_full (g_node G)).
  { destruct (decide (attrs_full (g_node G))) as [?|Hnot]; [done|].
    destruct (group_by_layer_rfold (g_node G) []) as [_ Hr].
    unfold group_by_layer in H3. by rewrite (Hr Hnot) in H3. }
  assert (Hnil : extra = []).
  { destruct extra as [|[k d] extra]; [done|]. exfalso.
    apply Forall_cons in Hextra as [Hd _]. cbn in Hd. subst d.
    unfold attrs_full in Hfull'. rewrite Hn in Hfull'.
    apply Forall_app in Hfull' as [_ [[? [=]] _]%Forall_cons]. }
  subst extra. rewrite app_nil_r in Hn. rewrite Hn in H3, H4.
  split; [done|]. split.
  - intros n Hn'. split; [by intros ->|].
    destruct n as [s|]; [|done].
    destruct (decide (s ∈ node_names G1)) as [Hs|Hs].
    + apply Hnames in Hs as [Hs|Hs]; [by apply elem_of_nil in Hs | done].
    + assert (Hin : s ∈ ([] : list (string * option NodeAttrs)).*1) by (by apply Hk).
      by apply elem_of_nil in Hin.
  - by exists G1, layers.
Qed.

(** X20. In a layout that is built from a layer map with distinct keys, the
    nodes of one layer stand in a row at height minus the layer, each at its
    rank among the items of that layer in the order of the layer map; every
    node has one position, and no two nodes share a position. *)
Theorem layout_positions (router_links_annot access_links_annot : list annotated)
    (layer_map : list (node * Z)) (out : Layout) :
  NoDup layer_map.*1 ->
  build_and_draw router_links_annot access_links_annot layer_map = Ok out ->
  (forall n x y,
      (n, (x, y)) ∈ lay_pos out <->
      exists ly j, layer_row ly layer_map !! j = Some n /\ x = Z.of_nat j /\ y = - ly)
  /\ NoDup (lay_pos out).*1
  /\ NoDup (lay_pos out).*2.
Proof.
  intros Hnd (Hnone & _ & G1 & layers & H1 & _ & _ & H3 & -> & _)%build_and_draw_Ok.
  apply add_layer_nodes_fresh in H1; [|done|by intros s _ ?%elem_of_nil].
  cbn [empty_graph g_node app] in H1. rewrite H1 in H3.
  apply group_by_layer_spec in H3 as (Hkeys & Hrow & _).
  assert (Hrow' : forall ly, row_of ly layers = layer_row ly layer_map).
  { intros ly. by rewrite Hrow, names_in_layer_items. }
  assert (Hks : NoDup (merge_sort Z.le layers.*1)).
  { by rewrite merge_sort_Permutation. }
  assert (Hrows : NoDup (flat_map (fun ly => row_of ly layers)
                           (merge_sort Z.le layers.*1))).
  { rewrite (flat_map_ext _ _ Hrow).
    apply NoDup_rows; [by apply NoDup_node_of_items | done]. }
  unfold place_layers.
  rewrite (place_rows_fresh (fun ly => row_of ly layers)); cbn [app fmap];
    [|done|by intros n _ ?%elem_of_nil].
  cbn [app]. split; [|split].
  - intros n x y. rewrite list_elem_of_In, in_flat_map. split.
    + intros (ly & _ & Hin%list_elem_of_In). unfold row_positions in Hin.
      apply elem_of_lookup_imap in Hin as (j & m & [= -> -> ->] & Hj).
      exists ly, j. by rewrite <- Hrow'.
    + intros (ly & j & Hj & -> & ->). rewrite <- Hrow' in Hj. exists ly. split.
      * apply list_elem_of_In. rewrite merge_sort_Permutation.
        apply row_of_nonempty. intros Hnil. by rewrite Hnil in Hj.
      * apply list_elem_of_In. unfold row_positions.
        apply elem_of_lookup_imap. by exists j, n.
  - by rewrite rows_positions_names.
  - by apply NoDup_row_positions.
Qed.

Lemma layout_positions_witness :
  exists out,
    build_and_draw [(Some "R1", Some "R2", 10000, 3000, false, None)]
      [(Some "R2", Some "SW", 100000, 3000, false, None)]
      [(Some "R1", 0); (Some "R2", 1); (Some "SW", 2)] = Ok out
    /\ NoDup (lay_pos out).*2.
Proof.
  eexists. split; [vm_compute; reflexivity|].
  apply (layout_positions [(Some "R1", Some "R2", 10000, 3000, false, None)]
           [(Some "R2", Some "SW", 100000, 3000, false, None)]
           [(Some "R1", 0); (Some "R2", 1); (Some "SW", 2)]).
  - cbn. repeat (apply NoDup_cons; split;
                 [rewrite ?elem_of_cons, elem_of_nil; intros H; intuition discriminate|]).
    apply NoDup_nil_2.
  - vm_compute. reflexivity.
Defined.

(** ** From the inferred LANs to the renderer *)

(** The access links hold, for every switch, a link from its router to it. *)
Lemma infer_switch_uplink (cfg : Config) (routers : list Router)
    (switches : list Switch) (endpoints : list string) (access_links : list link) :
  infer_access_lans cfg routers = Ok (switches, endpoints, access_links) ->
  forall sw, sw ∈ switches ->
    exists bw, (sw_router sw, Some (sw_name sw), bw) ∈ access_links.
Proof.
  unfold infer_access_lans. rewrite (group_routers_spec cfg routers 0).
  fold (located routers). destruct (located routers) as [ys|e]; [|done]. cbn.
  rewrite lan_fold_spec. cbn [app]. intros [= <- <- <-] sw Hsw.
  apply list_elem_of_In, in_flat_map in Hsw as ([k attaches] & Hitem & Hsw).
  apply list_elem_of_In in Hsw.
  unfold item_switches in Hsw. cbn [fst snd] in Hsw.
  destruct attaches as [|[[rname iname] rbw] [|a2 attaches]];
    [by apply elem_of_nil in Hsw | | by apply elem_of_nil in Hsw].
  apply list_elem_of_singleton in Hsw as ->. cbn [sw_router sw_name].
  exists rbw. apply list_elem_of_In, in_flat_map.
  eexists. split; [exact Hitem|]. unfold item_links. cbn. by left.
Qed.

Lemma elem_of_link_ends (links : list annotated) (a b : node) (bw : Z) :
  (a, b, bw) ∈ an_link <$> links -> a ∈ link_ends links /\ b ∈ link_ends links.
Proof.
  intros (x & Hx & Hin)%list_elem_of_fmap. unfold link_ends.
  split; apply list_elem_of_In, in_flat_map; exists x;
    (split; [by apply list_elem_of_In|]); rewrite <- Hx; cbn; tauto.
Qed.

(** X21. A router that carries an access LAN but is an end of no router
    link gets no layer; as it is an end of the link to its switch, the
    renderer finds a node without a layer and raises: for such a router
    set no picture is drawn. *)
Theorem lan_router_without_link_breaks_layout (cfg : Config) (routers : list Router)
    (router_links : list link) (switches : list Switch) (endpoints : list string)
    (access_links : list link) (router_links_annot access_links_annot : list annotated)
    (layer_items : list (node * Z)) (sw : Switch) :
  infer_access_lans cfg routers = Ok (switches, endpoints, access_links) ->
  an_link <$> access_links_annot = access_links ->
  items_of (auto_assign_layers router_links switches endpoints) layer_items ->
  sw ∈ switches ->
  touches (sw_router sw) router_links = false ->
  sw_router sw ∉ switch_nodes switches ->
  sw_router sw ∉ endpoint_nodes endpoints ->
  exists e, build_and_draw router_links_annot access_links_annot layer_items = Raise e.
Proof.
  intros Hinfer Han [_ Hitems] Hsw Htouch Hnsw Hnep.
  destruct (build_and_draw _ _ _) as [out|e] eqn:Hout; [exfalso | by exists e].
  apply build_and_draw_Ok in Hout as (_ & Hends & _).
  destruct (infer_switch_uplink _ _ _ _ _ Hinfer sw Hsw) as [bw Hup].
  rewrite <- Han in Hup. apply elem_of_link_ends in Hup as [Hr _].
  destruct (Hends (sw_router sw)) as [_ Hkey].
  { unfold link_ends. rewrite flat_map_app. apply elem_of_app. by right. }
  apply list_elem_of_fmap in Hkey as ([k v] & Hk & Hin). cbn in Hk. subst k.
  apply Hitems in Hin.
  rewrite auto_assign_layers_routers in Hin by done.
  destruct (router_layers_inv router_links (sw_router sw)) as [Hdom _].
  assert (Hsome : is_Some (router_layers router_links !! sw_router sw)) by by eexists.
  apply Hdom in Hsome. congruence.
Qed.

Lemma lan_router_without_link_breaks_layout_witness :
  exists e,
    build_and_draw []
      [ (Some "R1", Some "SW_R1_Fa0_1", 10000, 3000, false, None);
        (Some "SW_R1_Fa0_1", Some "PC_SW_R1_Fa0_1_1", 1000, 3000, false, None);
        (Some "SW_R1_Fa0_1", Some "PC_SW_R1_Fa0_1_2", 1000, 3000, false, None) ]
      (map_to_list (auto_assign_layers []
                      [mkSwitch "SW_R1_Fa0_1" (Some "R1") "192.168.1.0/24"]
                      ["PC_SW_R1_Fa0_1_1"; "PC_SW_R1_Fa0_1_2"]))
    = Raise e.
Proof.
  apply (lan_router_without_link_breaks_layout script_config [lone_router] []
           [mkSwitch "SW_R1_Fa0_1" (Some "R1") "192.168.1.0/24"]
           ["PC_SW_R1_Fa0_1_1"; "PC_SW_R1_Fa0_1_2"]
           [ (Some "R1", Some "SW_R1_Fa0_1", 10000);
             (Some "SW_R1_Fa0_1", Some "PC_SW_R1_Fa0_1_1", 1000);
             (Some "SW_R1_Fa0_1", Some "PC_SW_R1_Fa0_1_2", 1000) ]
           [] _ _ (mkSwitch "SW_R1_Fa0_1" (Some "R1") "192.168.1.0/24")).
  - vm_compute. reflexivity.
  - reflexivity.
  - split; [apply NoDup_fst_map_to_list|]. intros k v. apply elem_of_map_to_list.
  - apply list_elem_of_here.
  - reflexivity.
  - cbn. intros Hin%list_elem_of_singleton. discriminate Hin.
  - cbn. intros [Hin|[Hin|Hin%elem_of_nil]%elem_of_cons]%elem_of_cons;
      [discriminate Hin | discriminate Hin | done].
Defined.


(** ** Renderer: one edge per pair of nodes *)

Lemma same_edge_spec (u v u' v' : string) :
  same_edge u v u' v' = true <-> (u = u' /\ v = v') \/ (u = v' /\ v = u').
Proof.
  unfold same_edge.
  rewrite orb_true_iff, !andb_true_iff, !String.eqb_eq. tauto.
Qed.

Lemma same_edge_trans (a b u v u' v' : string) :
  same_edge a b u v = true -> same_edge a b u' v' = same_edge u v u' v'.
Proof.
  intros H%same_edge_spec.
  destruct (same_edge a b u' v') eqn:E1, (same_edge u v u' v') eqn:E2; try done.
  - apply same_edge_spec in E1. apply not_true_iff_false in E2.
    exfalso. apply E2, same_edge_spec. destruct H as [[-> ->]|[-> ->]]; tauto.
  - apply same_edge_spec in E2. apply not_true_iff_false in E1.
    exfalso. apply E1, same_edge_spec. destruct H as [[-> ->]|[-> ->]]; tauto.
Qed.

(** Reading the edge table after a write. *)
Lemma edge_attrs_set_edge (a b u v : string) (d : EdgeAttrs)
    (edges : list (string * string * EdgeAttrs)) :
  edge_attrs a b (set_edge u v d edges)
  = if same_edge a b u v then Some d else edge_attrs a b edges.
Proof.
  destruct (same_edge a b u v) eqn:Hab.
  - induction edges as [|[[u' v'] d'] rest IH]; cbn; [by rewrite Hab|].
    pose proof (same_edge_trans _ _ _ _ u' v' Hab) as Ht.
    destruct (same_edge u v u' v') eqn:E; cbn; rewrite Ht; [done | exact IH].
  - induction edges as [|[[u' v'] d'] rest IH]; cbn; [by rewrite Hab|].
    destruct (same_edge u v u' v') eqn:E; cbn.
    + destruct (same_edge a b u' v') eqn:E'; [|done].
      exfalso. apply same_edge_spec in E, E'. apply not_true_iff_false in Hab.
      apply Hab, same_edge_spec.
      destruct E as [[-> ->]|[-> ->]], E' as [[-> ->]|[-> ->]]; tauto.
    + by rewrite IH.
Qed.

Lemma add_edge_edges (u v : node) (d : EdgeAttrs) (G G' : Graph) :
  add_edge u v d G = Ok G' ->
  exists a b, u = Some a /\ v = Some b /\ g_edge G' = set_edge a b d (g_edge G).
Proof.
  unfold add_edge.
  destruct (ensure_node u G) as [G1|e] eqn:H1; cbn [rbind]; [|done].
  destruct (ensure_node v G1) as [G2|e] eqn:H2; cbn [rbind]; [|done].
  apply ensure_node_Ok in H1 as (a & -> & He1 & _).
  apply ensure_node_Ok in H2 as (b & -> & He2 & _).
  intros [= <-]. exists a, b. cbn. by rewrite He2, He1.
Qed.

(** Links that do not join [a] and [b] leave the edge between them alone. *)
Lemma add_link_edges_other (a b : string) (links : list annotated) :
  forall G G',
    add_link_edges links G = Ok G' ->
    (forall x, x ∈ links -> ~ joins a b x) ->
    edge_attrs a b (g_edge G') = edge_attrs a b (g_edge G).
Proof.
  unfold add_link_edges.
  induction links as [|[[[[[u v] bw] load] ov] app] rest IH]; intros G G'; cbn [rfold].
  - by intros [= <-].
  - destruct (add_edge u v _ G) as [G1|e] eqn:H1; cbn [rbind]; [|done].
    intros Hrest Hno. rewrite (IH _ _ Hrest) by (intros x Hx; apply Hno; by right).
    apply add_edge_edges in H1 as (u' & v' & -> & -> & ->).
    rewrite edge_attrs_set_edge.
    destruct (same_edge a b u' v') eqn:E; [|done].
    exfalso. apply (Hno (Some u', Some v', bw, load, ov, app)); [left|].
    apply same_edge_spec in E. unfold joins. cbn.
    destruct E as [[-> ->]|[-> ->]]; tauto.
Qed.

Lemma add_link_edges_app (xs ys : list annotated) (G : Graph) :
  add_link_edges (xs ++ ys) G
  = let* G' := add_link_edges xs G in add_link_edges ys G'.
Proof. apply rfold_app. Qed.

Lemma add_link_edges_cons (a b : node) (bw load : Z) (ov : bool) (app : option string)
    (rest : list annotated) (G : Graph) :
  add_link_edges ((a, b, bw, load, ov, app) :: rest) G
  = let* G' := add_edge a b (bw, load, ov, app) G in add_link_edges rest G'.
Proof. done. Qed.

(** X22. The graph keeps one edge per pair of nodes: of several links that
    join the same two nodes, in either direction, the edge carries the
    bandwidth, load, overload flag and application of the last one, and is
    the same edge read from either end. *)
Theorem parallel_links_last_wins (router_links_annot access_links_annot : list annotated)
    (layer_map : list (node * Z)) (out : Layout) (pre post : list annotated)
    (a b : string) (d : EdgeAttrs) :
  build_and_draw router_links_annot access_links_annot layer_map = Ok out ->
  router_links_annot ++ access_links_annot
  = pre ++ (Some a, Some b, d.1.1.1, d.1.1.2, d.1.2, d.2) :: post ->
  (forall x, x ∈ post -> ~ joins a b x) ->
  edge_attrs a b (g_edge (lay_graph out)) = Some d
  /\ edge_attrs b a (g_edge (lay_graph out)) = Some d.
Proof.
  intros (_ & _ & G1 & layers & _ & Hedges & _)%build_and_draw_Ok Hsplit Hpost.
  rewrite Hsplit, add_link_edges_app in Hedges.
  destruct (add_link_edges pre G1) as [Gp|e]; cbn [rbind] in Hedges; [|done].
  rewrite add_link_edges_cons in Hedges.
  destruct (add_edge _ _ _ Gp) as [Gx|e] eqn:Hx; cbn [rbind] in Hedges; [|done].
  apply add_edge_edges in Hx as (a' & b' & [= <-] & [= <-] & Hx).
  destruct d as [[[bw load] ov] app]. cbn [fst snd] in Hx.
  split.
  - rewrite (add_link_edges_other a b post Gx _ Hedges Hpost).
    rewrite Hx, edge_attrs_set_edge.
    by rewrite (proj2 (same_edge_spec a b a b)) by tauto.
  - rewrite (add_link_edges_other b a post Gx _ Hedges).
    + rewrite Hx, edge_attrs_set_edge.
      by rewrite (proj2 (same_edge_spec b a a b)) by tauto.
    + intros x Hin Hj. apply (Hpost x Hin). unfold joins in *. tauto.
Qed.

Lemma parallel_links_last_wins_witness :
  exists out,
    build_and_draw
      [ (Some "R1", Some "R2", 10000, 3000, false, None);
        (Some "R2", Some "R1", 64, 3000, true, None) ] []
      [(Some "R1", 0); (Some "R2", 1)] = Ok out
    /\ edge_attrs "R1" "R2" (g_edge (lay_graph out)) = Some (64, 3000, true, None).
Proof.
  eexists. split; [vm_compute; reflexivity|].
  apply (parallel_links_last_wins
           [ (Some "R1", Some "R2", 10000, 3000, false, None);
             (Some "R2", Some "R1", 64, 3000, true, None) ] []
           [(Some "R1", 0); (Some "R2", 1)] _
           [(Some "R1", Some "R2", 10000, 3000, false, None)] []
           "R2" "R1" (64, 3000, true, None)).
  - vm_compute. reflexivity.
  - reflexivity.
  - intros x Hx. by apply elem_of_nil in Hx.
Defined.

(** ** Subnets: [==] and [str] agree *)

Lemma append_cons (c : ascii) (s t : string) :
  String c s +:+ t = String c (s +:+ t).
Proof. done. Qed.

Lemma append_nil (t : string) : EmptyString +:+ t = t.
Proof. done. Qed.

Lemma has_char_append (c : ascii) (s t : string) :
  has_char c (s +:+ t) = has_char c s || has_char c t.
Proof.
  induction s as [|c' s IH]; [done|]. rewrite append_cons. cbn.
  rewrite IH. by rewrite orb_assoc.
Qed.

(** A string is cut in one way at the first occurrence of a character. *)
Lemma append_sep_inj (c : ascii) (s1 s2 r1 r2 : string) :
  has_char c s1 = false -> has_char c s2 = false ->
  s1 +:+ String c r1 = s2 +:+ String c r2 -> s1 = s2 /\ r1 = r2.
Proof.
  revert s2. induction s1 as [|a s1 IH]; intros [|b s2];
    rewrite ?append_cons, ?append_nil; cbn.
  - by intros _ _ [= ->].
  - intros _ [Hb _]%orb_false_iff [= <- _]. by rewrite Ascii.eqb_refl in Hb.
  - intros [Ha _]%orb_false_iff _ [= -> _]. by rewrite Ascii.eqb_refl in Ha.
  - intros [_ H1]%orb_false_iff [_ H2]%orb_false_iff [= -> Heq].
    destruct (IH _ H1 H2 Heq) as [-> ->]. done.
Qed.

Lemma byte_range (n k : Z) : 0 <= Z.land (Z.shiftr n k) 255 < 256.
Proof.
  change 255 with (Z.ones 8). rewrite Z.land_ones by lia.
  apply Z.mod_pos_bound. lia.
Qed.

(** The decimal form of a byte holds no dot and no slash. *)
Lemma pretty_byte_chars (b : Z) :
  0 <= b < 256 ->
  has_char "." (pretty b) = false /\ has_char "/" (pretty b) = false.
Proof.
  intros Hb.
  assert (Hall : Forall (fun b : Z => has_char "." (pretty b) = false
                                      /\ has_char "/" (pretty b) = false)
                   (seqZ 0 256)).
  { apply (bool_decide_unpack _). vm_compute. exact I. }
  rewrite Forall_forall in Hall. apply Hall, elem_of_seqZ. lia.
Qed.

Lemma ip_int_from_prefix_inj (p q : Z) :
  0 <= p <= 32 -> 0 <= q <= 32 ->
  IPv4.ip_int_from_prefix p = IPv4.ip_int_from_prefix q -> p = q.
Proof.
  intros Hp Hq.
  assert (Hall : Forall (fun p : Z => Forall (fun q : Z =>
                   IPv4.ip_int_from_prefix p = IPv4.ip_int_from_prefix q -> p = q)
                   (seqZ 0 33)) (seqZ 0 33)).
  { apply (bool_decide_unpack _). vm_compute. exact I. }
  rewrite Forall_forall in Hall.
  assert (Hp' : p ∈ seqZ 0 33) by (apply elem_of_seqZ; lia).
  specialize (Hall p Hp'). rewrite Forall_forall in Hall.
  apply Hall, elem_of_seqZ. lia.
Qed.

Lemma ip_int_from_prefix_range (p : Z) :
  0 <= p <= 32 -> 0 <= IPv4.ip_int_from_prefix p < 2 ^ 32.
Proof.
  intros Hp.
  assert (Hall : Forall (fun p : Z => 0 <= IPv4.ip_int_from_prefix p < 2 ^ 32)
                   (seqZ 0 33)).
  { apply (bool_decide_unpack _). vm_compute. exact I. }
  rewrite Forall_forall in Hall. apply Hall, elem_of_seqZ. lia.
Qed.

(** The dotted form determines an address below 2^32. *)
Lemma address_str_inj (m n : Z) :
  0 <= m < 2 ^ 32 -> 0 <= n < 2 ^ 32 ->
  IPv4.address_str m = IPv4.address_str n -> m = n.
Proof.
  intros Hm Hn. unfold IPv4.address_str.
  change ("." +:+ ?s) with (String "." s).
  pose proof (byte_range m 24) as Hm3. pose proof (byte_range n 24) as Hn3.
  pose proof (byte_range m 16) as Hm2. pose proof (byte_range n 16) as Hn2.
  pose proof (byte_range m 8) as Hm1. pose proof (byte_range n 8) as Hn1.
  intros [H3 Hrest]%append_sep_inj;
    [|by apply pretty_byte_chars|by apply pretty_byte_chars].
  apply append_sep_inj in Hrest as [H2 Hrest];
    [|by apply pretty_byte_chars|by apply pretty_byte_chars].
  apply append_sep_inj in Hrest as [H1 H0];
    [|by apply pretty_byte_chars|by apply pretty_byte_chars].
  apply (inj pretty) in H3, H2, H1, H0.
  revert H3 H2 H1 H0. change 255 with (Z.ones 8).
  rewrite !Z.land_ones, !Z.shiftr_div_pow2 by lia.
  change (2 ^ 8) with 256. change (2 ^ 24) with 16777216.
  change (2 ^ 16) with 65536. change (2 ^ 32) with 4294967296 in *.
  intros H3 H2 H1 H0.
  clear Hm3 Hn3 Hm2 Hn2 Hm1 Hn1. Z.div_mod_to_equations. lia.
Qed.

Lemma has_char_address_str (n : Z) : has_char "/" (IPv4.address_str n) = false.
Proof.
  assert (H0 : 0 <= Z.land n 255 < 256).
  { rewrite <- (Z.shiftr_0_r n) at 1 2. apply byte_range. }
  unfold IPv4.address_str. rewrite !has_char_append.
  rewrite (proj2 (pretty_byte_chars _ (byte_range n 24))).
  rewrite (proj2 (pretty_byte_chars _ (byte_range n 16))).
  rewrite (proj2 (pretty_byte_chars _ (byte_range n 8))).
  by rewrite (proj2 (pretty_byte_chars _ H0)).
Qed.

(** On the networks that [IPv4Network] builds from an address and a mask,
    two networks are [==] exactly when they print the same. *)
Lemma eqb_iff_str (a b : IPv4.Network) :
  masked_network a -> masked_network b ->
  IPv4.eqb a b = true <-> IPv4.str a = IPv4.str b.
Proof.
  intros (Hpa & Hma & Haa & _) (Hpb & Hmb & Hab & _).
  unfold IPv4.eqb, IPv4.str. rewrite andb_true_iff, !Z.eqb_eq.
  change ("/" +:+ ?s) with (String "/" s). split.
  - intros [-> Hnm]. rewrite Hma, Hmb in Hnm.
    by rewrite (ip_int_from_prefix_inj _ _ Hpa Hpb Hnm).
  - intros [Haddr Hp]%append_sep_inj; [|apply has_char_address_str..].
    apply (inj pretty) in Hp. split; [by apply address_str_inj|].
    by rewrite Hma, Hmb, Hp.
Qed.

Lemma length_split_char_go (sep : ascii) (s r : string) :
  forall cur, (2 <= length (PyStr.split_char_go sep cur (s +:+ String sep r)))%nat.
Proof.
  assert (Hne : forall t cur, (1 <= length (PyStr.split_char_go sep cur t))%nat).
  { induction t as [|c t IH]; intros cur; cbn; [lia|].
    destruct (Ascii.eqb c sep); [cbn; lia | apply IH]. }
  induction s as [|c s IH]; intros cur; rewrite ?append_cons, ?append_nil; cbn.
  - rewrite Ascii.eqb_refl. cbn. specialize (Hne r EmptyString). lia.
  - destruct (Ascii.eqb c sep); [|apply IH]. cbn.
    specialize (Hne (s +:+ String sep r) EmptyString). lia.
Qed.

Lemma count_zero_bits_range (fuel : nat) :
  forall n, 0 <= IPv4.count_zero_bits fuel n <= Z.of_nat fuel.
Proof.
  induction fuel as [|fuel IH]; intros n; cbn [IPv4.count_zero_bits]; [lia|].
  destruct (Z.testbit n 0); [lia|]. specialize (IH (Z.shiftr n 1)). lia.
Qed.

Lemma prefix_from_ip_int_range (n p : Z) :
  IPv4.prefix_from_ip_int n = Some p -> 0 <= p <= 32.
Proof.
  assert (Htz : 0 <= IPv4.count_righthand_zero_bits n IPv4.max_prefixlen <= 32).
  { unfold IPv4.count_righthand_zero_bits, IPv4.max_prefixlen.
    pose proof (count_zero_bits_range (Z.to_nat 32) n).
    destruct (n =? 0); lia. }
  unfold IPv4.prefix_from_ip_int.
  generalize dependent (IPv4.count_righthand_zero_bits n IPv4.max_prefixlen).
  intros tz Htz. unfold IPv4.max_prefixlen.
  destruct (Z.shiftr n tz =? _); intros [= <-]. lia.
Qed.

Lemma make_netmask_Some (s : string) (nm p : Z) :
  IPv4.make_netmask s = Some (nm, p) ->
  0 <= p <= 32 /\ nm = IPv4.ip_int_from_prefix p.
Proof.
  unfold IPv4.make_netmask.
  destruct (IPv4.prefix_from_prefix_string s) as [q|] eqn:Hq.
  - cbn. intros [= <- <-]. split; [|done].
    unfold IPv4.prefix_from_prefix_string, IPv4.max_prefixlen in Hq.
    destruct (negb _); [done|].
    destruct (_ && _) eqn:E; [|done]. injection Hq as <-.
    apply andb_true_iff in E as [?%Z.leb_le ?%Z.leb_le]. lia.
  - destruct (IPv4.prefix_from_ip_string s) as [q|] eqn:Hq'; [|done].
    cbn. intros [= <- <-]. split; [|done].
    unfold IPv4.prefix_from_ip_string in Hq'.
    destruct (IPv4.ip_int_from_string s) as [n|]; [|done].
    destruct (IPv4.prefix_from_ip_int n) as [q'|] eqn:E.
    + injection Hq' as <-. by eapply prefix_from_ip_int_range.
    + by eapply prefix_from_ip_int_range.
Qed.

(** The subnet of an interface, when there is one, is a masked network. *)
Lemma iface_net_masked (iface : Interface) (n : IPv4.Network) :
  iface_net iface = Ok n -> masked_network n.
Proof.
  unfold iface_net, IPv4.IPv4Network.
  change ("/" +:+ ?s) with (String "/" s).
  pose proof (length_split_char_go "/" (PyStr.format (iface_ip iface))
                (PyStr.format (iface_mask iface)) EmptyString) as Hlen.
  unfold PyStr.split_char.
  destruct (PyStr.split_char_go _ _ _) as [|addr [|mask [|x rest]]]; try done.
  { cbn in Hlen. lia. }
  destruct (IPv4.ip_int_from_string addr) as [packed|]; [|done].
  destruct (IPv4.make_netmask mask) as [[nm p]|] eqn:Hnm; [|done].
  intros [= <-]. apply make_netmask_Some in Hnm as [Hp ->].
  unfold masked_network. cbn.
  pose proof (ip_int_from_prefix_range p Hp) as Hr.
  split; [done|]. split; [done|].
  assert (Hland : Z.land packed (IPv4.ip_int_from_prefix p)
                  = Z.land packed (IPv4.ip_int_from_prefix p) mod 2 ^ 32).
  { rewrite <- Z.land_ones by lia. rewrite <- Z.land_assoc.
    rewrite (Z.land_ones (IPv4.ip_int_from_prefix p)) by lia.
    by rewrite Z.mod_small. }
  split.
  - rewrite Hland. apply Z.mod_pos_bound. lia.
  - rewrite <- Z.land_assoc. by rewrite Z.land_diag.
Qed.

(** X23. The link finder and the LAN inferrer agree on what a subnet is:
    the networks of two interfaces are equal for [find_router_links]
    exactly when [infer_access_lans] files them under the same key. *)
Theorem subnet_equality_is_key_equality (ia ib : Interface) (na nb : IPv4.Network) :
  iface_net ia = Ok na -> iface_net ib = Ok nb ->
  IPv4.eqb na nb = true <-> IPv4.str na = IPv4.str nb.
Proof.
  intros Ha%iface_net_masked Hb%iface_net_masked. by apply eqb_iff_str.
Qed.

Lemma subnet_equality_is_key_equality_witness :
  IPv4.eqb (IPv4.mkNetwork 167772160 4294967292 30)
           (IPv4.mkNetwork 167772160 4294967292 30) = true
  <-> IPv4.str (IPv4.mkNetwork 167772160 4294967292 30)
      = IPv4.str (IPv4.mkNetwork 167772160 4294967292 30).
Proof.
  apply (subnet_equality_is_key_equality
           (mkInterface "Fa0/0" (Some "10.0.0.1") (Some "255.255.255.252") None)
           (mkInterface "Fa0/0" (Some "10.0.0.2") (Some "0.0.0.3") None)).
  - vm_compute. reflexivity.
  - vm_compute. reflexivity.
Defined.

(** ** Renderer: nodes and their styles *)

Lemma node_styles_of_items (items : list (node * Z)) :
  None ∉ items.*1 ->
  rmap (fun '(_, d) => node_style d) (omap node_of_item items)
  = Ok (style_of_layer <$> items.*2).
Proof.
  induction items as [|[n ly] rest IH]; [done|]. cbn.
  intros [Hn Hrest]%not_elem_of_cons. unfold node_of_item at 1. cbn.
  destruct n as [s|]; [|done]. cbn [rmap]. rewrite (IH Hrest).
  unfold node_style, style_of_layer, ntype_of_layer. cbn.
  destruct (ly =? 3); [done|]. by destruct (ly =? 2).
Qed.

(** X24. In a layout that is built from a layer map with distinct keys, the
    nodes are the keys of the layer map in its order, the links add none,
    and each node is drawn by its layer alone: layer 3 as an endpoint,
    layer 2 as a switch, and any other layer as a router. *)
Theorem layout_nodes_and_styles (router_links_annot access_links_annot : list annotated)
    (layer_map : list (node * Z)) (out : Layout) :
  NoDup layer_map.*1 ->
  build_and_draw router_links_annot access_links_annot layer_map = Ok out ->
  Some <$> node_names (lay_graph out) = layer_map.*1
  /\ lay_styles out = style_of_layer <$> layer_map.*2.
Proof.
  intros Hnd (Hnone & _ & G1 & layers & H1 & _ & Hn & _ & _ & H4)%build_and_draw_Ok.
  apply add_layer_nodes_fresh in H1; [|done|by intros s _ ?%elem_of_nil].
  cbn [empty_graph g_node app] in H1. rewrite H1 in H4, Hn.
  rewrite node_styles_of_items in H4 by done. injection H4 as <-.
  split; [|done]. unfold node_names. rewrite Hn. clear -Hnone.
  induction layer_map as [|[n ly] rest IH]; [done|]. cbn in *.
  apply not_elem_of_cons in Hnone as [Hn Hrest]. unfold node_of_item at 1. cbn.
  destruct n as [s|]; [|done]. cbn. by rewrite IH.
Qed.

Lemma layout_nodes_and_styles_witness :
  exists out,
    build_and_draw [(Some "R1", Some "R2", 10000, 3000, false, None)]
      [(Some "R2", Some "SW", 100000, 3000, false, None)]
      [(Some "R1", 0); (Some "R2", 1); (Some "SW", 2)] = Ok out
    /\ lay_styles out = [(1600, "#8ecae6"); (1600, "#8ecae6"); (1300, "#bde0fe")].
Proof.
  eexists. split; [vm_compute; reflexivity|].
  apply (layout_nodes_and_styles [(Some "R1", Some "R2", 10000, 3000, false, None)]
           [(Some "R2", Some "SW", 100000, 3000, false, None)]
           [(Some "R1", 0); (Some "R2", 1); (Some "SW", 2)]).
  - cbn. repeat (apply NoDup_cons; split;
                 [rewrite ?elem_of_cons, elem_of_nil; intros H; intuition discriminate|]).
    apply NoDup_nil_2.
  - vm_compute. reflexivity.
Defined.
